(** * WebE IDE: a shallow embedding of the editor's non-GUI logic

    The development follows the layout of the repository:

    - [Debugger]   src/ui/debugger.py        (step-control flags, output buffering)
    - [Editor]     src/editor/editor.py      (indentation-based folding)
    - [Snippets]   src/ui/snippets.py        (snippet store and its dialog)
    - [Project]    src/ui/projectmanager.py  (project files on disk)
    - [Git]        src/ui/gitintegration.py  (shell wrapper around git)
    - [Statistics] src/ui/statistics.py      (line classification)

    Python objects that are mutated in place become explicit states that are
    passed through every call; exceptions become values of [pyexn]; calls to
    the operating system and to library code outside the repository are
    section variables. *)

From Stdlib Require Import ZArith Lia.
From stdpp Require Import base option list strings gmap pretty.

Set Warnings "-register-all".


(** ** Python values shared by all components *)

(** A raised exception: the name of its class and the text [str(e)]. *)
Record pyexn := PyExn { exn_class : string; exn_text : string }.

(** [s.endswith(suffix)] on Python strings: some tail of [s] is [suffix]. *)
Fixpoint endswith (s suffix : string) : bool :=
  if String.eqb s suffix then true
  else match s with
       | EmptyString => false
       | String _ r => endswith r suffix
       end.

(** [sub in s] for a one-character [sub]: some character of [s] is [c]. *)
Fixpoint contains_char (c : Ascii.ascii) (s : string) : bool :=
  match s with
  | EmptyString => false
  | String d r => if Ascii.eqb c d then true else contains_char c r
  end.

(** ['\n'] and ["\n"]. *)
Definition NL : Ascii.ascii := Ascii.ascii_of_nat 10.
Definition newline : string := String NL EmptyString.

(** The one-character string holding a double quote. *)
Definition DQUOTE : string := String (Ascii.ascii_of_nat 34) EmptyString.

(** [''.join(parts)]. *)
Definition join (parts : list string) : string :=
  foldr String.append EmptyString parts.

(** Python truthiness of a string: [not s] holds for the empty string. *)
Definition truthy (s : string) : bool :=
  match s with EmptyString => false | String _ _ => true end.

(** ** Unicode text

    The editor and the statistics dialog look at whitespace, which for a
    Python [str] is decided per code point: text is a list of code points. *)

Abbreviation codepoint := N (only parsing).
Abbreviation text := (list N) (only parsing).

(** [c.isspace()] for a single character, as CPython decides it. *)
Definition py_isspace (c : codepoint) : bool :=
  ((9 <=? c) && (c <=? 13) || (28 <=? c) && (c <=? 32)
   || (c =? 133) || (c =? 160) || (c =? 5760)
   || (8192 <=? c) && (c <=? 8202)
   || (c =? 8232) || (c =? 8233) || (c =? 8239) || (c =? 8287) || (c =? 12288))%N.

(** [s.lstrip()], [s.rstrip()] and [s.strip()] without argument. *)
Fixpoint lstrip (s : text) : text :=
  match s with
  | [] => []
  | c :: r => if py_isspace c then lstrip r else s
  end.

Definition rstrip (s : text) : text := reverse (lstrip (reverse s)).

Definition strip (s : text) : text := rstrip (lstrip s).

(** [s.startswith(c)] for a one-character prefix. *)
Definition startswith_char (c : codepoint) (s : text) : bool :=
  match s with
  | [] => false
  | d :: _ => (d =? c)%N
  end.

(** [s.split(sep)] for a one-character separator: never empty, one more
    segment than there are separators. *)
Fixpoint split_on (sep : codepoint) (s : text) : list text :=
  match s with
  | [] => [[]]
  | c :: r =>
      if (c =? sep)%N then [] :: split_on sep r
      else match split_on sep r with
           | [] => [[c]]
           | seg :: segs => (c :: seg) :: segs
           end
  end.

(** [sep.join(segs)] for a one-character separator. *)
Fixpoint join_with (sep : codepoint) (segs : list text) : text :=
  match segs with
  | [] => []
  | [seg] => seg
  | seg :: rest => seg ++ sep :: join_with sep rest
  end.

(** The code points of an ASCII literal, for examples. *)
Fixpoint text_of (s : string) : text :=
  match s with
  | EmptyString => []
  | String c r => N.of_nat (Ascii.nat_of_ascii c) :: text_of r
  end.

(** ** Message boxes

    [QMessageBox.warning] and [QMessageBox.information] are recorded in the
    order in which they are shown. *)

Inductive msgkind := Warning | Information.

Record message := MkMessage {
  msg_kind : msgkind;
  msg_title : string;
  msg_text : string
}.

(** ** src/ui/debugger.py *)

Module Debugger.

(** The four intents held by [DebuggerThread] (set in [__init__] to False). *)
Record DebuggerThread := MkThread {
  should_continue : bool;
  should_step : bool;
  should_step_in : bool;
  should_step_out : bool
}.

Definition init_thread : DebuggerThread := MkThread false false false false.

(** The button handlers of [DebuggerThread]. *)
Definition continue_execution (t : DebuggerThread) : DebuggerThread :=
  MkThread true (should_step t) (should_step_in t) (should_step_out t).
Definition step (t : DebuggerThread) : DebuggerThread :=
  MkThread (should_continue t) true (should_step_in t) (should_step_out t).
Definition step_in (t : DebuggerThread) : DebuggerThread :=
  MkThread (should_continue t) (should_step t) true (should_step_out t).
Definition step_out (t : DebuggerThread) : DebuggerThread :=
  MkThread (should_continue t) (should_step t) (should_step_in t) true.

(** Names for the four flags, to state properties flag by flag. *)
Inductive flag := FContinue | FStep | FStepIn | FStepOut.

#[global] Instance flag_eq_dec : EqDecision flag.
Proof. solve_decision. Defined.

Definition flag_get (f : flag) (t : DebuggerThread) : bool :=
  match f with
  | FContinue => should_continue t
  | FStep => should_step t
  | FStepIn => should_step_in t
  | FStepOut => should_step_out t
  end.

(** The command the spec associates with each flag. *)
Definition command_of (f : flag) : string :=
  match f with
  | FContinue => "c"
  | FStep => "n"
  | FStepIn => "s"
  | FStepOut => "r"
  end.

(** A click on the button of flag [f] runs the matching handler. *)
Definition click (f : flag) (t : DebuggerThread) : DebuggerThread :=
  match f with
  | FContinue => continue_execution t
  | FStep => step t
  | FStepIn => step_in t
  | FStepOut => step_out t
  end.

Definition clicks (fs : list flag) (t : DebuggerThread) : DebuggerThread :=
  foldl (fun acc f => click f acc) t fs.

(** [CustomDebugger]: the thread it talks to, its output buffer, and the
    texts emitted so far through [output_signal] (oldest first). *)
Record CustomDebugger := MkDebugger {
  debugger_thread : DebuggerThread;
  output_buffer : list string;
  output_signal : list string
}.

Definition new_debugger (t : DebuggerThread) : CustomDebugger :=
  MkDebugger t [] [].

(** [CustomDebugger.write]. *)
Definition write (text : string) (d : CustomDebugger) : CustomDebugger :=
  let buf := output_buffer d ++ [text] in
  if endswith text newline
  then MkDebugger (debugger_thread d) [] (output_signal d ++ [join buf])
  else MkDebugger (debugger_thread d) buf (output_signal d).

Definition write_all (chunks : list string) (d : CustomDebugger) : CustomDebugger :=
  foldl (fun acc text => write text acc) d chunks.

(** One pass through the [if]/[elif] chain of [readline]: the command that
    is returned and the thread after the assignment, or [None] when the pass
    falls through to the sleep. *)
Definition poll (t : DebuggerThread) : option (string * DebuggerThread) :=
  if should_continue t then
    Some ("c", MkThread false (should_step t) (should_step_in t) (should_step_out t))
  else if should_step t then
    Some ("n", MkThread (should_continue t) false (should_step_in t) (should_step_out t))
  else if should_step_in t then
    Some ("s", MkThread (should_continue t) (should_step t) false (should_step_out t))
  else if should_step_out t then
    Some ("r", MkThread (should_continue t) (should_step t) (should_step_in t) false)
  else None.

(** How a call of [readline] ends. [Pending] is a loop that is still
    polling when the observed schedule of the UI thread is exhausted. *)
Inductive outcome :=
| Returned (cmd : string)
| Raised (e : pyexn)
| Pending.

Record readline_result := MkResult {
  res_outcome : outcome;
  res_thread : DebuggerThread;
  res_slept_ms : nat
}.

(** Attributes that the class statement of [CustomDebugger] and its
    [__init__] define on an instance. *)
Definition CustomDebugger_attrs : list string :=
  ["__init__"; "write"; "readline"; "user_line"; "debugger_thread"; "output_buffer"].

Section Readline.

(** [CustomDebugger] derives from [pdb.Pdb], which is library code: the
    names that an instance inherits from it are a parameter. *)
Variable Pdb_attrs : list string.

(** Attribute lookup on a [CustomDebugger] instance. *)
Definition has_attr (name : string) : bool :=
  bool_decide (name ∈ CustomDebugger_attrs) || bool_decide (name ∈ Pdb_attrs).

(** [self.msleep(ms)] inside [readline], where [self] is the
    [CustomDebugger]: the lookup either fails with AttributeError or the
    call sleeps. *)
Definition self_msleep (ms : nat) : pyexn + nat :=
  if has_attr "msleep" then inr ms
  else inl (PyExn "AttributeError" "'CustomDebugger' object has no attribute 'msleep'").

(** [CustomDebugger.readline]. The other thread is the UI: [schedule] lists,
    for each sleep in turn, the buttons clicked while the worker sleeps. *)
Fixpoint readline_loop (schedule : list (list flag)) (t : DebuggerThread)
    (slept : nat) : readline_result :=
  match poll t with
  | Some (cmd, t') => MkResult (Returned cmd) t' slept
  | None =>
      match self_msleep 100 with
      | inl e => MkResult (Raised e) t slept
      | inr ms =>
          match schedule with
          | [] => MkResult Pending t (slept + ms)
          | fs :: rest => readline_loop rest (clicks fs t) (slept + ms)
          end
      end
  end.

Definition readline (schedule : list (list flag)) (t : DebuggerThread) : readline_result :=
  readline_loop schedule t 0.

End Readline.

(** [list.remove(x)] on a list that holds [x]: the first occurrence goes. *)
Fixpoint remove_line (line : Z) (lines : list Z) : list Z :=
  match lines with
  | [] => []
  | l :: rest => if bool_decide (l = line) then rest else l :: remove_line line rest
  end.

(** [DebuggerThread.set_breakpoint] on the dict [self.breakpoints]. *)
Definition set_breakpoint (file_path : string) (line : Z)
    (breakpoints : gmap string (list Z)) : gmap string (list Z) :=
  let breakpoints :=
    match breakpoints !! file_path with
    | None => <[file_path := []]> breakpoints
    | Some _ => breakpoints
    end in
  match breakpoints !! file_path with
  | Some lines =>
      if bool_decide (line ∈ lines) then breakpoints
      else <[file_path := lines ++ [line]]> breakpoints
  | None => breakpoints
  end.

(** [DebuggerThread.remove_breakpoint]. *)
Definition remove_breakpoint (file_path : string) (line : Z)
    (breakpoints : gmap string (list Z)) : gmap string (list Z) :=
  match breakpoints !! file_path with
  | Some lines =>
      if bool_decide (line ∈ lines)
      then <[file_path := remove_line line lines]> breakpoints
      else breakpoints
  | None => breakpoints
  end.

(** The lines with a breakpoint in a file. *)
Definition lines_of (file_path : string) (breakpoints : gmap string (list Z)) : list Z :=
  default [] (breakpoints !! file_path).

(** Every file keeps a list of lines without repetition. *)
Definition breakpoints_distinct (breakpoints : gmap string (list Z)) : Prop :=
  ∀ file_path lines, breakpoints !! file_path = Some lines → NoDup lines.

(** The order in which [readline] looks at the flags. *)
Definition rank (f : flag) : nat :=
  match f with
  | FContinue => 0
  | FStep => 1
  | FStepIn => 2
  | FStepOut => 3
  end.

(** The text shown for a variable in [DebuggerDialog.update_variables];
    [shown] is what [str(value)] gives, a string or an exception. [len] and
    the slice [[:100]] count code points. *)
Definition display_value (shown : pyexn + text) : text :=
  match shown with
  | inr value_str =>
      if (100 <? length value_str)%nat
      then take 100 value_str ++ text_of "..."
      else value_str
  | inl _ => text_of "[Error displaying value]"
  end.

(** [name.startswith('_')]. *)
Definition is_private (name : text) : bool := startswith_char 95 name.

(** The rows added under one scope by [update_variables]: name and
    displayed value of every variable of [vars_dict] that is not skipped. *)
Fixpoint variable_rows (vars_dict : list (text * (pyexn + text)))
    : list (text * text) :=
  match vars_dict with
  | [] => []
  | (name, shown) :: rest =>
      if is_private name then variable_rows rest
      else (name, display_value shown) :: variable_rows rest
  end.

End Debugger.

(** ** src/editor/editor.py *)

Module Editor.

(** A [QTextBlock] of the document, reduced to what folding reads and
    writes. Qt initialises [userState] to -1 and [visible] to true. *)
Record block := MkBlock {
  block_text : text;
  userState : Z;
  visible : bool
}.

Definition new_block (s : text) : block := MkBlock s (-1) true.

(** The document is the list of its blocks. A block handle is an index:
    it [isValid] when it is below the length, and [next()] is the successor
    index. *)
Abbreviation document := (list block) (only parsing).

Definition setUserState (st : Z) (b : block) : block :=
  MkBlock (block_text b) st (visible b).

Definition setVisible (v : bool) (b : block) : block :=
  MkBlock (block_text b) (userState b) v.

(** [CodeEditor.get_indent_level]. *)
Definition get_indent_level (b : block) : nat :=
  length (block_text b) - length (lstrip (block_text b)).

(** The [while] loop of [toggle_fold], started on the blocks that follow
    the toggled one: it walks forward while the indentation is deeper than
    [level] and stops at the first block that is not. *)
Fixpoint set_children_visible (v : bool) (level : nat) (rest : list block) : list block :=
  match rest with
  | [] => []
  | nb :: rest' =>
      if (level <? get_indent_level nb)%nat
      then setVisible v nb :: set_children_visible v level rest'
      else rest
  end.

(** [CodeEditor.toggle_fold]. *)
Definition toggle_fold (doc : document) (i : nat) : document :=
  match doc !! i with
  | None => doc
  | Some b =>
      if (userState b =? 1)%Z then
        take i doc ++ setUserState 0 b
          :: set_children_visible true (get_indent_level b) (drop (S i) doc)
      else
        take i doc ++ setUserState 1 b
          :: set_children_visible false (get_indent_level b) (drop (S i) doc)
  end.

(** [CodeEditor.can_fold]. *)
Definition can_fold (doc : document) (i : nat) : bool :=
  match doc !! i with
  | None => false
  | Some b =>
      match doc !! S i with
      | None => false
      | Some nb => (get_indent_level b <? get_indent_level nb)%nat
      end
  end.

(** The run of children of block [i], in the words of the spec: [k] blocks
    after [i] are all indented deeper than [level], and the block after
    them, if there is one, is not. *)
Definition is_child_run (doc : document) (i level k : nat) : Prop :=
  (∀ j, (i < j ≤ i + k)%nat →
        ∃ c, doc !! j = Some c ∧ (level < get_indent_level c)%nat) ∧
  (∀ c, doc !! (i + k + 1)%nat = Some c → (get_indent_level c ≤ level)%nat).

(** A four-line document: a header, two indented lines and a line at the
    level of the header. *)
Definition sample_document : document :=
  [ new_block (text_of "def f():");
    new_block (text_of "    x = 1");
    new_block (text_of "    return x");
    new_block (text_of "y = 2") ].

(** What the spec says a fold toggle does to the document: block [i] gets
    user state [st], the [k] blocks after it get visibility [v], and nothing
    else changes. *)
Definition folded_as (doc doc' : document) (i k : nat) (st : Z) (v : bool) : Prop :=
  length doc' = length doc ∧
  ∀ j c, doc !! j = Some c →
    doc' !! j = Some (MkBlock (block_text c)
                        (if decide (j = i) then st else userState c)
                        (if decide (i < j ≤ i + k)%nat then v else visible c)).

End Editor.

(** ** src/ui/statistics.py *)

Module Statistics.

(** The line counts of the [stats] dictionary built by
    [analyze_current_file]. The word count and the average line length are
    not part of the model. *)
Record stats := MkStats {
  total_lines : nat;
  empty_lines : nat;
  code_lines : nat;
  comment_lines : nat;
  total_characters : nat
}.

Definition HASH : codepoint := 35%N.
Definition LF : codepoint := 10%N.

(** The three generator conditions. *)
Definition is_empty_line (line : text) : bool :=
  match strip line with [] => true | _ => false end.

Definition is_comment_line (line : text) : bool :=
  startswith_char HASH (strip line).

Definition is_code_line (line : text) : bool :=
  negb (is_empty_line line) && negb (is_comment_line line).

(** [sum(1 for line in lines if cond(line))]. *)
Definition count_lines (cond : text → bool) (lines : list text) : nat :=
  length (filter (fun line => cond line = true) lines).

(** The statistics of [analyze_current_file] for a file whose text is
    [content]. *)
Definition analyze (content : text) : stats :=
  let lines := split_on LF content in
  MkStats (length lines)
          (count_lines is_empty_line lines)
          (count_lines is_code_line lines)
          (count_lines is_comment_line lines)
          (length content).

(** The totals of [analyze_project]; the word count and the two ratios
    are not part of the model. *)
Record project_stats := MkProjectStats {
  python_files : nat;
  project_total_lines : nat;
  project_empty_lines : nat;
  project_code_lines : nat;
  project_comment_lines : nat;
  project_total_characters : nat
}.

(** One pass of the loop over the files: [read] is the text of the file,
    or the exception that reading it raises, in which case the file is
    skipped. *)
Definition add_file (acc : project_stats) (read : pyexn + text) : project_stats :=
  match read with
  | inr content =>
      let lines := split_on LF content in
      MkProjectStats (python_files acc)
        (project_total_lines acc + length lines)
        (project_empty_lines acc + count_lines is_empty_line lines)
        (project_code_lines acc + count_lines is_code_line lines)
        (project_comment_lines acc + count_lines is_comment_line lines)
        (project_total_characters acc + length content)
  | inl _ => acc
  end.

(** [analyze_project] on the Python files that the walk has collected,
    each with the outcome of reading it. *)
Definition analyze_project (files : list (string * (pyexn + text)))
    : message + project_stats :=
  match files with
  | [] => inl (MkMessage Warning "Error" "No Python files found in project")
  | _ =>
      inr (foldl (fun acc file => add_file acc (snd file))
             (MkProjectStats (length files) 0 0 0 0 0) files)
  end.

(** The texts of the files that could be read. *)
Definition readable (files : list (string * (pyexn + text))) : list text :=
  omap (fun file => match snd file with inr content => Some content | inl _ => None end)
    files.

End Statistics.

(** ** src/ui/snippets.py *)

Module Snippets.

(** One entry of the snippet store: the dict with keys name, prefix, body. *)
Record snippet := MkSnippet {
  name : string;
  prefix : string;
  body : string
}.

(** [SnippetManager]: the list [self.snippets] and the array that
    snippets.json holds ([None] while there is no such file or it holds no
    array). *)
Record SnippetManager := MkManager {
  snippets : list snippet;
  snippets_json : option (list snippet)
}.

(** How [with open(snippet_file, 'w') as f: json.dump(snippets, f)] ends:
    the array is written; [open] raises and the file is untouched; or
    [open] has emptied the file and [json.dump] raises afterwards, so that
    the file holds no array. *)
Inductive saving := Written | OpenRaises | DumpRaises.

(** The two outcomes that depend on whether snippets.json can be opened
    for writing. *)
Definition saving_of (writable : bool) : saving :=
  if writable then Written else OpenRaises.

Section Manager.

(** How the write to snippets.json ends. *)
Variable outcome : saving.

(** [SnippetManager.save_snippets], with its boolean result; the [except]
    clause swallows every exception. *)
Definition save_snippets (l : list snippet) (m : SnippetManager) : SnippetManager * bool :=
  match outcome with
  | Written => (MkManager (snippets m) (Some l), true)
  | OpenRaises => (m, false)
  | DumpRaises => (MkManager (snippets m) None, false)
  end.

(** [SnippetManager.add_snippet]. *)
Definition add_snippet (n p b : string) (m : SnippetManager) : SnippetManager :=
  let l := snippets m ++ [MkSnippet n p b] in
  fst (save_snippets l (MkManager l (snippets_json m))).

(** [SnippetManager.update_snippet]; [index] is a Python int. *)
Definition update_snippet (index : Z) (n p b : string) (m : SnippetManager) : SnippetManager :=
  if ((0 <=? index) && (index <? Z.of_nat (length (snippets m))))%Z then
    let l := <[Z.to_nat index := MkSnippet n p b]> (snippets m) in
    fst (save_snippets l (MkManager l (snippets_json m)))
  else m.

(** [SnippetManager.delete_snippet]. *)
Definition delete_snippet (index : Z) (m : SnippetManager) : SnippetManager :=
  if ((0 <=? index) && (index <? Z.of_nat (length (snippets m))))%Z then
    let l := delete (Z.to_nat index) (snippets m) in
    fst (save_snippets l (MkManager l (snippets_json m)))
  else m.

(** The guard [not name or not prefix or not body] of the dialog. *)
Definition field_missing (n p b : string) : bool :=
  negb (truthy n) || negb (truthy p) || negb (truthy b).

(** [SnippetDialog.add_snippet]: [n], [p], [b] are the texts of the three
    edit fields when the Add button is clicked. *)
Definition dialog_add_snippet (n p b : string) (m : SnippetManager)
    : SnippetManager * message :=
  if field_missing n p b then
    (m, MkMessage Warning "Error" "All fields are required")
  else
    (add_snippet n p b m, MkMessage Information "Success" "Snippet added successfully").

(** [SnippetDialog.update_snippet]: [selected] is the row of the current
    item of the list widget, if there is one. *)
Definition dialog_update_snippet (selected : option nat) (n p b : string)
    (m : SnippetManager) : SnippetManager * message :=
  match selected with
  | None => (m, MkMessage Warning "Error" "No snippet selected")
  | Some row =>
      if field_missing n p b then
        (m, MkMessage Warning "Error" "All fields are required")
      else
        (update_snippet (Z.of_nat row) n p b m,
         MkMessage Information "Success" "Snippet updated successfully")
  end.

End Manager.

(** [SnippetManager.get_snippet_by_prefix]: the loop returns at the first
    snippet with the prefix. *)
Fixpoint get_snippet_by_prefix (p : string) (l : list snippet) : option snippet :=
  match l with
  | [] => None
  | s :: rest =>
      if String.eqb (prefix s) p then Some s else get_snippet_by_prefix p rest
  end.

(** [SnippetDialog.delete_snippet]: [selected] is the row of the current
    item, [confirmed] whether the question was answered with Yes. *)
Definition dialog_delete_snippet (outcome : saving) (selected : option nat)
    (confirmed : bool) (m : SnippetManager) : SnippetManager * option message :=
  match selected with
  | None => (m, Some (MkMessage Warning "Error" "No snippet selected"))
  | Some row =>
      if confirmed then
        (delete_snippet outcome (Z.of_nat row) m,
         Some (MkMessage Information "Success" "Snippet deleted successfully"))
      else (m, None)
  end.

(** The loop at the end of [MainWindow.insert_snippet]: the body of the
    first snippet with the chosen name. *)
Fixpoint body_by_name (snippet_name : string) (l : list snippet) : option string :=
  match l with
  | [] => None
  | s :: rest =>
      if String.eqb (name s) snippet_name then Some (body s)
      else body_by_name snippet_name rest
  end.

(** [MainWindow.insert_snippet] with an editor open: [snippet_name] and
    [ok] are what the selection dialog returns. The result is the warning
    shown, if any, and the text inserted into the editor, if any. *)
Definition insert_snippet (snippet_name : string) (ok : bool) (l : list snippet)
    : option message * option string :=
  match l with
  | [] => (Some (MkMessage Warning "Error" "No snippets available"), None)
  | _ =>
      if ok && truthy snippet_name then (None, body_by_name snippet_name l)
      else (None, None)
  end.

(** The lines of a snippet body, joined by newlines. *)
Fixpoint body_lines (lines : list string) : string :=
  match lines with
  | [] => EmptyString
  | [l] => l
  | l :: rest => l +:+ newline +:+ body_lines rest
  end.

(** Three double quotes. *)
Definition TQ : string := DQUOTE +:+ DQUOTE +:+ DQUOTE.

(** [default_snippets] of [load_snippets]. *)
Definition default_snippets : list snippet :=
  [ MkSnippet "For Loop" "for"
      (body_lines ["for item in iterable:"; "    # TODO: Process item"; "    pass"]);
    MkSnippet "While Loop" "while"
      (body_lines ["while condition:"; "    # TODO: Process"; "    pass"]);
    MkSnippet "If Statement" "if"
      (body_lines ["if condition:"; "    # TODO: Process"; "    pass";
                   "elif another_condition:"; "    # TODO: Process"; "    pass";
                   "else:"; "    # TODO: Process"; "    pass"]);
    MkSnippet "Function Definition" "def"
      (body_lines ["def function_name(parameters):";
                   "    " +:+ TQ +:+ "Function docstring" +:+ TQ;
                   "    # TODO: Implement function"; "    return result"]);
    MkSnippet "Class Definition" "class"
      (body_lines ["class ClassName:";
                   "    " +:+ TQ +:+ "Class docstring" +:+ TQ;
                   "    ";
                   "    def __init__(self, parameters):";
                   "        self.parameters = parameters";
                   "    ";
                   "    def method(self):";
                   "        " +:+ TQ +:+ "Method docstring" +:+ TQ;
                   "        # TODO: Implement method"; "        pass"]);
    MkSnippet "Try-Except Block" "try"
      (body_lines ["try:"; "    # TODO: Risky operation"; "    pass";
                   "except Exception as e:"; "    # TODO: Handle exception";
                   "    print(f'Error: {e}')";
                   "finally:"; "    # TODO: Cleanup"; "    pass"]);
    MkSnippet "Import Statements" "import"
      (body_lines ["import os"; "import sys"; "import json";
                   "from datetime import datetime"]);
    MkSnippet "Main Block" "main"
      (body_lines ["if __name__ == " +:+ DQUOTE +:+ "__main__" +:+ DQUOTE +:+ ":";
                   "    # TODO: Main execution"; "    pass"]) ].

(** The invariant of the data model: every stored snippet is named. *)
Definition all_named (l : list snippet) : Prop :=
  Forall (fun s => name s ≠ EmptyString) l.

(** The store invariant: the list in memory and the array on disk hold
    named snippets only. *)
Definition store_named (m : SnippetManager) : Prop :=
  all_named (snippets m) ∧
  ∀ l, snippets_json m = Some l → all_named l.

End Snippets.

Coercion Snippets.saving_of : bool >-> Snippets.saving.

(** ** src/ui/gitintegration.py *)

Module Git.

(** [GitManager]: [self.current_repo] is None or a path. *)
Record GitManager := MkGit { current_repo : option string }.

(** An optional path argument is falsy when it is None or empty. *)
Definition falsy (p : option string) : bool :=
  match p with
  | None => true
  | Some s => negb (truthy s)
  end.

(** What [subprocess.run(..., capture_output=True, text=True)] hands back. *)
Record CompletedProcess := MkCompleted {
  returncode : Z;
  stdout : string;
  stderr : string
}.

(** A subprocess that was started: its command line and working directory. *)
Record spawn := MkSpawn { spawn_command : string; spawn_cwd : string }.

Section Commands.

(** The operating system: running [command] through the shell in [cwd]
    either completes or raises. *)
Variable subprocess_run : string → string → pyexn + CompletedProcess.

(** [GitManager.run_git_command]: the returned pair and the subprocesses
    that were started. *)
Definition run_git_command (command : string) (repo_path : option string)
    (g : GitManager) : (option Z * string) * list spawn :=
  let repo_path := if falsy repo_path then current_repo g else repo_path in
  match repo_path with
  | Some cwd =>
      if truthy cwd then
        match subprocess_run command cwd with
        | inr result =>
            ((Some (returncode result), (stdout result +:+ stderr result)),
             [MkSpawn command cwd])
        | inl e => ((Some 1%Z, exn_text e), [MkSpawn command cwd])
        end
      else ((None, "No repository selected"), [])
  | None => ((None, "No repository selected"), [])
  end.

(** [' '.join(files)]. *)
Fixpoint join_space (parts : list string) : string :=
  match parts with
  | [] => EmptyString
  | [p] => p
  | p :: rest => (p +:+ " " +:+ join_space rest)
  end.

Definition init_repo (repo_path : option string) := run_git_command "git init" repo_path.
Definition git_status (repo_path : option string) := run_git_command "git status" repo_path.
Definition git_add (files : list string) (repo_path : option string) :=
  match files with
  | [] => run_git_command "git add ." repo_path
  | _ => run_git_command ("git add " +:+ join_space files) repo_path
  end.
Definition git_commit (msg : string) (repo_path : option string) :=
  run_git_command ("git commit -m " +:+ DQUOTE +:+ msg +:+ DQUOTE) repo_path.
Definition git_push (remote branch : string) (repo_path : option string) :=
  run_git_command ("git push " +:+ remote +:+ " " +:+ branch) repo_path.
Definition git_pull (remote branch : string) (repo_path : option string) :=
  run_git_command ("git pull " +:+ remote +:+ " " +:+ branch) repo_path.
Definition git_branch (repo_path : option string) := run_git_command "git branch" repo_path.
Definition git_checkout (branch : string) (repo_path : option string) :=
  run_git_command ("git checkout " +:+ branch) repo_path.
Definition git_merge (branch : string) (repo_path : option string) :=
  run_git_command ("git merge " +:+ branch) repo_path.

(** The nine operations of [GitManager], with their arguments. *)
Inductive operation :=
| Init | Status | Add (files : list string) | Commit (msg : string)
| Push (remote branch : string) | Pull (remote branch : string)
| Branch | Checkout (branch : string) | Merge (branch : string).

Definition run_operation (op : operation) (repo_path : option string) (g : GitManager) :=
  match op with
  | Init => init_repo repo_path g
  | Status => git_status repo_path g
  | Add files => git_add files repo_path g
  | Commit msg => git_commit msg repo_path g
  | Push remote branch => git_push remote branch repo_path g
  | Pull remote branch => git_pull remote branch repo_path g
  | Branch => git_branch repo_path g
  | Checkout branch => git_checkout branch repo_path g
  | Merge branch => git_merge branch repo_path g
  end.

(** The shell command line of each operation. *)
Definition command_line (op : operation) : string :=
  match op with
  | Init => "git init"
  | Status => "git status"
  | Add [] => "git add ."
  | Add files => ("git add " +:+ join_space files)
  | Commit msg => ("git commit -m " +:+ DQUOTE +:+ msg +:+ DQUOTE)
  | Push remote branch => ("git push " +:+ remote +:+ " " +:+ branch)
  | Pull remote branch => ("git pull " +:+ remote +:+ " " +:+ branch)
  | Branch => "git branch"
  | Checkout branch => ("git checkout " +:+ branch)
  | Merge branch => ("git merge " +:+ branch)
  end.

(** [code == 0] for the first component of a result. *)
Definition exited_zero (code : option Z) : bool :=
  match code with
  | Some 0%Z => true
  | _ => false
  end.

(** [GitManager.set_current_repo]. *)
Definition set_current_repo (repo_path : string) (g : GitManager) : GitManager :=
  MkGit (Some repo_path).

(** [MainWindow.git_open_repo]; [repo_path] is the directory chosen in the
    file dialog, empty when it was cancelled. The result is the manager,
    the message boxes shown and the subprocesses started. *)
Definition git_open_repo (repo_path : string) (g : GitManager)
    : GitManager * list message * list spawn :=
  if truthy repo_path then
    let '((code, output), spawned) := git_status (Some repo_path) g in
    if exited_zero code then
      (set_current_repo repo_path g,
       [MkMessage Information "Success" ("Repository opened at " +:+ repo_path)],
       spawned)
    else
      (g, [MkMessage Warning "Error" ("Not a Git repository: " +:+ output)], spawned)
  else (g, [], []).

(** [MainWindow.git_init]; [accepted] tells how [GitInitDialog] was closed
    and [repo_path] is the text of its path field. *)
Definition git_init (accepted : bool) (repo_path : string) (g : GitManager)
    : GitManager * list message * list spawn :=
  if accepted then
    if truthy repo_path then
      let '((code, output), spawned) := init_repo (Some repo_path) g in
      if exited_zero code then
        (set_current_repo repo_path g,
         [MkMessage Information "Success" ("Repository initialized at " +:+ repo_path)],
         spawned)
      else
        (g, [MkMessage Warning "Error" ("Failed to initialize repository: " +:+ output)],
         spawned)
    else (g, [], [])
  else (g, [], []).

End Commands.

(** A shell for examples: git answers in /repo, and a working directory
    that does not exist makes [subprocess.run] raise. *)
Definition sample_shell (command cwd : string) : pyexn + CompletedProcess :=
  if String.eqb cwd "/repo" then inr (MkCompleted 0 "On branch main" EmptyString)
  else inl (PyExn "FileNotFoundError" "[Errno 2] No such file or directory").

(** The directory in which [run_git_command] starts git: the path passed
    in, or, when none is passed, the selected repository. *)
Definition working_directory (repo_path : option string) (g : GitManager)
    (cwd : string) : Prop :=
  truthy cwd = true ∧
  (repo_path = Some cwd ∨ (falsy repo_path = true ∧ current_repo g = Some cwd)).

End Git.

(** ** src/ui/projectmanager.py *)

Module Project.

(** The values that [json.load] produces and [json.dump] accepts. A dict is
    the list of its items in insertion order. *)
Inductive json :=
| JNull
| JBool (b : bool)
| JNum (n : Z)
| JStr (s : string)
| JList (items : list json)
| JObj (members : list (string * json)).

Definition type_name (v : json) : string :=
  match v with
  | JNull => "NoneType"
  | JBool _ => "bool"
  | JNum _ => "int"
  | JStr _ => "str"
  | JList _ => "list"
  | JObj _ => "dict"
  end.

(** Truthiness, as tested by [if self.current_project:]. *)
Definition py_truthy (v : json) : bool :=
  match v with
  | JNull => false
  | JBool b => b
  | JNum n => negb (n =? 0)%Z
  | JStr s => truthy s
  | JList items => match items with [] => false | _ => true end
  | JObj members => match members with [] => false | _ => true end
  end.

Fixpoint assoc (key : string) (members : list (string * json)) : option json :=
  match members with
  | [] => None
  | (k, v) :: rest => if String.eqb k key then Some v else assoc key rest
  end.

Fixpoint assoc_set (key : string) (v : json) (members : list (string * json))
    : list (string * json) :=
  match members with
  | [] => [(key, v)]
  | (k, old) :: rest =>
      if String.eqb k key then (k, v) :: rest else (k, old) :: assoc_set key v rest
  end.

(** [v[key]] for a string key; the text of a [KeyError] is the key in
    quotes. *)
Definition getitem (v : json) (key : string) : pyexn + json :=
  match v with
  | JObj members =>
      match assoc key members with
      | Some x => inr x
      | None => inl (PyExn "KeyError" ("'" +:+ key +:+ "'"))
      end
  | _ => inl (PyExn "TypeError" (type_name v +:+ " cannot be indexed by a str"))
  end.

(** The dict [v] after the object stored under [key] was mutated into [x]. *)
Definition setitem (v : json) (key : string) (x : json) : json :=
  match v with
  | JObj members => JObj (assoc_set key x members)
  | _ => v
  end.

(** [x == s] for a string [s]: only an equal string compares equal. *)
Definition equals_str (s : string) (x : json) : bool :=
  match x with
  | JStr t => String.eqb t s
  | _ => false
  end.

(** [s in container]. *)
Definition contains (container : json) (s : string) : pyexn + bool :=
  match container with
  | JList items => inr (existsb (equals_str s) items)
  | JStr t => inr (match String.index 0 s t with Some _ => true | None => false end)
  | JObj members => inr (match assoc s members with Some _ => true | None => false end)
  | _ => inl (PyExn "TypeError" (type_name container +:+ " is not iterable"))
  end.

(** [container.append(s)], which only lists have. *)
Definition append_item (container : json) (s : string) : pyexn + json :=
  match container with
  | JList items => inr (JList (items ++ [JStr s]))
  | _ => inl (PyExn "AttributeError" (type_name container +:+ " has no attribute append"))
  end.

(** [list.remove]: drops the first element equal to [s]. *)
Fixpoint remove_first (s : string) (items : list json) : option (list json) :=
  match items with
  | [] => None
  | x :: rest =>
      if equals_str s x then Some rest
      else match remove_first s rest with
           | Some rest' => Some (x :: rest')
           | None => None
           end
  end.

(** [container.remove(s)]. *)
Definition remove_item (container : json) (s : string) : pyexn + json :=
  match container with
  | JList items =>
      match remove_first s items with
      | Some items' => inr (JList items')
      | None => inl (PyExn "ValueError" "list.remove(x): x not in list")
      end
  | _ => inl (PyExn "AttributeError" (type_name container +:+ " has no attribute remove"))
  end.

(** The project dict built by [create_project]. *)
Definition project_data (project_name project_path : string) (project_files : list json) : json :=
  JObj [("name", JStr project_name); ("path", JStr project_path); ("files", JList project_files)].

(** The file system: the directories that exist and the text of every
    file. Directories created on the way to a new directory are not
    tracked. *)
Record fs := MkFs {
  fs_dirs : gset string;
  fs_files : gmap string string
}.

(** [ProjectManager] and what surrounds it: [self.current_project], the
    disk, and the message boxes shown so far. *)
Record world := MkWorld {
  current_project : option json;
  disk : fs;
  messages : list message
}.

(** Statements that read and write the world and may raise. *)
Definition M (A : Type) : Type := world → world * (pyexn + A).

Definition ret {A} (a : A) : M A := fun w => (w, inr a).

Definition bind {A B} (m : M A) (k : A → M B) : M B :=
  fun w =>
    match m w with
    | (w', inr a) => k a w'
    | (w', inl e) => (w', inl e)
    end.

Definition lift {A} (r : pyexn + A) : M A := fun w => (w, r).

(** [try: body except Exception as e: handler(e)]. *)
Definition try_except {A} (body : M A) (handler : pyexn → M A) : M A :=
  fun w =>
    match body w with
    | (w', inr a) => (w', inr a)
    | (w', inl e) => handler e w'
    end.

Notation "x <~ m ;; k" := (bind m (fun x => k))
  (at level 100, m at next level, right associativity).
Notation "m ;;; k" := (bind m (fun _ => k))
  (at level 100, right associativity).

Definition get_current_project : M (option json) :=
  fun w => (w, inr (current_project w)).

Definition set_current_project (p : json) : M unit :=
  fun w => (MkWorld (Some p) (disk w) (messages w), inr tt).

Definition show_message (m : message) : M unit :=
  fun w => (MkWorld (current_project w) (disk w) (messages w ++ [m]), inr tt).

(** [CreateProjectDialog]: the texts of its two line edits. *)
Record CreateProjectDialog := MkDialog {
  name_edit : string;
  path_edit : string
}.

Inductive DialogCode := Accepted | Rejected.

(** What the user does while the dialog is open. [BrowsePath] carries the
    directory returned by the directory chooser, empty when it was
    cancelled. *)
Inductive dialog_action :=
| TypeName (s : string)
| TypePath (s : string)
| BrowsePath (s : string)
| ClickCreate
| ClickCancel.

(** [CreateProjectDialog.accept]: a warning, or the dialog closes as
    accepted. *)
Definition accept (d : CreateProjectDialog) : message + unit :=
  if negb (truthy (name_edit d)) then
    inl (MkMessage Warning "Error" "Project name is required")
  else if negb (truthy (path_edit d)) then
    inl (MkMessage Warning "Error" "Project path is required")
  else inr tt.

(** [dialog.exec_()]: runs until the dialog closes; a session that ends
    without a button that closes it is a closed window. *)
Fixpoint exec_ (actions : list dialog_action) (d : CreateProjectDialog)
    : DialogCode * CreateProjectDialog * list message :=
  match actions with
  | [] => (Rejected, d, [])
  | TypeName s :: rest => exec_ rest (MkDialog s (path_edit d))
  | TypePath s :: rest => exec_ rest (MkDialog (name_edit d) s)
  | BrowsePath s :: rest =>
      exec_ rest (if truthy s then MkDialog (name_edit d) s else d)
  | ClickCreate :: rest =>
      match accept d with
      | inr _ => (Accepted, d, [])
      | inl m => let '(code, d', ms) := exec_ rest d in (code, d', m :: ms)
      end
  | ClickCancel :: _ => (Rejected, d, [])
  end.

Definition new_dialog : CreateProjectDialog := MkDialog EmptyString EmptyString.

(** Two lower-case hexadecimal digits for a character code below 256. *)
Definition hex_digit (n : nat) : string := String.substring n 1 "0123456789abcdef".

Definition hex_byte (n : nat) : string := hex_digit (n / 16) +:+ hex_digit (n mod 16).

(** The characters of [repr(s)] between the quotes. Characters outside
    ASCII are taken to be printable. *)
Fixpoint repr_chars (quote : Ascii.ascii) (s : string) : string :=
  match s with
  | EmptyString => EmptyString
  | String c r =>
      let n := Ascii.nat_of_ascii c in
      (if (n =? 92)%nat then "\\"
       else if Ascii.eqb c quote then String (Ascii.ascii_of_nat 92) (String c EmptyString)
       else if (n =? 9)%nat then "\t"
       else if (n =? 10)%nat then "\n"
       else if (n =? 13)%nat then "\r"
       else if (n <? 32)%nat || (n =? 127)%nat then "\x" +:+ hex_byte n
       else String c EmptyString) +:+ repr_chars quote r
  end.

(** [repr(s)] of a string: in single quotes, or in double quotes when [s]
    has a single quote and no double quote. *)
Definition py_repr (s : string) : string :=
  let quote :=
    if contains_char (Ascii.ascii_of_nat 39) s && negb (contains_char (Ascii.ascii_of_nat 34) s)
    then Ascii.ascii_of_nat 34 else Ascii.ascii_of_nat 39 in
  String quote (repr_chars quote s +:+ String quote EmptyString).

(** What [open(p, 'r')] raises when there is no file [p], and when [p] is a
    directory; [str(e)] ends with [repr(p)]. *)
Definition no_such_file (p : string) : pyexn :=
  PyExn "FileNotFoundError" ("[Errno 2] No such file or directory: " +:+ py_repr p).

Definition is_a_directory (p : string) : pyexn :=
  PyExn "IsADirectoryError" ("[Errno 21] Is a directory: " +:+ py_repr p).

(** How [with open(p, 'w') as f: json.dump(v, f, indent=4)] fails: [open]
    raises and the file is untouched, or [open] has emptied the file and
    the write raises afterwards, with the text [cut] in the file. *)
Inductive write_failure :=
| OpenFails (e : pyexn)
| WriteFails (e : pyexn) (cut : string).

Section OS.

(** Library and operating-system behaviour the module relies on. *)
Variable os_path_join : string → string → string.
Variable json_dump : json → string.
Variable json_load : string → pyexn + json.
Variable py_str : json → string.
Variable mkdir_error : fs → string → option pyexn.
Variable write_error : fs → string → option write_failure.
Variable read_error : fs → string → option pyexn.

(** [os.path.exists]. *)
Definition path_exists (d : fs) (p : string) : bool :=
  bool_decide (p ∈ fs_dirs d) || bool_decide (is_Some (fs_files d !! p)).

Definition os_path_exists (p : string) : M bool :=
  fun w => (w, inr (path_exists (disk w) p)).

(** [os.makedirs]. *)
Definition os_makedirs (p : string) : M unit :=
  fun w =>
    match mkdir_error (disk w) p with
    | Some e => (w, inl e)
    | None =>
        (MkWorld (current_project w)
                 (MkFs ({[p]} ∪ fs_dirs (disk w)) (fs_files (disk w)))
                 (messages w), inr tt)
    end.

(** [with open(p, 'w') as f: json.dump(v, f, indent=4)]. *)
Definition dump_to (p : string) (v : json) : M unit :=
  fun w =>
    match write_error (disk w) p with
    | Some (OpenFails e) => (w, inl e)
    | Some (WriteFails e cut) =>
        (MkWorld (current_project w)
                 (MkFs (fs_dirs (disk w)) (<[p := cut]> (fs_files (disk w))))
                 (messages w), inl e)
    | None =>
        (MkWorld (current_project w)
                 (MkFs (fs_dirs (disk w)) (<[p := json_dump v]> (fs_files (disk w))))
                 (messages w), inr tt)
    end.

(** [with open(p, 'r') as f: json.load(f)]. [read_error] is whatever else
    keeps the file from being read. *)
Definition load_from (p : string) : M json :=
  fun w =>
    match read_error (disk w) p with
    | Some e => (w, inl e)
    | None =>
        match fs_files (disk w) !! p with
        | Some content => (w, json_load content)
        | None =>
            if bool_decide (p ∈ fs_dirs (disk w)) then (w, inl (is_a_directory p))
            else (w, inl (no_such_file p))
        end
    end.

(** The value interpolated by an f-string. *)
Definition py_format (v : json) : string :=
  match v with
  | JStr s => s
  | _ => py_str v
  end.

(** [os.path.join(a, b)] where [a] was read from the project dict. *)
Definition path_join (a : json) (b : string) : pyexn + string :=
  match a with
  | JStr p => inr (os_path_join p b)
  | _ => inl (PyExn "TypeError" (type_name a +:+ " is not a path"))
  end.

(** [os.path.join(p['path'], f'{p["name"]}.webe.json')]. *)
Definition project_file_of (p : json) : pyexn + string :=
  match getitem p "path" with
  | inl e => inl e
  | inr dir =>
      match getitem p "name" with
      | inl e => inl e
      | inr nm => path_join dir (py_format nm +:+ ".webe.json")
      end
  end.

(** [ProjectManager.create_project]; [actions] is what the user does in the
    dialog. *)
Definition create_project (actions : list dialog_action) : M (option json) :=
  fun w =>
    let '(code, dialog, warnings) := exec_ actions new_dialog in
    let w := MkWorld (current_project w) (disk w) (messages w ++ warnings) in
    match code with
    | Accepted =>
        (let project_path := path_edit dialog in
         let project_name := name_edit dialog in
         present <~ os_path_exists project_path ;;
         (if present then ret tt else os_makedirs project_path) ;;;
         let project_file := os_path_join project_path (project_name +:+ ".webe.json") in
         let data := project_data project_name project_path [] in
         dump_to project_file data ;;;
         set_current_project data ;;;
         ret (Some data)) w
    | Rejected => ret None w
    end.

(** [ProjectManager.open_project]; [file_path] is the file chosen in the
    file dialog, empty when it was cancelled. *)
Definition open_project (file_path : string) : M (option json) :=
  if truthy file_path then
    try_except
      (data <~ load_from file_path ;;
       set_current_project data ;;;
       ret (Some data))
      (fun e =>
         show_message (MkMessage Warning "Error"
                         ("Failed to open project: " +:+ exn_text e)) ;;;
         ret None)
  else ret None.

(** [ProjectManager.add_file_to_project]. *)
Definition add_file_to_project (file_path : string) : M unit :=
  current <~ get_current_project ;;
  match current with
  | None => ret tt
  | Some p =>
      if py_truthy p then
        project_file <~ lift (project_file_of p) ;;
        listed <~ lift (getitem p "files") ;;
        present <~ lift (contains listed file_path) ;;
        if present then ret tt
        else
          listed' <~ lift (append_item listed file_path) ;;
          let p' := setitem p "files" listed' in
          set_current_project p' ;;;
          dump_to project_file p'
      else ret tt
  end.

(** [ProjectManager.remove_file_from_project]. *)
Definition remove_file_from_project (file_path : string) : M unit :=
  current <~ get_current_project ;;
  match current with
  | None => ret tt
  | Some p =>
      if py_truthy p then
        project_file <~ lift (project_file_of p) ;;
        listed <~ lift (getitem p "files") ;;
        present <~ lift (contains listed file_path) ;;
        if present then
          listed' <~ lift (remove_item listed file_path) ;;
          let p' := setitem p "files" listed' in
          set_current_project p' ;;;
          dump_to project_file p'
        else ret tt
      else ret tt
  end.

(** [ProjectFilesDialog.save_project]. The dialog holds the dict that was
    the current project when it was opened, the same object, so its
    [project_data] is the current project of the world. *)
Definition save_project : M unit :=
  current <~ get_current_project ;;
  match current with
  | None => ret tt
  | Some p =>
      project_file <~ lift (project_file_of p) ;;
      dump_to project_file p
  end.

(** The loop of [ProjectFilesDialog.add_file] over the chosen paths, on the
    project dict and the items of the list widget; an exception stops it
    with what was appended so far. *)
Fixpoint add_chosen (file_paths : list string) (p : json) (items : list string)
    : (json * list string) * (pyexn + unit) :=
  match file_paths with
  | [] => ((p, items), inr tt)
  | file_path :: rest =>
      match getitem p "files" with
      | inl e => ((p, items), inl e)
      | inr listed =>
          match contains listed file_path with
          | inl e => ((p, items), inl e)
          | inr true => add_chosen rest p items
          | inr false =>
              match append_item listed file_path with
              | inl e => ((p, items), inl e)
              | inr listed' =>
                  add_chosen rest (setitem p "files" listed') (items ++ [file_path])
              end
          end
      end
  end.

(** [ProjectFilesDialog.add_file]; [file_paths] are the files chosen in the
    file dialog (none when it was cancelled) and [items] the texts of the
    list widget. The file dialog is opened in [project_data['path']]. *)
Definition dialog_add_file (file_paths : list string) (items : list string)
    (w : world) : (world * list string) * (pyexn + unit) :=
  match current_project w with
  | None => ((w, items), inr tt)
  | Some p =>
      match getitem p "path" with
      | inl e => ((w, items), inl e)
      | inr (JStr _) =>
          let '((p', items'), looped) := add_chosen file_paths p items in
          let w1 := MkWorld (Some p') (disk w) (messages w) in
          match looped with
          | inl e => ((w1, items'), inl e)
          | inr _ => let '(w2, saved) := save_project w1 in ((w2, items'), saved)
          end
      | inr other =>
          ((w, items), inl (PyExn "TypeError" (type_name other +:+ " is not a directory")))
      end
  end.

(** A call of one of the two methods. *)
Inductive file_call :=
| AddFile (file_path : string)
| RemoveFile (file_path : string).

(** The world after a call; an exception that escapes the call leaves the
    world as it was when it was raised. *)
Definition after_call (c : file_call) (w : world) : world :=
  match c with
  | AddFile file_path => fst (add_file_to_project file_path w)
  | RemoveFile file_path => fst (remove_file_from_project file_path w)
  end.

Definition after_calls (cs : list file_call) (w : world) : world :=
  foldl (fun acc c => after_call c acc) w cs.

End OS.

(** The [files] list of the current project, empty when there is no
    project or no such list. *)
Definition listed_files (w : world) : list json :=
  match current_project w with
  | Some p =>
      match getitem p "files" with
      | inr (JList items) => items
      | _ => []
      end
  | None => []
  end.

(** The paths after choosing [file_paths]: each chosen path that is not
    there yet is appended once, in the order chosen. *)
Definition with_chosen (files file_paths : list string) : list string :=
  foldl (fun acc file_path =>
           if bool_decide (file_path ∈ acc) then acc else acc ++ [file_path])
    files file_paths.

(** How often the path [s] occurs in a files list. *)
Definition occurrences (s : string) (items : list json) : nat :=
  length (filter (fun x => equals_str s x = true) items).

(** A file system for examples in which nothing fails. *)
Definition no_error {A : Type} (d : fs) (p : string) : option A := None.
Definition empty_disk : fs := MkFs ∅ ∅.
Definition empty_world : world := MkWorld None empty_disk [].

(** Joining with a slash, for examples: what [os.path.join] gives on a
    POSIX system for a directory without trailing slash and a relative
    second part. *)
Definition posix_join (a b : string) : string := a +:+ "/" +:+ b.

(** [b.startswith('/')]. *)
Definition startswith_slash (b : string) : bool :=
  match b with
  | String c _ => Ascii.eqb c (Ascii.ascii_of_nat 47)
  | EmptyString => false
  end.

(** [posixpath.join(a, b)], which is [os.path.join] on a POSIX system: a
    [b] that starts with a slash replaces [a]. *)
Definition posixpath_join (a b : string) : string :=
  if startswith_slash b then b
  else if negb (truthy a) || endswith a "/" then a +:+ b
  else a +:+ "/" +:+ b.

(** A compact rendering of JSON for examples; the layout and the escaping
    of [json.dump] are not reproduced. *)
Fixpoint render (v : json) : string :=
  match v with
  | JNull => "null"
  | JBool true => "true"
  | JBool false => "false"
  | JNum n => pretty n
  | JStr s => DQUOTE +:+ s +:+ DQUOTE
  | JList items =>
      "[" +:+ (fix go (l : list json) : string :=
                 match l with
                 | [] => EmptyString
                 | [x] => render x
                 | x :: rest => render x +:+ ", " +:+ go rest
                 end) items +:+ "]"
  | JObj members =>
      "{" +:+ (fix go (l : list (string * json)) : string :=
                 match l with
                 | [] => EmptyString
                 | [(k, x)] => DQUOTE +:+ k +:+ DQUOTE +:+ ": " +:+ render x
                 | (k, x) :: rest =>
                     DQUOTE +:+ k +:+ DQUOTE +:+ ": " +:+ render x +:+ ", " +:+ go rest
                 end) members +:+ "}"
  end.

(** A parser for examples that knows the empty object only. *)
Definition sample_load (content : string) : pyexn + json :=
  if String.eqb content "{}" then inr (JObj [])
  else inl (PyExn "JSONDecodeError" "Expecting value: line 1 column 1 (char 0)").

(** A world with a project directory that holds an empty JSON object and
    a file of notes. *)
Definition stored_world : world :=
  MkWorld (Some (project_data "demo" "/p" []))
    (MkFs {["/p"]} (<["/p/empty.json" := "{}"]> (<["/p/notes.txt" := "to do"]> ∅))) [].

(** A project with one listed file, as created and then extended. *)
Definition sample_world : world :=
  MkWorld (Some (project_data "demo" "/p" [JStr "/p/a.py"])) empty_disk [].

End Project.

(** * Properties *)

(** ** Strings *)

Lemma append_nil (t : string) : EmptyString +:+ t = t.
Proof. reflexivity. Qed.

Lemma append_cons (c : Ascii.ascii) (s t : string) :
  String c s +:+ t = String c (s +:+ t).
Proof. reflexivity. Qed.

Lemma append_assoc (a b c : string) : (a +:+ b) +:+ c = a +:+ (b +:+ c).
Proof.
  induction a as [|x a IH]; [reflexivity |].
  now rewrite !append_cons, IH.
Qed.

Lemma append_empty_r (a : string) : a +:+ EmptyString = a.
Proof.
  induction a as [|x a IH]; [reflexivity |].
  now rewrite append_cons, IH.
Qed.

Lemma join_app (xs ys : list string) : join (xs ++ ys) = join xs +:+ join ys.
Proof.
  induction xs as [|x xs IH]; [reflexivity |].
  change (x +:+ join (xs ++ ys) = (x +:+ join xs) +:+ join ys).
  now rewrite IH, append_assoc.
Qed.

Lemma join_singleton (x : string) : join [x] = x.
Proof. apply append_empty_r. Qed.

Lemma endswith_unfold (s suffix : string) :
  endswith s suffix =
  if String.eqb s suffix then true
  else match s with
       | EmptyString => false
       | String _ r => endswith r suffix
       end.
Proof. destruct s; reflexivity. Qed.

(** [endswith] is the suffix relation. *)
Lemma endswith_spec (s suffix : string) :
  endswith s suffix = true ↔ ∃ p, s = p +:+ suffix.
Proof.
  induction s as [|c s IH]; rewrite endswith_unfold.
  - destruct (String.eqb_spec EmptyString suffix) as [<-|Hne].
    + split; [intros _; now exists EmptyString | reflexivity].
    + split; [discriminate |].
      intros [p Hp]. destruct p; [now rewrite append_nil in Hp | discriminate].
  - destruct (String.eqb_spec (String c s) suffix) as [<-|Hne].
    + split; [intros _; now exists EmptyString | reflexivity].
    + rewrite IH. split.
      * intros [p ->]. now exists (String c p).
      * intros [p Hp]. destruct p as [|d p]; [now rewrite append_nil in Hp |].
        rewrite append_cons in Hp. injection Hp as -> ->. now exists p.
Qed.

Lemma endswith_append (a s suffix : string) :
  endswith s suffix = true → endswith (a +:+ s) suffix = true.
Proof.
  rewrite !endswith_spec. intros [p ->]. exists (a +:+ p).
  now rewrite append_assoc.
Qed.

Lemma endswith_newline_contains (s : string) :
  endswith s newline = true → contains_char NL s = true.
Proof.
  rewrite endswith_spec. intros [p ->].
  induction p as [|c p IH]; [reflexivity |].
  rewrite append_cons. cbn [contains_char].
  destruct (Ascii.eqb NL c); [reflexivity | exact IH].
Qed.

(** ** Debugger: the step-control flags *)

Section DebuggerFacts.
Import Debugger.

Lemma flag_cases (t : DebuggerThread) :
  (∃ f, flag_get f t = true) →
  should_continue t = true ∨ should_step t = true ∨
  should_step_in t = true ∨ should_step_out t = true.
Proof. intros [[] H]; simpl in H; auto. Qed.

(** A pass that finds a flag returns the command of a flag that was set and
    resets that flag only. *)
Lemma poll_some (t : DebuggerThread) :
  (∃ f, flag_get f t = true) →
  ∃ f t', poll t = Some (command_of f, t') ∧
          flag_get f t = true ∧ flag_get f t' = false ∧
          ∀ g, g ≠ f → flag_get g t' = flag_get g t.
Proof.
  intros H. apply flag_cases in H. unfold poll.
  destruct t as [c n s r]; simpl in *.
  destruct c.
  { exists FContinue. eexists. split; [reflexivity |].
    repeat split; intros []; simpl; congruence. }
  destruct n.
  { exists FStep. eexists. split; [reflexivity |].
    repeat split; intros []; simpl; congruence. }
  destruct s.
  { exists FStepIn. eexists. split; [reflexivity |].
    repeat split; intros []; simpl; congruence. }
  destruct r.
  { exists FStepOut. eexists. split; [reflexivity |].
    repeat split; intros []; simpl; congruence. }
  destruct H as [H | [H | [H | H]]]; discriminate.
Qed.

Lemma poll_none (t : DebuggerThread) :
  poll t = None ↔ ∀ f, flag_get f t = false.
Proof.
  unfold poll. destruct t as [[] [] [] []]; simpl; split;
    try discriminate; try reflexivity.
  all: try (intros H; first
    [ specialize (H FContinue); discriminate
    | specialize (H FStep); discriminate
    | specialize (H FStepIn); discriminate
    | specialize (H FStepOut); discriminate ]).
  intros _ []; reflexivity.
Qed.

(** A pass returns a command only for a flag that is set. *)
Lemma poll_some_inv (t t' : DebuggerThread) (cmd : string) :
  poll t = Some (cmd, t') → ∃ f, cmd = command_of f ∧ flag_get f t = true.
Proof.
  unfold poll. destruct t as [c n s r]; simpl.
  destruct c; [intros [= <- _]; now exists FContinue |].
  destruct n; [intros [= <- _]; now exists FStep |].
  destruct s; [intros [= <- _]; now exists FStepIn |].
  destruct r; [intros [= <- _]; now exists FStepOut |].
  discriminate.
Qed.

(** Clicks never clear a flag. *)
Lemma clicks_monotone (fs : list flag) (t : DebuggerThread) (g : flag) :
  flag_get g t = true → flag_get g (clicks fs t) = true.
Proof.
  revert t. induction fs as [|f fs IH]; intros t H; [exact H |].
  apply IH. destruct f, g; simpl; auto.
Qed.

(** A flag that is set after some clicks was set before or was clicked. *)
Lemma clicks_origin (fs : list flag) (t : DebuggerThread) (g : flag) :
  flag_get g (clicks fs t) = true → flag_get g t = true ∨ g ∈ fs.
Proof.
  revert t. induction fs as [|f fs IH]; intros t H; [now left |].
  destruct (IH _ H) as [Hset | Hin].
  - destruct (decide (g = f)) as [->|Hne].
    + right. apply list_elem_of_here.
    + left. destruct f, g; simpl in *; congruence.
  - right. now apply list_elem_of_further.
Qed.

End DebuggerFacts.

(** C1. Whenever at least one of the four step-control flags is set,
    [CustomDebugger.readline] returns at once, without sleeping, the
    one-character command of a flag that was set ('c' for should_continue,
    'n' for should_step, 's' for should_step_in, 'r' for should_step_out);
    on return exactly that flag has been cleared and the three other flags
    are as they were. *)
Theorem readline_returns_command_of_set_flag
    (Pdb_attrs : list string) (schedule : list (list Debugger.flag))
    (t : Debugger.DebuggerThread) :
  (∃ f, Debugger.flag_get f t = true) →
  ∃ f t',
    Debugger.readline Pdb_attrs schedule t
      = Debugger.MkResult (Debugger.Returned (Debugger.command_of f)) t' 0 ∧
    Debugger.flag_get f t = true ∧
    Debugger.flag_get f t' = false ∧
    ∀ g, g ≠ f → Debugger.flag_get g t' = Debugger.flag_get g t.
Proof.
  intros H. destruct (poll_some t H) as (f & t' & Hp & Hset & Hclr & Hothers).
  exists f, t'. split; [| auto].
  unfold Debugger.readline. destruct schedule; simpl; now rewrite Hp.
Qed.

Lemma readline_returns_command_of_set_flag_witness :
  (∃ f, Debugger.flag_get f (Debugger.step Debugger.init_thread) = true) ∧
  ∃ f t',
    Debugger.readline [] [] (Debugger.step Debugger.init_thread)
      = Debugger.MkResult (Debugger.Returned (Debugger.command_of f)) t' 0 ∧
    Debugger.flag_get f (Debugger.step Debugger.init_thread) = true ∧
    Debugger.flag_get f t' = false ∧
    ∀ g, g ≠ f → Debugger.flag_get g t' = Debugger.flag_get g (Debugger.step Debugger.init_thread).
Proof.
  split.
  - exists Debugger.FStep. reflexivity.
  - apply (readline_returns_command_of_set_flag [] [] (Debugger.step Debugger.init_thread)).
    exists Debugger.FStep. reflexivity.
Defined.

(** When several flags are set the [if]/[elif] chain decides: continue
    before step-over before step-in before step-out. *)
Lemma readline_priority (Pdb_attrs : list string)
    (schedule : list (list Debugger.flag)) (t : Debugger.DebuggerThread) (cmd : string) :
  Debugger.res_outcome (Debugger.readline Pdb_attrs schedule t) = Debugger.Returned cmd →
  Debugger.should_continue t = true → cmd = "c".
Proof.
  unfold Debugger.readline. intros H Hc.
  destruct schedule; simpl in H; unfold Debugger.poll in H; rewrite Hc in H;
    simpl in H; congruence.
Qed.

(** With a single flag set the command is the one of that flag. *)
Lemma readline_single_flag (Pdb_attrs : list string)
    (schedule : list (list Debugger.flag)) (f : Debugger.flag) :
  Debugger.readline Pdb_attrs schedule (Debugger.click f Debugger.init_thread)
  = Debugger.MkResult (Debugger.Returned (Debugger.command_of f)) Debugger.init_thread 0.
Proof. destruct f, schedule; reflexivity. Qed.

(** The text of the exception raised by a failed lookup of [msleep]. *)
Lemma self_msleep_missing (Pdb_attrs : list string) (ms : nat) :
  "msleep" ∉ Pdb_attrs →
  Debugger.self_msleep Pdb_attrs ms
  = inl (PyExn "AttributeError" "'CustomDebugger' object has no attribute 'msleep'").
Proof.
  intros H. unfold Debugger.self_msleep, Debugger.has_attr.
  rewrite (bool_decide_eq_false_2 _ H).
  now rewrite bool_decide_eq_false_2 by (apply (bool_decide_unpack _); vm_compute; exact I).
Qed.

Lemma self_msleep_found (Pdb_attrs : list string) (ms : nat) :
  "msleep" ∈ Pdb_attrs → Debugger.self_msleep Pdb_attrs ms = inr ms.
Proof.
  intros H. unfold Debugger.self_msleep, Debugger.has_attr.
  rewrite (bool_decide_eq_true_2 _ H). now rewrite orb_true_r.
Qed.

(** C3, the behaviour of the code where the claim fails. [readline] calls
    [self.msleep(100)] on the [CustomDebugger] itself; [msleep] is a method
    of the thread, not of [pdb.Pdb]. So when all four flags are false the
    first pass of the loop raises AttributeError: nothing has been slept,
    the flags are untouched, and no command is returned however the buttons
    are clicked afterwards. *)
Theorem readline_idle_raises
    (Pdb_attrs : list string) (schedule : list (list Debugger.flag))
    (t : Debugger.DebuggerThread) :
  "msleep" ∉ Pdb_attrs →
  (∀ f, Debugger.flag_get f t = false) →
  Debugger.readline Pdb_attrs schedule t
  = Debugger.MkResult
      (Debugger.Raised
         (PyExn "AttributeError" "'CustomDebugger' object has no attribute 'msleep'"))
      t 0.
Proof.
  intros Hattr Hidle. apply poll_none in Hidle.
  unfold Debugger.readline.
  destruct schedule; simpl; rewrite Hidle, (self_msleep_missing _ _ Hattr); reflexivity.
Qed.

Lemma readline_idle_raises_witness :
  Debugger.readline ["cmdloop"; "onecmd"; "set_break"; "run"; "user_line"]
    [[]; []; [Debugger.FStep]] Debugger.init_thread
  = Debugger.MkResult
      (Debugger.Raised
         (PyExn "AttributeError" "'CustomDebugger' object has no attribute 'msleep'"))
      Debugger.init_thread 0.
Proof.
  apply (readline_idle_raises ["cmdloop"; "onecmd"; "set_break"; "run"; "user_line"]
           [[]; []; [Debugger.FStep]] Debugger.init_thread).
  - apply (bool_decide_unpack _). vm_compute. exact I.
  - intros []; reflexivity.
Defined.

(** Whatever [msleep] resolves to, a command comes out of [readline] only
    for a flag that was set at the call or clicked while it was running. *)
Lemma readline_command_origin (Pdb_attrs : list string)
    (schedule : list (list Debugger.flag)) (t : Debugger.DebuggerThread) (cmd : string) :
  Debugger.res_outcome (Debugger.readline Pdb_attrs schedule t) = Debugger.Returned cmd →
  ∃ f, cmd = Debugger.command_of f ∧
       (Debugger.flag_get f t = true ∨ f ∈ concat schedule).
Proof.
  unfold Debugger.readline. generalize 0 as slept.
  revert t. induction schedule as [|fs rest IH]; intros t slept H; simpl in H.
  - destruct (Debugger.poll t) as [[c t']|] eqn:Hp.
    + destruct (poll_some_inv _ _ _ Hp) as (f & -> & Hset).
      exists f. split; [| now left]. simpl in H. congruence.
    + destruct (Debugger.self_msleep Pdb_attrs 100); simpl in H; discriminate.
  - destruct (Debugger.poll t) as [[c t']|] eqn:Hp.
    + destruct (poll_some_inv _ _ _ Hp) as (f & -> & Hset).
      exists f. split; [| now left]. simpl in H. congruence.
    + destruct (Debugger.self_msleep Pdb_attrs 100); simpl in H; [discriminate |].
      destruct (IH _ _ H) as (f & -> & [Hset | Hin]).
      * exists f. split; [reflexivity |].
        destruct (clicks_origin _ _ _ Hset) as [? | ?]; [now left | right].
        simpl. apply elem_of_app. now left.
      * exists f. split; [reflexivity | right].
        simpl. apply elem_of_app. now right.
Qed.

(** Had [msleep] been found, the loop would do what the spec describes:
    with no flag set and no click it keeps polling, 100 ms per pass. *)
Lemma readline_polls_when_msleep_resolves (Pdb_attrs : list string)
    (schedule : list (list Debugger.flag)) (t : Debugger.DebuggerThread) :
  "msleep" ∈ Pdb_attrs →
  (∀ f, Debugger.flag_get f t = false) →
  Forall (fun fs => fs = []) schedule →
  Debugger.readline Pdb_attrs schedule t
  = Debugger.MkResult Debugger.Pending t (100 * S (length schedule)).
Proof.
  intros Hattr Hidle Hquiet. apply poll_none in Hidle.
  unfold Debugger.readline.
  enough (∀ slept, Debugger.readline_loop Pdb_attrs schedule t slept
                   = Debugger.MkResult Debugger.Pending t
                       (slept + 100 * S (length schedule))) as Hgen
    by (rewrite Hgen; f_equal).
  induction Hquiet as [|fs rest -> _ IH]; intros slept;
    cbn [Debugger.readline_loop];
    rewrite Hidle, (self_msleep_found _ _ Hattr).
  - f_equal.
  - cbn [Debugger.clicks foldl]. rewrite IH. f_equal. cbn [length]. lia.
Qed.

(** ** Debugger: output buffering *)

(** A chunk that ends with a newline flushes the buffer. *)
Lemma write_flush (text : string) (d : Debugger.CustomDebugger) :
  endswith text newline = true →
  Debugger.write text d
  = Debugger.MkDebugger (Debugger.debugger_thread d) []
      (Debugger.output_signal d ++ [join (Debugger.output_buffer d ++ [text])]).
Proof. intros H. unfold Debugger.write. now rewrite H. Qed.

(** Any other chunk is kept. *)
Lemma write_keep (text : string) (d : Debugger.CustomDebugger) :
  endswith text newline = false →
  Debugger.write text d
  = Debugger.MkDebugger (Debugger.debugger_thread d)
      (Debugger.output_buffer d ++ [text]) (Debugger.output_signal d).
Proof. intros H. unfold Debugger.write. now rewrite H. Qed.

Lemma write_all_cons (text : string) (chunks : list string) (d : Debugger.CustomDebugger) :
  Debugger.write_all (text :: chunks) d = Debugger.write_all chunks (Debugger.write text d).
Proof. reflexivity. Qed.

Lemma write_all_snoc (chunks : list string) (text : string) (d : Debugger.CustomDebugger) :
  Debugger.write_all (chunks ++ [text]) d = Debugger.write text (Debugger.write_all chunks d).
Proof. unfold Debugger.write_all. now rewrite foldl_app. Qed.

(** C2, as the claim words it, at a chunk with a newline inside: the newline
    has arrived, yet nothing is forwarded and the text stays in the
    buffer. *)
Lemma write_inner_newline_not_forwarded :
  contains_char NL ("a" +:+ newline +:+ "b") = true ∧
  Debugger.write ("a" +:+ newline +:+ "b") (Debugger.new_debugger Debugger.init_thread)
  = Debugger.MkDebugger Debugger.init_thread ["a" +:+ newline +:+ "b"] [].
Proof. split; reflexivity. Qed.

(** The next flush then forwards text with two newlines in one piece. *)
Lemma write_forwards_two_lines_at_once :
  Debugger.output_signal
    (Debugger.write_all ["a" +:+ newline +:+ "b"; "c" +:+ newline]
       (Debugger.new_debugger Debugger.init_thread))
  = ["a" +:+ newline +:+ "bc" +:+ newline].
Proof. reflexivity. Qed.

(** C2, amended. For every sequence of calls to [CustomDebugger.write]:
    the texts forwarded through [output_signal] are appended to those
    already forwarded, one for each chunk that ends with a newline, and each
    of them ends with a newline; the forwarded texts followed by the buffer
    are the old buffer followed by all chunks, in order; while no chunk ends
    with a newline nothing is forwarded and the chunks pile up in the
    buffer; after a chunk that ends with a newline the buffer is empty. *)
Theorem write_all_forwards_on_trailing_newline
    (chunks : list string) (d : Debugger.CustomDebugger) :
  ∃ forwarded,
    Debugger.output_signal (Debugger.write_all chunks d)
      = Debugger.output_signal d ++ forwarded ∧
    length forwarded = length (filter (fun c => endswith c newline = true) chunks) ∧
    Forall (fun line => endswith line newline = true) forwarded ∧
    join forwarded +:+ join (Debugger.output_buffer (Debugger.write_all chunks d))
      = join (Debugger.output_buffer d) +:+ join chunks ∧
    (Forall (fun c => endswith c newline = false) chunks →
       forwarded = [] ∧
       Debugger.output_buffer (Debugger.write_all chunks d)
         = Debugger.output_buffer d ++ chunks) ∧
    (∀ before last, chunks = before ++ [last] → endswith last newline = true →
       Debugger.output_buffer (Debugger.write_all chunks d) = []).
Proof.
  revert d. induction chunks as [|c chunks IH]; intros d.
  - exists []. rewrite app_nil_r. repeat split; try reflexivity.
    + constructor.
    + cbn. now rewrite append_empty_r.
    + now rewrite app_nil_r.
    + intros before last H. now destruct before.
  - rewrite write_all_cons.
    destruct (IH (Debugger.write c d)) as (fw & Hsig & Hlen & Hnl & Hcons & Hquiet & Hlast).
    assert (Hlast' : ∀ before last, c :: chunks = before ++ [last] →
              endswith last newline = true →
              Debugger.output_buffer (Debugger.write_all chunks (Debugger.write c d)) = []).
    { intros before last Heq Hend. destruct chunks as [|c' chunks'].
      - destruct before as [|? [|? ?]]; try discriminate.
        injection Heq as ->. cbn. now rewrite (write_flush _ _ Hend).
      - destruct before as [|b before']; [discriminate |].
        injection Heq as -> Heq. now apply (Hlast before' last). }
    destruct (endswith c newline) eqn:Hc.
    + rewrite (write_flush _ _ Hc) in *. cbn [Debugger.output_signal Debugger.output_buffer] in *.
      exists (join (Debugger.output_buffer d ++ [c]) :: fw).
      split; [now rewrite Hsig, <- app_assoc |].
      split.
      { rewrite filter_cons_True by exact Hc. cbn [length]. now rewrite Hlen. }
      split.
      { constructor; [| exact Hnl].
        rewrite join_app, join_singleton. now apply endswith_append. }
      split.
      { change (join (join (Debugger.output_buffer d ++ [c]) :: fw))
          with (join (Debugger.output_buffer d ++ [c]) +:+ join fw).
        rewrite append_assoc, Hcons. cbn [join foldr].
        change (foldr String.append EmptyString chunks) with (join chunks).
        rewrite join_app, join_singleton, append_assoc. reflexivity. }
      split; [| exact Hlast'].
      intros Hall. inversion Hall; congruence.
    + rewrite (write_keep _ _ Hc) in *. cbn [Debugger.output_signal Debugger.output_buffer] in *.
      exists fw.
      split; [exact Hsig |].
      split.
      { rewrite filter_cons_False by (rewrite Hc; discriminate). exact Hlen. }
      split; [exact Hnl |].
      split.
      { rewrite Hcons, join_app, join_singleton, append_assoc. reflexivity. }
      split; [| exact Hlast'].
      intros Hall. inversion Hall as [|? ? _ Hrest]; subst.
      destruct (Hquiet Hrest) as [-> Hbuf]. split; [reflexivity |].
      now rewrite Hbuf, <- app_assoc.
Qed.

Lemma write_all_forwards_on_trailing_newline_witness :
  (∃ forwarded,
     Debugger.output_signal
       (Debugger.write_all ["x = "; "1" +:+ newline]
          (Debugger.new_debugger Debugger.init_thread))
       = [] ++ forwarded ∧
     length forwarded = 1 ∧
     Forall (fun line => endswith line newline = true) forwarded) ∧
  Debugger.output_buffer
    (Debugger.write_all ["x = "; "1" +:+ newline]
       (Debugger.new_debugger Debugger.init_thread)) = [].
Proof.
  destruct (write_all_forwards_on_trailing_newline
              ["x = "; "1" +:+ newline]
              (Debugger.new_debugger Debugger.init_thread))
    as (fw & Hsig & Hlen & Hnl & _ & _ & Hlast).
  split.
  - exists fw. split; [exact Hsig | split; [exact Hlen | exact Hnl]].
  - apply (Hlast ["x = "] ("1" +:+ newline)); reflexivity.
Defined.

(** ** Editor: folding *)

(** The indentation level counts the leading whitespace characters. *)
Lemma lstrip_length (s : text) : length (lstrip s) ≤ length s.
Proof.
  induction s as [|c s IH]; simpl; [lia |].
  destruct (py_isspace c); simpl; lia.
Qed.

(** [get_indent_level] is the number of leading whitespace characters: the
    text is a run of that many whitespace characters followed by a rest
    that is empty or starts with another character. *)
Lemma indent_level_counts_leading_whitespace (s : text) (st : Z) (v : bool) :
  ∃ pre, s = pre ++ lstrip s ∧
         Forall (fun c => py_isspace c = true) pre ∧
         Editor.get_indent_level (Editor.MkBlock s st v) = length pre ∧
         (∀ c rest, lstrip s = c :: rest → py_isspace c = false).
Proof.
  unfold Editor.get_indent_level. simpl.
  induction s as [|c s (pre & Heq & Hws & Hlen & Hstop)].
  - exists []. repeat split; [constructor | discriminate].
  - simpl. destruct (py_isspace c) eqn:Hc.
    + exists (c :: pre). split; [simpl; now f_equal |].
      split; [now constructor |].
      split; [| exact Hstop].
      pose proof (lstrip_length s). simpl. lia.
    + exists []. split; [reflexivity |]. split; [constructor |].
      split; [simpl; lia |].
      intros c' rest [= <- _]. exact Hc.
Qed.

(** The loop of [toggle_fold] on the blocks after the toggled one: it
    changes the visibility of a prefix of them, the deeper ones up to the
    first that is not deeper, and nothing else. *)
Lemma set_children_visible_spec (v : bool) (level : nat) (rest : list Editor.block) :
  ∃ k,
    (∀ j, j < k → ∃ c, rest !! j = Some c ∧ level < Editor.get_indent_level c) ∧
    (∀ c, rest !! k = Some c → Editor.get_indent_level c ≤ level) ∧
    length (Editor.set_children_visible v level rest) = length rest ∧
    ∀ j c, rest !! j = Some c →
      Editor.set_children_visible v level rest !! j
      = Some (if decide (j < k) then Editor.setVisible v c else c).
Proof.
  induction rest as [|nb rest (k & Hrun & Hstop & Hlen & Hlook)]; simpl.
  - exists 0. repeat split; try (intros; lia); discriminate.
  - destruct (level <? Editor.get_indent_level nb) eqn:Hdeep.
    + apply Nat.ltb_lt in Hdeep. exists (S k). repeat split.
      * intros [|j] Hj; [exists nb; now split |]. apply Hrun. lia.
      * exact Hstop.
      * simpl. now rewrite Hlen.
      * intros [|j] c Hc; simpl in *.
        { injection Hc as ->. reflexivity. }
        rewrite (Hlook _ _ Hc).
        destruct (decide (j < k)), (decide (S j < S k)); try lia; reflexivity.
    + apply Nat.ltb_ge in Hdeep. exists 0. repeat split.
      * intros j Hj. lia.
      * intros c [= <-]. exact Hdeep.
      * intros j c Hc. rewrite Hc.
        destruct (decide (j < 0)); [lia | reflexivity].
Qed.

(** The run of children of a block is unique. *)
Lemma is_child_run_unique (doc : Editor.document) (i level k1 k2 : nat) :
  Editor.is_child_run doc i level k1 → Editor.is_child_run doc i level k2 → k1 = k2.
Proof.
  intros [Hrun1 Hstop1] [Hrun2 Hstop2].
  destruct (Nat.lt_trichotomy k1 k2) as [Hlt | [Heq | Hgt]]; [| exact Heq |].
  - destruct (Hrun2 (i + k1 + 1)) as (c & Hc & Hdeep); [lia |].
    specialize (Hstop1 _ Hc). lia.
  - destruct (Hrun1 (i + k2 + 1)) as (c & Hc & Hdeep); [lia |].
    specialize (Hstop2 _ Hc). lia.
Qed.

(** The effect of [toggle_fold] on a valid block, for either branch. *)
Lemma toggle_fold_effect (doc : Editor.document) (i : nat) (b : Editor.block) :
  doc !! i = Some b →
  ∃ k, Editor.is_child_run doc i (Editor.get_indent_level b) k ∧
       Editor.folded_as doc (Editor.toggle_fold doc i) i k
         (if (Editor.userState b =? 1)%Z then 0%Z else 1%Z)
         (Editor.userState b =? 1)%Z.
Proof.
  intros Hb. pose proof (lookup_lt_Some _ _ _ Hb) as Hi.
  set (level := Editor.get_indent_level b).
  set (v := (Editor.userState b =? 1)%Z).
  set (st := if v then 0%Z else 1%Z).
  assert (Htf : Editor.toggle_fold doc i
                = take i doc ++ Editor.setUserState st b
                    :: Editor.set_children_visible v level (drop (S i) doc)).
  { unfold Editor.toggle_fold. rewrite Hb. subst st v level.
    destruct (Editor.userState b =? 1)%Z; reflexivity. }
  destruct (set_children_visible_spec v level (drop (S i) doc))
    as (k & Hrun & Hstop & Hlen & Hlook).
  exists k. split; [split |].
  - intros j Hj. destruct (Hrun (j - S i)) as (c & Hc & Hdeep); [lia |].
    exists c. split; [| exact Hdeep].
    rewrite lookup_drop in Hc. now replace (S i + (j - S i)) with j in Hc by lia.
  - intros c Hc. apply Hstop. rewrite lookup_drop.
    now replace (S i + k) with (i + k + 1) by lia.
  - split.
    + rewrite Htf, length_app, length_take_le by lia. simpl.
      rewrite Hlen, length_drop. lia.
    + intros j c Hc. rewrite Htf.
      destruct (Nat.lt_trichotomy j i) as [Hlt | [-> | Hgt]].
      * rewrite lookup_app_l by (rewrite length_take_le; lia).
        rewrite lookup_take_lt by exact Hlt. rewrite Hc.
        destruct (decide (j = i)); [lia |].
        destruct (decide (i < j ≤ i + k)); [lia |]. now destruct c.
      * rewrite list_lookup_middle by (rewrite length_take_le; lia).
        assert (c = b) as -> by congruence.
        destruct (decide (i = i)); [| lia].
        destruct (decide (i < i ≤ i + k)); [lia |]. reflexivity.
      * rewrite lookup_app_r by (rewrite length_take_le; lia).
        rewrite length_take_le by lia.
        replace (j - i) with (S (j - S i)) by lia. simpl.
        assert (Hc' : drop (S i) doc !! (j - S i) = Some c).
        { rewrite lookup_drop. now replace (S i + (j - S i)) with j by lia. }
        rewrite (Hlook _ _ Hc').
        destruct (decide (j = i)); [lia |].
        destruct (decide (j - S i < k)), (decide (i < j ≤ i + k)); try lia;
          now destruct c.
Qed.



(** On the sample document the header folds its two indented lines and a
    second toggle shows them again. *)
Example toggle_fold_sample :
  map Editor.visible (Editor.toggle_fold Editor.sample_document 0)
    = [true; false; false; true] ∧
  map Editor.userState (Editor.toggle_fold Editor.sample_document 0)
    = [1; -1; -1; -1]%Z ∧
  map Editor.visible
    (Editor.toggle_fold (Editor.toggle_fold Editor.sample_document 0) 0)
    = [true; true; true; true] ∧
  map Editor.userState
    (Editor.toggle_fold (Editor.toggle_fold Editor.sample_document 0) 0)
    = [0; -1; -1; -1]%Z.
Proof. repeat split; reflexivity. Qed.

(** ** Statistics: line classification *)

(** Every line falls in exactly one of the three classes. *)
Lemma line_classes_partition (line : text) :
  (if Statistics.is_empty_line line then 1 else 0)
  + (if Statistics.is_comment_line line then 1 else 0)
  + (if Statistics.is_code_line line then 1 else 0) = 1.
Proof.
  unfold Statistics.is_code_line, Statistics.is_comment_line, Statistics.is_empty_line.
  destruct (strip line) as [|c rest]; simpl; [reflexivity |].
  destruct (c =? Statistics.HASH)%N; reflexivity.
Qed.

Lemma count_lines_cons (cond : text → bool) (line : text) (lines : list text) :
  Statistics.count_lines cond (line :: lines)
  = (if cond line then 1 else 0) + Statistics.count_lines cond lines.
Proof.
  unfold Statistics.count_lines. destruct (cond line) eqn:H.
  - now rewrite filter_cons_True by exact H.
  - rewrite filter_cons_False by (rewrite H; discriminate). reflexivity.
Qed.

Lemma count_lines_partition (lines : list text) :
  Statistics.count_lines Statistics.is_empty_line lines
  + Statistics.count_lines Statistics.is_comment_line lines
  + Statistics.count_lines Statistics.is_code_line lines
  = length lines.
Proof.
  induction lines as [|line lines IH]; [reflexivity |].
  rewrite !count_lines_cons. pose proof (line_classes_partition line).
  simpl length. lia.
Qed.

(** [split] yields one segment more than there are separators and loses
    nothing: joining the segments with the separator gives the text back. *)
Lemma split_on_length (sep : codepoint) (s : text) :
  length (split_on sep s) = S (length (filter (fun c => c = sep) s)).
Proof.
  induction s as [|c s IH]; [reflexivity |]. simpl.
  destruct (N.eqb_spec c sep) as [->|Hne].
  - rewrite filter_cons_True by reflexivity. simpl. now rewrite IH.
  - rewrite filter_cons_False by exact Hne.
    destruct (split_on sep s); simpl in *; [discriminate | exact IH].
Qed.

Lemma split_on_join (sep : codepoint) (s : text) :
  join_with sep (split_on sep s) = s ∧
  Forall (fun seg => sep ∉ seg) (split_on sep s).
Proof.
  induction s as [|c s [IHj IHf]]; simpl.
  - split; [reflexivity |]. constructor; [apply not_elem_of_nil | constructor].
  - destruct (N.eqb_spec c sep) as [->|Hne].
    + pose proof (split_on_length sep s) as Hlen.
      destruct (split_on sep s) as [|seg segs] eqn:Hs; [discriminate |].
      split; [change (sep :: join_with sep (seg :: segs) = sep :: s); now rewrite IHj |].
      constructor; [apply not_elem_of_nil | exact IHf].
    + pose proof (split_on_length sep s) as Hlen.
      destruct (split_on sep s) as [|seg segs] eqn:Hs; [discriminate |].
      split.
      * rewrite <- IHj. destruct segs; reflexivity.
      * inversion IHf as [|? ? Hseg Hsegs]; subst. constructor; [| exact Hsegs].
        intros Hin. apply elem_of_cons in Hin as [? | ?]; [congruence | contradiction].
Qed.


(** The three classes on typical lines. *)
Example classify_lines :
  Statistics.analyze
    (text_of "# title" ++ [Statistics.LF] ++ text_of "  " ++ [Statistics.LF]
       ++ text_of "x = 1  # set" ++ [Statistics.LF])
  = Statistics.MkStats 4 2 1 1 24.
Proof. reflexivity. Qed.

(** ** Git: the shell wrapper *)

(** Every operation is [run_git_command] on its command line. *)
Lemma run_operation_command (subprocess_run : string → string → pyexn + Git.CompletedProcess)
    (op : Git.operation) (repo_path : option string) (g : Git.GitManager) :
  Git.run_operation subprocess_run op repo_path g
  = Git.run_git_command subprocess_run (Git.command_line op) repo_path g.
Proof. destruct op as [| | [|f fs] | | | | | |]; reflexivity. Qed.

(** How [run_git_command] picks the directory. *)
Lemma run_git_command_in (subprocess_run : string → string → pyexn + Git.CompletedProcess)
    (command : string) (repo_path : option string) (g : Git.GitManager) (cwd : string) :
  Git.working_directory repo_path g cwd →
  Git.run_git_command subprocess_run command repo_path g
  = match subprocess_run command cwd with
    | inr result =>
        ((Some (Git.returncode result), Git.stdout result +:+ Git.stderr result),
         [Git.MkSpawn command cwd])
    | inl e => ((Some 1%Z, exn_text e), [Git.MkSpawn command cwd])
    end.
Proof.
  intros [Hcwd [-> | [Hfalsy Hcur]]]; unfold Git.run_git_command.
  - unfold Git.falsy. rewrite Hcwd. simpl. now rewrite Hcwd.
  - rewrite Hfalsy, Hcur. now rewrite Hcwd.
Qed.

(** C7. For every Git operation (init, status, add, commit, push, pull,
    branch, checkout, merge), run on its shell command line: when the
    subprocess completes the result is the pair (exit code, stdout followed
    by stderr); when no repository path is passed and none is selected the
    result is (None, "No repository selected") and no subprocess is
    started; when starting the subprocess raises, the result is (1, the
    text of the exception). The result is this pair and nothing more. *)
Theorem run_git_command_reports_code_and_text
    (subprocess_run : string → string → pyexn + Git.CompletedProcess)
    (op : Git.operation) (repo_path : option string) (g : Git.GitManager) :
  (Git.falsy repo_path = true → Git.falsy (Git.current_repo g) = true →
     Git.run_operation subprocess_run op repo_path g
     = ((None, "No repository selected"), [])) ∧
  (∀ cwd result,
     Git.working_directory repo_path g cwd →
     subprocess_run (Git.command_line op) cwd = inr result →
     Git.run_operation subprocess_run op repo_path g
     = ((Some (Git.returncode result), Git.stdout result +:+ Git.stderr result),
        [Git.MkSpawn (Git.command_line op) cwd])) ∧
  (∀ cwd e,
     Git.working_directory repo_path g cwd →
     subprocess_run (Git.command_line op) cwd = inl e →
     Git.run_operation subprocess_run op repo_path g
     = ((Some 1%Z, exn_text e), [Git.MkSpawn (Git.command_line op) cwd])).
Proof.
  rewrite run_operation_command. repeat split.
  - intros Hnone Hcur. unfold Git.run_git_command. rewrite Hnone.
    unfold Git.falsy in Hcur. destruct (Git.current_repo g) as [cwd|]; [| reflexivity].
    destruct (truthy cwd); [discriminate | reflexivity].
  - intros cwd result Hwd Hrun. rewrite (run_git_command_in _ _ _ _ _ Hwd). now rewrite Hrun.
  - intros cwd e Hwd Hrun. rewrite (run_git_command_in _ _ _ _ _ Hwd). now rewrite Hrun.
Qed.

Lemma run_git_command_reports_code_and_text_witness :
  Git.run_operation Git.sample_shell Git.Status None (Git.MkGit None)
  = ((None, "No repository selected"), []) ∧
  Git.run_operation Git.sample_shell Git.Status None (Git.MkGit (Some "/repo"))
  = ((Some 0%Z, "On branch main"), [Git.MkSpawn "git status" "/repo"]) ∧
  Git.run_operation Git.sample_shell Git.Status (Some "/gone") (Git.MkGit (Some "/repo"))
  = ((Some 1%Z, "[Errno 2] No such file or directory"),
     [Git.MkSpawn "git status" "/gone"]).
Proof.
  split; [| split].
  - apply (run_git_command_reports_code_and_text Git.sample_shell Git.Status None
             (Git.MkGit None)); reflexivity.
  - apply (proj1 (proj2 (run_git_command_reports_code_and_text Git.sample_shell
             Git.Status None (Git.MkGit (Some "/repo"))))
             "/repo" (Git.MkCompleted 0 "On branch main" EmptyString)).
    + split; [reflexivity | right; split; reflexivity].
    + reflexivity.
  - apply (proj2 (proj2 (run_git_command_reports_code_and_text Git.sample_shell
             Git.Status (Some "/gone") (Git.MkGit (Some "/repo"))))
             "/gone" (PyExn "FileNotFoundError" "[Errno 2] No such file or directory")).
    + split; [reflexivity | left; reflexivity].
    + reflexivity.
Defined.

(** The command lines that reach the shell. *)
Example git_command_lines :
  Git.command_line (Git.Add ["a.py"; "b.py"]) = "git add a.py b.py" ∧
  Git.command_line (Git.Add []) = "git add ." ∧
  Git.command_line (Git.Push "origin" "main") = "git push origin main" ∧
  Git.command_line (Git.Commit "fix") = "git commit -m " +:+ DQUOTE +:+ "fix" +:+ DQUOTE.
Proof. repeat split; reflexivity. Qed.

(** ** Snippets and projects: names *)

Lemma truthy_nonempty (s : string) : truthy s = true ↔ s ≠ EmptyString.
Proof. destruct s; simpl; split; congruence. Qed.

Lemma save_snippets_named (outcome : Snippets.saving) (l : list Snippets.snippet)
    (m : Snippets.SnippetManager) :
  Snippets.all_named l → Snippets.snippets m = l → Snippets.store_named m →
  Snippets.store_named (fst (Snippets.save_snippets outcome l m)).
Proof.
  intros Hl Hm [Hmem Hdisk]. unfold Snippets.save_snippets.
  destruct outcome; simpl; [| now split |].
  - split; [exact Hmem |]. intros l' [= <-]. exact Hl.
  - split; [exact Hmem | discriminate].
Qed.

(** C5, as the claim words it, on [SnippetManager.add_snippet] itself: the
    manager stores a snippet whose name is empty. *)
Lemma manager_add_snippet_stores_empty_name :
  Snippets.snippets
    (Snippets.add_snippet true EmptyString "for" "pass" (Snippets.MkManager [] None))
  = [Snippets.MkSnippet EmptyString "for" "pass"] ∧
  ¬ Snippets.all_named
      (Snippets.snippets
         (Snippets.add_snippet true EmptyString "for" "pass" (Snippets.MkManager [] None))).
Proof.
  split; [reflexivity |].
  intros H. inversion H as [|? ? Hname _]. now apply Hname.
Qed.

(** The same for [SnippetManager.update_snippet]. *)
Lemma manager_update_snippet_stores_empty_name :
  Snippets.snippets
    (Snippets.update_snippet true 0 EmptyString "for" "pass"
       (Snippets.MkManager [Snippets.MkSnippet "For Loop" "for" "pass"] None))
  = [Snippets.MkSnippet EmptyString "for" "pass"].
Proof. reflexivity. Qed.

Lemma add_snippet_named (outcome : Snippets.saving) (n p b : string)
    (m : Snippets.SnippetManager) :
  n ≠ EmptyString → Snippets.store_named m →
  Snippets.store_named (Snippets.add_snippet outcome n p b m).
Proof.
  intros Hn [Hmem Hdisk]. unfold Snippets.add_snippet.
  assert (Hl : Snippets.all_named (Snippets.snippets m ++ [Snippets.MkSnippet n p b])).
  { apply Forall_app. split; [exact Hmem |]. now repeat constructor. }
  apply save_snippets_named; [exact Hl | reflexivity |].
  split; [exact Hl | exact Hdisk].
Qed.

Lemma update_snippet_named (outcome : Snippets.saving) (index : Z) (n p b : string)
    (m : Snippets.SnippetManager) :
  n ≠ EmptyString → Snippets.store_named m →
  Snippets.store_named (Snippets.update_snippet outcome index n p b m).
Proof.
  intros Hn [Hmem Hdisk]. unfold Snippets.update_snippet.
  destruct ((0 <=? index)%Z && (index <? Z.of_nat (length (Snippets.snippets m)))%Z);
    [| now split].
  assert (Hl : Snippets.all_named
                 (<[Z.to_nat index := Snippets.MkSnippet n p b]> (Snippets.snippets m))).
  { apply Forall_insert; [exact Hmem | exact Hn]. }
  apply save_snippets_named; [exact Hl | reflexivity |].
  split; [exact Hl | exact Hdisk].
Qed.

(** A dialog that closes as accepted has a name and a path. *)
Lemma exec_accepted (actions : list Project.dialog_action)
    (d d' : Project.CreateProjectDialog) (warnings : list message) :
  Project.exec_ actions d = (Project.Accepted, d', warnings) →
  Project.name_edit d' ≠ EmptyString ∧ Project.path_edit d' ≠ EmptyString.
Proof.
  revert d warnings.
  induction actions as [|a actions IH]; intros d warnings H; simpl in H; [discriminate |].
  destruct a as [s | s | s | |].
  - now apply (IH _ _ H).
  - now apply (IH _ _ H).
  - now apply (IH _ _ H).
  - unfold Project.accept in H.
    destruct (truthy (Project.name_edit d)) eqn:Hn; simpl in H.
    + destruct (truthy (Project.path_edit d)) eqn:Hp; simpl in H.
      * injection H as <- _. split; now apply truthy_nonempty.
      * destruct (Project.exec_ actions d) as [[code d''] ms] eqn:He.
        injection H as -> -> _. now apply (IH _ _ He).
    + destruct (Project.exec_ actions d) as [[code d''] ms] eqn:He.
      injection H as -> -> _. now apply (IH _ _ He).
  - discriminate.
Qed.

Section ProjectFacts.

Variable os_path_join : string → string → string.
Variable json_dump : Project.json → string.
Variable json_load : string → pyexn + Project.json.
Variable py_str : Project.json → string.
Variable mkdir_error : Project.fs → string → option pyexn.
Variable write_error : Project.fs → string → option Project.write_failure.
Variable read_error : Project.fs → string → option pyexn.

Local Abbreviation create_project :=
  (Project.create_project os_path_join json_dump mkdir_error write_error).
Local Abbreviation open_project := (Project.open_project json_load read_error).
Local Abbreviation add_file_to_project :=
  (Project.add_file_to_project os_path_join json_dump py_str write_error).
Local Abbreviation remove_file_from_project :=
  (Project.remove_file_from_project os_path_join json_dump py_str write_error).

(** Unfolds the statements of [Project.M] down to matches on the world. *)
Ltac run_statements :=
  unfold Project.bind, Project.try_except, Project.lift, Project.ret,
    Project.get_current_project, Project.set_current_project,
    Project.os_path_exists, Project.os_makedirs, Project.dump_to.

Tactic Notation "run_statements" "in" hyp(H) :=
  unfold Project.bind, Project.try_except, Project.lift, Project.ret,
    Project.get_current_project, Project.set_current_project,
    Project.os_path_exists, Project.os_makedirs, Project.dump_to in H.

(** A project that [create_project] returns was accepted by the dialog. *)
Lemma create_project_returns (actions : list Project.dialog_action)
    (w w' : Project.world) (p : Project.json) :
  create_project actions w = (w', inr (Some p)) →
  ∃ dialog warnings,
    Project.exec_ actions Project.new_dialog = (Project.Accepted, dialog, warnings) ∧
    p = Project.project_data (Project.name_edit dialog) (Project.path_edit dialog) [] ∧
    Project.current_project w' = Some p.
Proof.
  unfold Project.create_project.
  destruct (Project.exec_ actions Project.new_dialog) as [[code dialog] warnings].
  destruct code; [| discriminate].
  intros H. exists dialog, warnings. split; [reflexivity |].
  run_statements in H. simpl in H.
  destruct (Project.path_exists _ _); simpl in H.
  - destruct (write_error _ _) as [[e | e cut] |]; simpl in H;
      [discriminate | discriminate |].
    injection H as <- <-. split; reflexivity.
  - destruct (mkdir_error _ _); simpl in H; [discriminate |].
    destruct (write_error _ _) as [[e | e cut] |]; simpl in H;
      [discriminate | discriminate |].
    injection H as <- <-. split; reflexivity.
Qed.

(** C5, amended. The dialogs keep names non-empty: [CreateProjectDialog]
    answers an empty name with the warning "Project name is required" and
    stays open, so a project that [create_project] returns has a non-empty
    name; [SnippetDialog.add_snippet] and [SnippetDialog.update_snippet]
    refuse an empty name, so when every snippet in the store (in memory and
    in snippets.json) has a non-empty name before such a call, every
    snippet has one after it. [SnippetManager.add_snippet] and
    [SnippetManager.update_snippet] themselves store the name they are
    given. *)
Theorem dialogs_keep_names_nonempty :
  (∀ path, Project.accept (Project.MkDialog EmptyString path)
           = inl (MkMessage Warning "Error" "Project name is required")) ∧
  (∀ actions w w' p,
     create_project actions w = (w', inr (Some p)) →
     ∃ name path, p = Project.project_data name path [] ∧ name ≠ EmptyString) ∧
  (∀ writable n p b m,
     Snippets.store_named m →
     Snippets.store_named (fst (Snippets.dialog_add_snippet writable n p b m))) ∧
  (∀ writable selected n p b m,
     Snippets.store_named m →
     Snippets.store_named (fst (Snippets.dialog_update_snippet writable selected n p b m))).
Proof.
  split; [reflexivity |]. split; [| split].
  - intros actions w w' p H.
    destruct (create_project_returns _ _ _ _ H) as (dialog & warnings & Hexec & -> & _).
    exists (Project.name_edit dialog), (Project.path_edit dialog).
    split; [reflexivity |]. now apply (exec_accepted _ _ _ _ Hexec).
  - intros writable n p b m Hm. unfold Snippets.dialog_add_snippet.
    destruct (Snippets.field_missing n p b) eqn:Hmiss; simpl; [exact Hm |].
    apply add_snippet_named; [| exact Hm].
    unfold Snippets.field_missing in Hmiss. apply truthy_nonempty.
    destruct (truthy n); [reflexivity | discriminate].
  - intros writable selected n p b m Hm. unfold Snippets.dialog_update_snippet.
    destruct selected as [row|]; [| exact Hm].
    destruct (Snippets.field_missing n p b) eqn:Hmiss; simpl; [exact Hm |].
    apply update_snippet_named; [| exact Hm].
    unfold Snippets.field_missing in Hmiss. apply truthy_nonempty.
    destruct (truthy n); [reflexivity | discriminate].
Qed.

(** Where [posixpath.join] puts <name>.webe.json for a project path that is
    not empty. *)
Lemma posixpath_join_project_file (path name : string) :
  path ≠ EmptyString →
  Project.posixpath_join path (name +:+ ".webe.json")
  = if Project.startswith_slash name then name +:+ ".webe.json"
    else path +:+ (if endswith path "/" then EmptyString else "/")
              +:+ name +:+ ".webe.json".
Proof.
  intros Hpath. unfold Project.posixpath_join.
  assert (Hs : Project.startswith_slash (name +:+ ".webe.json")
               = Project.startswith_slash name).
  { destruct name as [|c name]; [reflexivity |]. now rewrite append_cons. }
  rewrite Hs. destruct (Project.startswith_slash name); [reflexivity |].
  rewrite (proj2 (truthy_nonempty path) Hpath). cbn [negb orb].
  destruct (endswith path "/"); reflexivity.
Qed.

(** C6, amended. Given a dialog accepted with a name and a path, and a file
    system that lets the directory be created and the file be written,
    [create_project] creates the project directory if it does not exist,
    writes the file at [os.path.join(path, name + '.webe.json')], whose
    content is the dump of exactly the object with the keys name, path and
    files, files being the empty list, makes that object the current
    project and returns it. With POSIX paths that file is the project path,
    a slash (unless the path ends with one) and <name>.webe.json when the
    name does not start with a slash; a name that starts with a slash puts
    the file at <name>.webe.json itself, whatever the project path. *)
Theorem create_project_writes_project_file
    (actions : list Project.dialog_action) (w : Project.world)
    (dialog : Project.CreateProjectDialog) (warnings : list message) :
  let name := Project.name_edit dialog in
  let path := Project.path_edit dialog in
  let file := os_path_join path (name +:+ ".webe.json") in
  let data := Project.JObj [("name", Project.JStr name); ("path", Project.JStr path);
                            ("files", Project.JList [])] in
  let dirs := if Project.path_exists (Project.disk w) path
              then Project.fs_dirs (Project.disk w)
              else {[path]} ∪ Project.fs_dirs (Project.disk w) in
  Project.exec_ actions Project.new_dialog = (Project.Accepted, dialog, warnings) →
  (Project.path_exists (Project.disk w) path = false →
   mkdir_error (Project.disk w) path = None) →
  write_error (Project.MkFs dirs (Project.fs_files (Project.disk w))) file = None →
  create_project actions w
  = (Project.MkWorld (Some data)
       (Project.MkFs dirs (<[file := json_dump data]> (Project.fs_files (Project.disk w))))
       (Project.messages w ++ warnings),
     inr (Some data)) ∧
  (Project.startswith_slash name = false →
   Project.posixpath_join path (name +:+ ".webe.json")
   = path +:+ (if endswith path "/" then EmptyString else "/") +:+ name +:+ ".webe.json") ∧
  (Project.startswith_slash name = true →
   Project.posixpath_join path (name +:+ ".webe.json") = name +:+ ".webe.json").
Proof.
  intros name path file data dirs Hexec Hmk Hwr.
  split; [| split].
  - unfold Project.create_project. rewrite Hexec.
    run_statements. simpl.
    fold name path. subst dirs.
    destruct (Project.path_exists (Project.disk w) path) eqn:Hex; simpl.
    + destruct (Project.disk w) as [ds fl] eqn:Hd. simpl in *.
      fold file. rewrite Hwr. reflexivity.
    + rewrite (Hmk eq_refl). simpl. fold file. rewrite Hwr. reflexivity.
  - intros Hplain.
    rewrite posixpath_join_project_file by apply (exec_accepted _ _ _ _ Hexec).
    now rewrite Hplain.
  - intros Habs.
    rewrite posixpath_join_project_file by apply (exec_accepted _ _ _ _ Hexec).
    now rewrite Habs.
Qed.

(** Reading a project file does not change the world. *)
Lemma load_from_pure (file_path : string) (w : Project.world) :
  fst (Project.load_from json_load read_error file_path w) = w.
Proof.
  unfold Project.load_from. destruct (read_error _ _); [reflexivity |].
  destruct (Project.fs_files _ !! _); [reflexivity |].
  destruct (bool_decide _); reflexivity.
Qed.

(** C8. [open_project] on a selected file guards reading and parsing. When
    the file cannot be read (the read raises, the path is a directory, or
    there is no such file) or [json.load] raises on its content, a warning
    dialog with the text of the exception is shown, None is returned, and
    the current project and the disk are as before. When the file is read
    and parsed, the parsed JSON becomes the current project and is
    returned, and nothing is shown. *)
Theorem open_project_guards_load (file_path : string) (w : Project.world) :
  truthy file_path = true →
  let failed (e : pyexn) :=
    (Project.MkWorld (Project.current_project w) (Project.disk w)
       (Project.messages w ++
          [MkMessage Warning "Error" ("Failed to open project: " +:+ exn_text e)]),
     @inr pyexn (option Project.json) None) in
  (∀ e, read_error (Project.disk w) file_path = Some e →
     open_project file_path w = failed e) ∧
  (∀ content e,
     read_error (Project.disk w) file_path = None →
     Project.fs_files (Project.disk w) !! file_path = Some content →
     json_load content = inl e →
     open_project file_path w = failed e) ∧
  (read_error (Project.disk w) file_path = None →
   Project.fs_files (Project.disk w) !! file_path = None →
   file_path ∈ Project.fs_dirs (Project.disk w) →
   open_project file_path w = failed (Project.is_a_directory file_path)) ∧
  (read_error (Project.disk w) file_path = None →
   Project.fs_files (Project.disk w) !! file_path = None →
   file_path ∉ Project.fs_dirs (Project.disk w) →
   open_project file_path w = failed (Project.no_such_file file_path)) ∧
  (∀ content data,
     read_error (Project.disk w) file_path = None →
     Project.fs_files (Project.disk w) !! file_path = Some content →
     json_load content = inr data →
     open_project file_path w
     = (Project.MkWorld (Some data) (Project.disk w) (Project.messages w),
        inr (Some data))).
Proof.
  intros Hsel failed. subst failed. cbv beta.
  unfold Project.open_project. rewrite Hsel.
  unfold Project.try_except, Project.bind, Project.load_from, Project.show_message,
    Project.set_current_project, Project.ret.
  split; [| split; [| split; [| split]]].
  - intros e ->. reflexivity.
  - intros content e -> -> ->. reflexivity.
  - intros -> -> Hdir. now rewrite bool_decide_eq_true_2.
  - intros -> -> Hdir. now rewrite bool_decide_eq_false_2.
  - intros content data -> -> ->. reflexivity.
Qed.

(** A cancelled file dialog opens nothing. *)
Lemma open_project_cancelled (w : Project.world) :
  open_project EmptyString w = (w, inr None).
Proof. reflexivity. Qed.

(** *** The files list *)

Lemma assoc_set_same (key : string) (v : Project.json)
    (members : list (string * Project.json)) :
  Project.assoc key (Project.assoc_set key v members) = Some v.
Proof.
  induction members as [|[k old] members IH]; simpl.
  - now rewrite String.eqb_refl.
  - destruct (String.eqb k key) eqn:Hk; simpl; now rewrite Hk.
Qed.

Lemma getitem_setitem (p : Project.json) (key : string) (old v : Project.json) :
  Project.getitem p key = inr old →
  Project.getitem (Project.setitem p key v) key = inr v.
Proof.
  destruct p; try discriminate. intros _. simpl. now rewrite assoc_set_same.
Qed.

Lemma existsb_equals_str (s : string) (items : list Project.json) :
  existsb (Project.equals_str s) items = true ↔ Project.JStr s ∈ items.
Proof.
  induction items as [|x items IH]; simpl.
  - split; [discriminate | intros H; inversion H].
  - rewrite orb_true_iff, IH, elem_of_cons. split.
    + intros [Hx | Hin]; [left | now right].
      destruct x; try discriminate. simpl in Hx.
      apply String.eqb_eq in Hx. now subst.
    + intros [<- | Hin]; [left | now right]. simpl. apply String.eqb_refl.
Qed.

Lemma remove_first_subset (s : string) (items items' : list Project.json) :
  Project.remove_first s items = Some items' →
  (∀ x, x ∈ items' → x ∈ items) ∧ (NoDup items → NoDup items').
Proof.
  revert items'. induction items as [|x items IH]; intros items' H; simpl in H;
    [discriminate |].
  destruct (Project.equals_str s x).
  - injection H as <-. split.
    + intros y Hy. now apply list_elem_of_further.
    + intros Hnd. now apply NoDup_cons_1_2 in Hnd.
  - destruct (Project.remove_first s items) as [rest|]; [| discriminate].
    injection H as <-. destruct (IH rest eq_refl) as [Hsub Hnd]. split.
    + intros y Hy. apply elem_of_cons in Hy as [-> | Hy].
      * apply list_elem_of_here.
      * apply list_elem_of_further. now apply Hsub.
    + intros Hnodup. apply NoDup_cons in Hnodup as [Hx Hrest].
      apply NoDup_cons. split; [| now apply Hnd].
      intros Hin. apply Hx. now apply Hsub.
Qed.

(** What [add_file_to_project] does to the files list: nothing, or it
    appends a path that was not listed. *)
Lemma add_file_listed (file_path : string) (w : Project.world) :
  Project.listed_files (fst (add_file_to_project file_path w)) = Project.listed_files w ∨
  ((Project.JStr file_path ∉ Project.listed_files w) ∧
   Project.listed_files (fst (add_file_to_project file_path w))
   = Project.listed_files w ++ [Project.JStr file_path]).
Proof.
  unfold Project.add_file_to_project, Project.bind, Project.get_current_project,
    Project.lift, Project.ret.
  destruct (Project.current_project w) as [p|] eqn:Hcur; [| now left].
  destruct (Project.py_truthy p); [| now left].
  destruct (Project.project_file_of os_path_join py_str p) as [e | project_file];
    [now left |].
  destruct (Project.getitem p "files") as [e | listed] eqn:Hfiles; [now left |].
  destruct (Project.contains listed file_path) as [e | present] eqn:Hin; [now left |].
  destruct present; [now left |].
  destruct (Project.append_item listed file_path) as [e | listed'] eqn:Happ; [now left |].
  destruct listed as [| | | | items |]; try discriminate.
  injection Happ as <-. injection Hin as Hin.
  right. split.
  - unfold Project.listed_files. rewrite Hcur, Hfiles.
    rewrite <- existsb_equals_str. now rewrite Hin.
  - unfold Project.set_current_project, Project.dump_to. cbn [fst snd Project.disk].
    assert (Hl : ∀ d m, Project.listed_files
                (Project.MkWorld
                   (Some (Project.setitem p "files"
                            (Project.JList (items ++ [Project.JStr file_path])))) d m)
              = items ++ [Project.JStr file_path]).
    { intros d m. unfold Project.listed_files. cbn [Project.current_project].
      now rewrite (getitem_setitem _ _ _ _ Hfiles). }
    assert (Hw : Project.listed_files w = items).
    { unfold Project.listed_files. now rewrite Hcur, Hfiles. }
    rewrite Hw. destruct (write_error _ _) as [[? | ? ?] |]; cbn [fst]; apply Hl.
Qed.

(** What [remove_file_from_project] does to the files list: nothing, or it
    drops the first occurrence of the path. *)
Lemma remove_file_listed (file_path : string) (w : Project.world) :
  Project.listed_files (fst (remove_file_from_project file_path w)) = Project.listed_files w ∨
  Project.remove_first file_path (Project.listed_files w)
  = Some (Project.listed_files (fst (remove_file_from_project file_path w))).
Proof.
  unfold Project.remove_file_from_project, Project.bind, Project.get_current_project,
    Project.lift, Project.ret.
  destruct (Project.current_project w) as [p|] eqn:Hcur; [| now left].
  destruct (Project.py_truthy p); [| now left].
  destruct (Project.project_file_of os_path_join py_str p) as [e | project_file];
    [now left |].
  destruct (Project.getitem p "files") as [e | listed] eqn:Hfiles; [now left |].
  destruct (Project.contains listed file_path) as [e | present] eqn:Hin; [now left |].
  destruct present; [| now left].
  destruct (Project.remove_item listed file_path) as [e | listed'] eqn:Hrem; [now left |].
  destruct listed as [| | | | items |]; try discriminate.
  simpl in Hrem.
  destruct (Project.remove_first file_path items) as [items'|] eqn:Hrf; [| discriminate].
  injection Hrem as <-. right.
  assert (Hw : Project.listed_files w = items).
  { unfold Project.listed_files. now rewrite Hcur, Hfiles. }
  rewrite Hw, Hrf. f_equal.
  unfold Project.set_current_project, Project.dump_to. cbn [fst snd Project.disk].
  assert (Hl : ∀ d m, Project.listed_files
              (Project.MkWorld
                 (Some (Project.setitem p "files" (Project.JList items'))) d m)
            = items').
  { intros d m. unfold Project.listed_files. cbn [Project.current_project].
    now rewrite (getitem_setitem _ _ _ _ Hfiles). }
  destruct (write_error _ _) as [[? | ? ?] |]; cbn [fst]; now rewrite Hl.
Qed.

Lemma after_call_NoDup (c : Project.file_call) (w : Project.world) :
  NoDup (Project.listed_files w) →
  NoDup (Project.listed_files
           (Project.after_call os_path_join json_dump py_str write_error c w)).
Proof.
  intros Hnd. destruct c as [file_path | file_path]; simpl.
  - destruct (add_file_listed file_path w) as [-> | [Hnew ->]]; [exact Hnd |].
    apply NoDup_app. split; [exact Hnd |]. split; [| apply NoDup_singleton].
    intros x Hx Hx'. apply list_elem_of_singleton in Hx'. now subst.
  - destruct (remove_file_listed file_path w) as [-> | Hrem]; [exact Hnd |].
    now apply (remove_first_subset _ _ _ Hrem).
Qed.

Lemma after_calls_NoDup (cs : list Project.file_call) (w : Project.world) :
  NoDup (Project.listed_files w) →
  NoDup (Project.listed_files
           (Project.after_calls os_path_join json_dump py_str write_error cs w)).
Proof.
  revert w. induction cs as [|c cs IH]; intros w Hnd; [exact Hnd |].
  apply IH. now apply after_call_NoDup.
Qed.

Lemma occurrences_app (s : string) (l k : list Project.json) :
  Project.occurrences s (l ++ k) = Project.occurrences s l + Project.occurrences s k.
Proof. unfold Project.occurrences. now rewrite filter_app, length_app. Qed.

Lemma occurrences_absent (s : string) (items : list Project.json) :
  Project.JStr s ∉ items → Project.occurrences s items = 0.
Proof.
  intros Hout. unfold Project.occurrences.
  induction items as [|x items IH]; [reflexivity |].
  apply not_elem_of_cons in Hout as [Hx Hrest].
  rewrite filter_cons_False; [now apply IH |].
  intros Heq. apply Hx. destruct x; try discriminate.
  simpl in Heq. apply String.eqb_eq in Heq. now subst.
Qed.

Lemma occurrences_remove_first (s t : string) (items items' : list Project.json) :
  Project.remove_first t items = Some items' →
  Project.occurrences s items' ≤ Project.occurrences s items.
Proof.
  unfold Project.occurrences. revert items'.
  induction items as [|x items IH]; intros items' H; simpl in H; [discriminate |].
  destruct (Project.equals_str t x).
  - injection H as <-. rewrite filter_cons. destruct (decide _); simpl; lia.
  - destruct (Project.remove_first t items) as [rest|]; [| discriminate].
    injection H as <-. specialize (IH rest eq_refl).
    rewrite !filter_cons. destruct (decide _); simpl; lia.
Qed.

(** A call never makes a second copy of a path. *)
Lemma after_call_occurrences (c : Project.file_call) (w : Project.world) (s : string) :
  Project.occurrences s
    (Project.listed_files
       (Project.after_call os_path_join json_dump py_str write_error c w))
  ≤ Nat.max 1 (Project.occurrences s (Project.listed_files w)).
Proof.
  destruct c as [file_path | file_path]; simpl.
  - destruct (add_file_listed file_path w) as [-> | [Hnew ->]]; [lia |].
    rewrite occurrences_app. unfold Project.occurrences at 2.
    destruct (String.eqb_spec file_path s) as [-> | Hne].
    + rewrite (occurrences_absent _ _ Hnew).
      rewrite filter_cons_True by (simpl; apply String.eqb_refl). simpl. lia.
    + rewrite filter_cons_False; [simpl; lia |].
      simpl. intros Heq. apply String.eqb_eq in Heq. congruence.
  - destruct (remove_file_listed file_path w) as [-> | Hrem]; [lia |].
    pose proof (occurrences_remove_first s _ _ _ Hrem). lia.
Qed.

Lemma after_calls_occurrences (cs : list Project.file_call) (w : Project.world) (s : string) :
  Project.occurrences s
    (Project.listed_files
       (Project.after_calls os_path_join json_dump py_str write_error cs w))
  ≤ Nat.max 1 (Project.occurrences s (Project.listed_files w)).
Proof.
  revert w. induction cs as [|c cs IH]; intros w; [simpl; lia |].
  change (Project.after_calls os_path_join json_dump py_str write_error (c :: cs) w)
    with (Project.after_calls os_path_join json_dump py_str write_error cs
            (Project.after_call os_path_join json_dump py_str write_error c w)).
  pose proof (IH (Project.after_call os_path_join json_dump py_str write_error c w)).
  pose proof (after_call_occurrences c w s). lia.
Qed.

(** Adding a listed path changes nothing. *)
Lemma add_listed_file_noop (file_path : string) (w : Project.world) :
  Project.JStr file_path ∈ Project.listed_files w →
  add_file_to_project file_path w = (w, inr tt) ∨
  (∃ e, add_file_to_project file_path w = (w, inl e)).
Proof.
  intros Hin.
  unfold Project.add_file_to_project, Project.bind, Project.get_current_project,
    Project.lift, Project.ret.
  unfold Project.listed_files in Hin.
  destruct (Project.current_project w) as [p|] eqn:Hcur; [| now left].
  destruct (Project.py_truthy p); [| now left].
  destruct (Project.project_file_of os_path_join py_str p) as [e | project_file];
    [right; now exists e |].
  destruct (Project.getitem p "files") as [e | listed] eqn:Hfiles; [inversion Hin |].
  destruct listed as [| | | | items |]; try (inversion Hin; fail).
  simpl. apply existsb_equals_str in Hin. rewrite Hin. now left.
Qed.

(** C10, amended. [add_file_to_project] is idempotent: for every current
    project and file path, a call with a path that is already in the
    project's files list leaves the project data in memory and the project
    file on disk (the whole world) unchanged, and a second call with the
    same path changes nothing after the first. So under any sequence of
    [add_file_to_project] and [remove_file_from_project] calls no path ever
    gets a second entry in the files list: a path occurs at most once, or
    no more often than it did before the calls; a files list without
    duplicates, in particular the empty list of a project just created, has
    no duplicates after the calls. *)
Theorem add_file_to_project_idempotent :
  (∀ file_path w,
     Project.JStr file_path ∈ Project.listed_files w →
     fst (add_file_to_project file_path w) = w) ∧
  (∀ file_path w,
     fst (add_file_to_project file_path (fst (add_file_to_project file_path w)))
     = fst (add_file_to_project file_path w)) ∧
  (∀ cs w file_path,
     Project.occurrences file_path
       (Project.listed_files
          (Project.after_calls os_path_join json_dump py_str write_error cs w))
     ≤ Nat.max 1 (Project.occurrences file_path (Project.listed_files w))) ∧
  (∀ cs w,
     NoDup (Project.listed_files w) →
     NoDup (Project.listed_files
              (Project.after_calls os_path_join json_dump py_str write_error cs w))) ∧
  (∀ actions w w' p cs,
     create_project actions w = (w', inr (Some p)) →
     NoDup (Project.listed_files
              (Project.after_calls os_path_join json_dump py_str write_error cs w'))).
Proof.
  assert (Hnoop : ∀ file_path w,
            Project.JStr file_path ∈ Project.listed_files w →
            fst (add_file_to_project file_path w) = w).
  { intros file_path w Hin.
    destruct (add_listed_file_noop file_path w Hin) as [-> | [e ->]]; reflexivity. }
  split; [exact Hnoop |]. split; [| split; [| split]].
  - intros file_path w.
    destruct (add_file_listed file_path w) as [Hsame | [Hnew Happ]].
    + destruct (existsb (Project.equals_str file_path) (Project.listed_files w)) eqn:Hex.
      * apply existsb_equals_str in Hex. rewrite (Hnoop _ _ Hex). exact (Hnoop _ _ Hex).
      * assert (Hout : Project.JStr file_path ∉ Project.listed_files w)
          by (rewrite <- existsb_equals_str, Hex; discriminate).
        clear Hex.
        (* not listed and nothing appended: the call changed nothing *)
        revert Hsame Hout.
        unfold Project.add_file_to_project, Project.bind, Project.get_current_project,
          Project.lift, Project.ret, Project.listed_files.
        destruct (Project.current_project w) as [p|] eqn:Hcur;
          [| cbn [fst]; now rewrite Hcur].
        destruct (Project.py_truthy p) eqn:Ht; [| cbn [fst]; now rewrite Hcur, Ht].
        destruct (Project.project_file_of os_path_join py_str p) as [e | project_file]
          eqn:Hpf; [cbn [fst]; now rewrite Hcur, Ht, Hpf |].
        destruct (Project.getitem p "files") as [e | listed] eqn:Hfiles;
          [cbn [fst]; now rewrite Hcur, Ht, Hpf, Hfiles |].
        destruct (Project.contains listed file_path) as [e | present] eqn:Hin;
          [cbn [fst]; now rewrite Hcur, Ht, Hpf, Hfiles, Hin |].
        destruct present; [cbn [fst]; now rewrite Hcur, Ht, Hpf, Hfiles, Hin |].
        destruct (Project.append_item listed file_path) as [e | listed'] eqn:Happ;
          [cbn [fst]; now rewrite Hcur, Ht, Hpf, Hfiles, Hin, Happ |].
        destruct listed as [| | | | items |]; try discriminate.
        injection Happ as <-.
        unfold Project.set_current_project, Project.dump_to.
        cbn [fst snd Project.disk Project.current_project].
        intros Hsame _. exfalso.
        assert (Hl : items ++ [Project.JStr file_path] = items).
        { destruct (write_error _ _) as [[? | ? ?] |]; cbn [fst Project.current_project] in Hsame;
            now rewrite (getitem_setitem _ _ _ _ Hfiles) in Hsame. }
        apply (f_equal length) in Hl. rewrite length_app in Hl. simpl in Hl. lia.
    + apply Hnoop. rewrite Happ. apply elem_of_app. right. apply list_elem_of_here.
  - intros cs w file_path. apply after_calls_occurrences.
  - intros cs w. apply after_calls_NoDup.
  - intros actions w w' p cs H. apply after_calls_NoDup.
    destruct (create_project_returns _ _ _ _ H) as (dialog & warnings & _ & -> & Hcur).
    unfold Project.listed_files. rewrite Hcur. simpl. constructor.
Qed.

End ProjectFacts.

(** *** The theorems on a concrete file system *)

Lemma dialogs_keep_names_nonempty_witness :
  (∃ name path,
     Project.project_data "demo" "/p" [] = Project.project_data name path [] ∧
     name ≠ EmptyString) ∧
  Snippets.store_named
    (fst (Snippets.dialog_add_snippet true "For Loop" "for" "pass"
            (Snippets.MkManager [] None))) ∧
  Snippets.store_named
    (fst (Snippets.dialog_update_snippet true (Some 0) EmptyString "for" "pass"
            (Snippets.MkManager [Snippets.MkSnippet "For Loop" "for" "pass"] None))).
Proof.
  pose proof (dialogs_keep_names_nonempty Project.posix_join Project.render
                Project.no_error Project.no_error) as (_ & Hcreate & Hadd & Hupd).
  split; [| split].
  - apply (Hcreate
             [Project.TypeName "demo"; Project.TypePath "/p"; Project.ClickCreate]
             Project.empty_world
             (fst (Project.create_project Project.posix_join Project.render
                     Project.no_error Project.no_error
                     [Project.TypeName "demo"; Project.TypePath "/p"; Project.ClickCreate]
                     Project.empty_world))).
    reflexivity.
  - apply Hadd. split; [constructor | discriminate].
  - apply Hupd. split.
    + constructor; [discriminate | constructor].
    + discriminate.
Defined.

Lemma create_project_writes_project_file_witness :
  ∃ w',
    Project.create_project Project.posixpath_join Project.render
      Project.no_error Project.no_error
      [Project.TypeName "demo"; Project.ClickCreate; Project.BrowsePath "/p";
       Project.ClickCreate]
      Project.empty_world
    = (w', inr (Some (Project.project_data "demo" "/p" []))) ∧
    Project.current_project w' = Some (Project.project_data "demo" "/p" []) ∧
    Project.fs_files (Project.disk w') !! "/p/demo.webe.json"
    = Some (Project.render (Project.project_data "demo" "/p" [])) ∧
    "/p" ∈ Project.fs_dirs (Project.disk w') ∧
    Project.messages w' = [MkMessage Warning "Error" "Project path is required"].
Proof.
  eexists. split.
  - apply (create_project_writes_project_file Project.posixpath_join Project.render
             Project.no_error Project.no_error
             [Project.TypeName "demo"; Project.ClickCreate; Project.BrowsePath "/p";
              Project.ClickCreate]
             Project.empty_world (Project.MkDialog "demo" "/p")
             [MkMessage Warning "Error" "Project path is required"]);
      reflexivity.
  - split; [reflexivity |]. split; [apply lookup_insert_eq |].
    split; [| reflexivity].
    cbn. apply elem_of_union. left. now apply elem_of_singleton.
Defined.

(** C6, as the claim words it: the dialog accepts a name that is an
    absolute path, and on a POSIX system the one file that [create_project]
    then writes lies outside the project directory /p. *)
Lemma create_project_absolute_name_leaves_directory :
  let w' := fst (Project.create_project Project.posixpath_join Project.render
                   Project.no_error Project.no_error
                   [Project.TypeName "/tmp/evil"; Project.TypePath "/p";
                    Project.ClickCreate]
                   Project.empty_world) in
  Project.current_project w' = Some (Project.project_data "/tmp/evil" "/p" []) ∧
  Project.fs_dirs (Project.disk w') = {["/p"]} ∧
  Project.fs_files (Project.disk w')
  = {["/tmp/evil.webe.json" := Project.render (Project.project_data "/tmp/evil" "/p" [])]} ∧
  String.prefix "/p" "/tmp/evil.webe.json" = false.
Proof.
  cbv zeta. split; [reflexivity |]. split; [| split; [| reflexivity]].
  - cbn. apply union_empty_r_L.
  - cbn. apply insert_empty.
Qed.

Lemma open_project_guards_load_witness :
  Project.open_project Project.sample_load Project.no_error "/p/empty.json"
    Project.stored_world
  = (Project.MkWorld (Some (Project.JObj [])) (Project.disk Project.stored_world)
       (Project.messages Project.stored_world),
     inr (Some (Project.JObj []))) ∧
  Project.open_project Project.sample_load Project.no_error "/p/notes.txt"
    Project.stored_world
  = (Project.MkWorld (Project.current_project Project.stored_world)
       (Project.disk Project.stored_world)
       (Project.messages Project.stored_world ++
          [MkMessage Warning "Error"
             ("Failed to open project: " +:+ "Expecting value: line 1 column 1 (char 0)")]),
     inr None) ∧
  Project.open_project Project.sample_load Project.no_error "/p/missing.json"
    Project.stored_world
  = (Project.MkWorld (Project.current_project Project.stored_world)
       (Project.disk Project.stored_world)
       (Project.messages Project.stored_world ++
          [MkMessage Warning "Error"
             ("Failed to open project: " +:+
              "[Errno 2] No such file or directory: '/p/missing.json'")]),
     inr None).
Proof.
  split; [| split].
  - apply (proj2 (proj2 (proj2 (proj2
             (open_project_guards_load Project.sample_load Project.no_error
                "/p/empty.json" Project.stored_world eq_refl))))
             "{}" (Project.JObj [])).
    + reflexivity.
    + apply (bool_decide_unpack _). vm_compute. exact I.
    + reflexivity.
  - apply (proj1 (proj2
             (open_project_guards_load Project.sample_load Project.no_error
                "/p/notes.txt" Project.stored_world eq_refl))
             "to do"
             (PyExn "JSONDecodeError" "Expecting value: line 1 column 1 (char 0)")).
    + reflexivity.
    + apply (bool_decide_unpack _). vm_compute. exact I.
    + reflexivity.
  - apply (proj1 (proj2 (proj2 (proj2
             (open_project_guards_load Project.sample_load Project.no_error
                "/p/missing.json" Project.stored_world eq_refl))))).
    + reflexivity.
    + apply (bool_decide_unpack _). vm_compute. exact I.
    + apply (bool_decide_unpack _). vm_compute. exact I.
Defined.

Lemma add_file_to_project_idempotent_witness :
  fst (Project.add_file_to_project Project.posix_join Project.render Project.render
         Project.no_error "/p/a.py" Project.sample_world)
  = Project.sample_world ∧
  NoDup (Project.listed_files
           (Project.after_calls Project.posix_join Project.render Project.render
              Project.no_error
              [Project.AddFile "/p/b.py"; Project.AddFile "/p/a.py";
               Project.RemoveFile "/p/a.py"; Project.AddFile "/p/b.py"]
              Project.sample_world)).
Proof.
  pose proof (add_file_to_project_idempotent Project.posix_join Project.render
                Project.render Project.no_error Project.no_error)
    as (Hnoop & _ & _ & Hseq & _).
  split.
  - apply Hnoop. apply list_elem_of_here.
  - apply Hseq. apply NoDup_singleton.
Defined.

(** The calls of the last example leave b.py alone in the list, and the
    project file on disk agrees with the project in memory. *)
Example add_remove_sample :
  Project.listed_files
    (Project.after_calls Project.posix_join Project.render Project.render
       Project.no_error
       [Project.AddFile "/p/b.py"; Project.AddFile "/p/a.py";
        Project.RemoveFile "/p/a.py"; Project.AddFile "/p/b.py"]
       Project.sample_world)
  = [Project.JStr "/p/b.py"].
Proof. reflexivity. Qed.

(** C10, as the claim words it: [open_project] makes current whatever
    object the file holds, and in a project whose file lists a path twice
    the files list has duplicate entries before and after the calls. *)
Lemma opened_project_keeps_duplicate_path :
  let listing := Project.project_data "demo" "/p"
                   [Project.JStr "/p/a.py"; Project.JStr "/p/a.py"] in
  let on_disk := Project.MkWorld None
                   (Project.MkFs {["/p"]} {["/p/demo.webe.json" := "twice"]}) [] in
  let opened := fst (Project.open_project (fun _ => inr listing) Project.no_error
                       "/p/demo.webe.json" on_disk) in
  Project.current_project opened = Some listing ∧
  Project.listed_files
    (Project.after_calls Project.posix_join Project.render Project.render
       Project.no_error
       [Project.AddFile "/p/a.py"; Project.AddFile "/p/b.py"] opened)
  = [Project.JStr "/p/a.py"; Project.JStr "/p/a.py"; Project.JStr "/p/b.py"] ∧
  ¬ NoDup (Project.listed_files
             (Project.after_calls Project.posix_join Project.render Project.render
                Project.no_error
                [Project.AddFile "/p/a.py"; Project.AddFile "/p/b.py"] opened)).
Proof.
  cbv zeta.
  assert (Hopened :
    Project.open_project
      (fun _ => inr (Project.project_data "demo" "/p"
                       [Project.JStr "/p/a.py"; Project.JStr "/p/a.py"]))
      Project.no_error "/p/demo.webe.json"
      (Project.MkWorld None
         (Project.MkFs {["/p"]} {["/p/demo.webe.json" := "twice"]}) [])
    = (Project.MkWorld
         (Some (Project.project_data "demo" "/p"
                  [Project.JStr "/p/a.py"; Project.JStr "/p/a.py"]))
         (Project.MkFs {["/p"]} {["/p/demo.webe.json" := "twice"]}) [],
       inr (Some (Project.project_data "demo" "/p"
                    [Project.JStr "/p/a.py"; Project.JStr "/p/a.py"])))).
  { unfold Project.open_project, Project.try_except, Project.bind, Project.load_from,
      Project.set_current_project, Project.ret, Project.no_error.
    cbn [truthy Project.disk Project.fs_files Project.current_project Project.messages].
    now rewrite lookup_singleton_eq. }
  rewrite Hopened. cbn [fst]. split; [reflexivity |].
  assert (Hlist :
    Project.listed_files
      (Project.after_calls Project.posix_join Project.render Project.render
         Project.no_error
         [Project.AddFile "/p/a.py"; Project.AddFile "/p/b.py"]
         (Project.MkWorld
            (Some (Project.project_data "demo" "/p"
                     [Project.JStr "/p/a.py"; Project.JStr "/p/a.py"]))
            (Project.MkFs {["/p"]} {["/p/demo.webe.json" := "twice"]}) []))
    = [Project.JStr "/p/a.py"; Project.JStr "/p/a.py"; Project.JStr "/p/b.py"])
    by reflexivity.
  split; [exact Hlist |]. rewrite Hlist.
  intros Hnd. apply NoDup_cons in Hnd as [Hnotin _].
  apply Hnotin. apply list_elem_of_here.
Qed.

(** * Further properties of the code *)

(** ** Debugger: breakpoints *)

Lemma remove_line_NoDup (line : Z) (lines : list Z) :
  NoDup lines → NoDup (Debugger.remove_line line lines) ∧
                (∀ l, l ∈ Debugger.remove_line line lines → l ∈ lines).
Proof.
  induction lines as [|l lines IH]; intros Hnd; simpl.
  - split; [constructor | auto].
  - apply NoDup_cons in Hnd as [Hl Hrest]. case_bool_decide.
    + split; [exact Hrest |]. intros x Hx. now apply list_elem_of_further.
    + destruct (IH Hrest) as [Hnd' Hsub]. split.
      * apply NoDup_cons. split; [| exact Hnd']. intros Hin. apply Hl. now apply Hsub.
      * intros x Hx. apply elem_of_cons in Hx as [-> | Hx].
        -- apply list_elem_of_here.
        -- apply list_elem_of_further. now apply Hsub.
Qed.

Lemma remove_line_snoc (line : Z) (lines : list Z) :
  line ∉ lines → Debugger.remove_line line (lines ++ [line]) = lines.
Proof.
  induction lines as [|l lines IH]; intros Hout; simpl.
  - now rewrite bool_decide_eq_true_2.
  - apply not_elem_of_cons in Hout as [Hne Hout].
    rewrite bool_decide_eq_false_2 by congruence. now rewrite IH.
Qed.

Lemma remove_line_gone (line : Z) (lines : list Z) :
  NoDup lines → line ∉ Debugger.remove_line line lines.
Proof.
  induction lines as [|l lines IH]; intros Hnd; simpl.
  - apply not_elem_of_nil.
  - apply NoDup_cons in Hnd as [Hl Hrest]. case_bool_decide as Heq.
    + now subst.
    + apply not_elem_of_cons. split; [congruence | now apply IH].
Qed.

(** The breakpoint lists never hold a line twice: [set_breakpoint] and
    [remove_breakpoint] keep every list free of repetitions, and setting a
    breakpoint that is already set changes nothing. *)
Theorem breakpoints_stay_distinct
    (file_path : string) (line : Z) (breakpoints : gmap string (list Z)) :
  (Debugger.breakpoints_distinct breakpoints →
   Debugger.breakpoints_distinct (Debugger.set_breakpoint file_path line breakpoints) ∧
   Debugger.breakpoints_distinct (Debugger.remove_breakpoint file_path line breakpoints)) ∧
  line ∈ Debugger.lines_of file_path (Debugger.set_breakpoint file_path line breakpoints) ∧
  Debugger.set_breakpoint file_path line
    (Debugger.set_breakpoint file_path line breakpoints)
  = Debugger.set_breakpoint file_path line breakpoints.
Proof.
  assert (Hin : line ∈ Debugger.lines_of file_path
                         (Debugger.set_breakpoint file_path line breakpoints)).
  { unfold Debugger.lines_of, Debugger.set_breakpoint.
    destruct (breakpoints !! file_path) as [lines|] eqn:Hf.
    - rewrite Hf. case_bool_decide as Hl.
      + now rewrite Hf.
      + rewrite lookup_insert_eq. simpl. apply elem_of_app. right. apply list_elem_of_here.
    - rewrite lookup_insert_eq. rewrite bool_decide_eq_false_2 by apply not_elem_of_nil.
      rewrite lookup_insert_eq. simpl. apply list_elem_of_here. }
  split; [| split; [exact Hin |]].
  - intros Hd. split.
    + unfold Debugger.set_breakpoint.
      destruct (breakpoints !! file_path) as [lines|] eqn:Hf.
      * rewrite Hf. case_bool_decide as Hl; [exact Hd |].
        intros g ls Hg. apply lookup_insert_Some in Hg as [[<- <-] | [_ Hg]].
        -- apply NoDup_app. split; [now apply (Hd file_path) |].
           split; [| apply NoDup_singleton].
           intros x Hx Hx'. apply list_elem_of_singleton in Hx'. now subst.
        -- now apply (Hd g).
      * rewrite lookup_insert_eq. rewrite bool_decide_eq_false_2 by apply not_elem_of_nil.
        intros g ls Hg. apply lookup_insert_Some in Hg as [[<- <-] | [_ Hg]].
        -- apply NoDup_singleton.
        -- apply lookup_insert_Some in Hg as [[_ <-] | [_ Hg]]; [constructor |].
           now apply (Hd g).
    + unfold Debugger.remove_breakpoint.
      destruct (breakpoints !! file_path) as [lines|] eqn:Hf; [| exact Hd].
      case_bool_decide as Hl; [| exact Hd].
      intros g ls Hg. apply lookup_insert_Some in Hg as [[<- <-] | [_ Hg]].
      * apply remove_line_NoDup. now apply (Hd file_path).
      * now apply (Hd g).
  - unfold Debugger.lines_of in Hin.
    remember (Debugger.set_breakpoint file_path line breakpoints) as bps1 eqn:Hb.
    unfold Debugger.set_breakpoint at 1.
    destruct (bps1 !! file_path) as [lines|] eqn:Hf; simpl in Hin.
    + rewrite Hf. now rewrite bool_decide_eq_true_2.
    + inversion Hin.
Qed.

Lemma breakpoints_stay_distinct_witness :
  Debugger.breakpoints_distinct
    (Debugger.set_breakpoint "a.py" 3 (Debugger.set_breakpoint "a.py" 3 ∅)).
Proof.
  apply (breakpoints_stay_distinct "a.py" 3 (Debugger.set_breakpoint "a.py" 3 ∅)).
  apply (breakpoints_stay_distinct "a.py" 3 ∅).
  intros f ls Hf. rewrite lookup_empty in Hf. discriminate.
Defined.

(** Removing a breakpoint undoes setting it: for a line that had no
    breakpoint in the file, the lines of the file are as before and the
    other files are untouched; only a file that was not in the dict now is
    in it with an empty list. After removal the line is gone from a list
    without repetitions, and removing a line that is not set changes
    nothing. *)
Theorem remove_breakpoint_undoes_set
    (file_path : string) (line : Z) (breakpoints : gmap string (list Z)) :
  (line ∉ Debugger.lines_of file_path breakpoints →
   Debugger.remove_breakpoint file_path line
     (Debugger.set_breakpoint file_path line breakpoints)
   = <[file_path := Debugger.lines_of file_path breakpoints]> breakpoints) ∧
  (line ∉ Debugger.lines_of file_path breakpoints →
   Debugger.remove_breakpoint file_path line breakpoints = breakpoints) ∧
  (Debugger.breakpoints_distinct breakpoints →
   line ∉ Debugger.lines_of file_path
            (Debugger.remove_breakpoint file_path line breakpoints)).
Proof.
  unfold Debugger.lines_of. split; [| split].
  - intros Hout. unfold Debugger.set_breakpoint.
    destruct (breakpoints !! file_path) as [lines|] eqn:Hf; simpl in *.
    + rewrite Hf. rewrite bool_decide_eq_false_2 by exact Hout.
      unfold Debugger.remove_breakpoint. rewrite lookup_insert_eq.
      rewrite bool_decide_eq_true_2
        by (apply elem_of_app; right; apply list_elem_of_here).
      now rewrite insert_insert_eq, remove_line_snoc.
    + rewrite lookup_insert_eq. rewrite bool_decide_eq_false_2 by apply not_elem_of_nil.
      rewrite insert_insert_eq.
      unfold Debugger.remove_breakpoint. rewrite lookup_insert_eq.
      rewrite bool_decide_eq_true_2 by apply list_elem_of_here.
      rewrite insert_insert_eq. simpl. now rewrite bool_decide_eq_true_2.
  - intros Hout. unfold Debugger.remove_breakpoint.
    destruct (breakpoints !! file_path) as [lines|] eqn:Hf; [| reflexivity].
    simpl in Hout. now rewrite bool_decide_eq_false_2.
  - intros Hd. unfold Debugger.remove_breakpoint.
    destruct (breakpoints !! file_path) as [lines|] eqn:Hf.
    + case_bool_decide as Hl.
      * rewrite lookup_insert_eq. simpl. apply remove_line_gone. now apply (Hd file_path).
      * now rewrite Hf.
    + rewrite Hf. apply not_elem_of_nil.
Qed.

Lemma remove_breakpoint_undoes_set_witness :
  Debugger.remove_breakpoint "a.py" 7
    (Debugger.set_breakpoint "a.py" 7 {["a.py" := [3%Z]]})
  = <["a.py" := Debugger.lines_of "a.py" {["a.py" := [3%Z]]}]> {["a.py" := [3%Z]]}.
Proof.
  apply (remove_breakpoint_undoes_set "a.py" 7 {["a.py" := [3%Z]]}).
  unfold Debugger.lines_of. rewrite lookup_singleton_eq. simpl.
  intros H. apply list_elem_of_singleton in H. discriminate.
Defined.

(** ** Debugger: pending commands *)

Lemma clicks_replicate (n : nat) (f : Debugger.flag) (t : Debugger.DebuggerThread) :
  Debugger.clicks (replicate (S n) f) t = Debugger.click f t.
Proof.
  revert t. induction n as [|n IH]; intros t; [reflexivity |].
  change (Debugger.clicks (replicate (S (S n)) f) t)
    with (Debugger.clicks (replicate (S n) f) (Debugger.click f t)).
  rewrite IH. destruct f, t; reflexivity.
Qed.

(** The flags are booleans, not a queue: however often one button is
    clicked before [readline] looks, a single command comes out and the
    thread is idle again, so the further clicks are lost. *)
Theorem repeated_clicks_give_one_command
    (Pdb_attrs : list string) (schedule : list (list Debugger.flag))
    (f : Debugger.flag) (n : nat) :
  Debugger.readline Pdb_attrs schedule
    (Debugger.clicks (replicate (S n) f) Debugger.init_thread)
  = Debugger.MkResult (Debugger.Returned (Debugger.command_of f)) Debugger.init_thread 0.
Proof. rewrite clicks_replicate. destruct f, schedule; reflexivity. Qed.

Lemma clicks_flag (fs : list Debugger.flag) (t : Debugger.DebuggerThread) (g : Debugger.flag) :
  Debugger.flag_get g (Debugger.clicks fs t) = true ↔
  Debugger.flag_get g t = true ∨ g ∈ fs.
Proof.
  split; [apply clicks_origin |].
  intros [Hset | Hin]; [now apply clicks_monotone |].
  revert t. induction fs as [|f fs IH]; intros t; [inversion Hin |].
  change (Debugger.clicks (f :: fs) t) with (Debugger.clicks fs (Debugger.click f t)).
  apply elem_of_cons in Hin as [-> | Hin].
  - apply clicks_monotone. destruct f, t; reflexivity.
  - now apply IH.
Qed.

Lemma poll_least_rank (t t' : Debugger.DebuggerThread) (f : Debugger.flag) :
  Debugger.poll t = Some (Debugger.command_of f, t') →
  ∀ g, Debugger.flag_get g t = true → Debugger.rank f ≤ Debugger.rank g.
Proof.
  unfold Debugger.poll. destruct t as [c n s r]; simpl.
  destruct c; [destruct f; intros [= _]; intros; simpl; lia || discriminate |].
  destruct n; [destruct f; intros [= _]; intros []; simpl; intros; (lia || discriminate) |].
  destruct s; [destruct f; intros [= _]; intros []; simpl; intros; (lia || discriminate) |].
  destruct r; [destruct f; intros [= _]; intros []; simpl; intros; (lia || discriminate) |].
  discriminate.
Qed.

(** Buttons clicked while the debugger was busy are served in the fixed
    order continue, step over, step in, step out, whatever the order of the
    clicks: after any non-empty series of clicks on an idle thread,
    [readline] returns the command of the clicked button that comes first
    in that order, and the other clicked buttons stay pending. *)
Theorem readline_serves_clicks_by_rank
    (Pdb_attrs : list string) (schedule : list (list Debugger.flag))
    (fs : list Debugger.flag) :
  fs ≠ [] →
  ∃ f t',
    Debugger.readline Pdb_attrs schedule (Debugger.clicks fs Debugger.init_thread)
      = Debugger.MkResult (Debugger.Returned (Debugger.command_of f)) t' 0 ∧
    f ∈ fs ∧
    (∀ g, g ∈ fs → Debugger.rank f ≤ Debugger.rank g) ∧
    (∀ g, Debugger.flag_get g t' = true ↔ g ∈ fs ∧ g ≠ f).
Proof.
  intros Hne.
  assert (Hex : ∃ f, Debugger.flag_get f (Debugger.clicks fs Debugger.init_thread) = true).
  { destruct fs as [|f fs]; [congruence |]. exists f.
    apply clicks_flag. right. apply list_elem_of_here. }
  destruct (poll_some _ Hex) as (f & t' & Hp & Hset & Hclr & Hothers).
  exists f, t'. split; [| split; [| split]].
  - unfold Debugger.readline. destruct schedule; simpl; now rewrite Hp.
  - apply clicks_flag in Hset as [Hidle | Hin]; [destruct f; discriminate | exact Hin].
  - intros g Hg. apply (poll_least_rank _ _ _ Hp). apply clicks_flag. now right.
  - intros g. destruct (decide (g = f)) as [-> | Hgf].
    + rewrite Hclr. split; [discriminate | intros [_ Hc]; congruence].
    + rewrite (Hothers g Hgf), clicks_flag. split.
      * intros [Hidle | Hin]; [destruct g; discriminate | now split].
      * intros [Hin _]. now right.
Qed.

Lemma readline_serves_clicks_by_rank_witness :
  ∃ f t',
    Debugger.readline [] []
      (Debugger.clicks [Debugger.FStepOut; Debugger.FContinue] Debugger.init_thread)
      = Debugger.MkResult (Debugger.Returned (Debugger.command_of f)) t' 0 ∧
    f ∈ [Debugger.FStepOut; Debugger.FContinue] ∧
    (∀ g, g ∈ [Debugger.FStepOut; Debugger.FContinue] →
          Debugger.rank f ≤ Debugger.rank g) ∧
    (∀ g, Debugger.flag_get g t' = true ↔
          g ∈ [Debugger.FStepOut; Debugger.FContinue] ∧ g ≠ f).
Proof.
  apply (readline_serves_clicks_by_rank [] []
           [Debugger.FStepOut; Debugger.FContinue]).
  discriminate.
Defined.

Lemma readline_command_origin_witness :
  ∃ f, "n" = Debugger.command_of f ∧
       (Debugger.flag_get f (Debugger.step Debugger.init_thread) = true ∨
        f ∈ concat [[Debugger.FContinue]]).
Proof.
  apply (readline_command_origin [] [[Debugger.FContinue]]
           (Debugger.step Debugger.init_thread) "n").
  reflexivity.
Defined.

(** ** Debugger: the variables pane *)

Lemma display_value_length (shown : pyexn + text) :
  length (Debugger.display_value shown) ≤ 103.
Proof.
  destruct shown as [e | s]; [simpl; lia |].
  unfold Debugger.display_value.
  destruct (100 <? length s) eqn:Hlong.
  - apply Nat.ltb_lt in Hlong.
    rewrite length_app, length_take.
    change (length (text_of "...")) with 3. lia.
  - apply Nat.ltb_ge in Hlong. lia.
Qed.

(** What the variables pane shows: a value whose text has at most 100
    code points is shown as it is; a longer one is cut to its first 100
    code points followed by three dots; a value whose [str] raises is shown
    as a fixed error text. No displayed value is longer than 103 code
    points. *)
Theorem display_value_bounded (shown : pyexn + text) :
  length (Debugger.display_value shown) ≤ 103 ∧
  (∀ s, shown = inr s → length s ≤ 100 → Debugger.display_value shown = s) ∧
  (∀ s, shown = inr s → 100 < length s →
     ∃ kept rest, length kept = 100 ∧ s = kept ++ rest ∧
                  Debugger.display_value shown = kept ++ text_of "...") ∧
  (∀ e, shown = inl e →
     Debugger.display_value shown = text_of "[Error displaying value]").
Proof.
  split; [apply display_value_length |]. split; [| split].
  - intros s -> Hshort. unfold Debugger.display_value.
    now rewrite (proj2 (Nat.ltb_ge 100 (length s))) by lia.
  - intros s -> Hlong. unfold Debugger.display_value.
    rewrite (proj2 (Nat.ltb_lt 100 (length s))) by lia.
    exists (take 100 s), (drop 100 s). split; [| split].
    + rewrite length_take. lia.
    + symmetry. apply take_drop.
    + reflexivity.
  - intros e ->. reflexivity.
Qed.

Lemma display_value_bounded_witness :
  Debugger.display_value (inr (replicate 60 233%N)) = replicate 60 233%N ∧
  Debugger.display_value (inr (replicate 101 233%N))
  = replicate 100 233%N ++ text_of "...".
Proof.
  split.
  - apply (proj1 (proj2 (display_value_bounded (inr (replicate 60 233%N))))
             (replicate 60 233%N)).
    + reflexivity.
    + rewrite length_replicate. lia.
  - destruct (proj1 (proj2 (proj2 (display_value_bounded
                 (inr (replicate 101 233%N))))) (replicate 101 233%N))
      as (kept & rest & _ & _ & _).
    + reflexivity.
    + rewrite length_replicate. lia.
    + reflexivity.
Defined.

(** The rows of the variables pane are the variables whose name does not
    start with an underscore, in the order of the dict, each with its
    displayed value, which has at most 103 code points. *)
Theorem variable_rows_skip_private (vars_dict : list (text * (pyexn + text))) :
  Debugger.variable_rows vars_dict
  = map (fun entry => (fst entry, Debugger.display_value (snd entry)))
      (filter (fun entry => Debugger.is_private (fst entry) = false) vars_dict) ∧
  Forall (fun row => Debugger.is_private (fst row) = false ∧
                     length (snd row) ≤ 103)
    (Debugger.variable_rows vars_dict).
Proof.
  induction vars_dict as [|[name shown] rest [IHeq IHall]]; simpl.
  - split; [reflexivity | constructor].
  - destruct (Debugger.is_private name) eqn:Hp.
    + rewrite filter_cons_False by (simpl; rewrite Hp; discriminate). now split.
    + rewrite filter_cons_True by exact Hp. simpl. split; [now rewrite IHeq |].
      constructor; [| exact IHall]. split; [exact Hp |].
      apply display_value_length.
Qed.

(** ** Editor: more on folding *)

Lemma set_children_visible_stops (v : bool) (level : nat) (rest : list Editor.block) :
  (∀ nb, rest !! 0 = Some nb → Editor.get_indent_level nb ≤ level) →
  Editor.set_children_visible v level rest = rest.
Proof.
  destruct rest as [|nb rest]; [reflexivity |]. intros H. simpl.
  specialize (H nb eq_refl).
  now rewrite (proj2 (Nat.ltb_ge level (Editor.get_indent_level nb))) by lia.
Qed.

(** A click on the fold mark of a block that cannot be folded still flips
    its state: [toggle_fold] sets userState to 1 (or back to 0) and changes
    nothing else, no block is hidden or shown. *)
Theorem toggle_fold_without_children
    (doc : list Editor.block) (i : nat) (b : Editor.block) :
  doc !! i = Some b →
  Editor.can_fold doc i = false →
  Editor.toggle_fold doc i
  = <[i := Editor.setUserState (if (Editor.userState b =? 1)%Z then 0 else 1)%Z b]> doc.
Proof.
  intros Hb Hno. pose proof (lookup_lt_Some _ _ _ Hb) as Hi.
  unfold Editor.can_fold in Hno. rewrite Hb in Hno.
  assert (Hstop : ∀ v, Editor.set_children_visible v (Editor.get_indent_level b)
                         (drop (S i) doc) = drop (S i) doc).
  { intros v. apply set_children_visible_stops. intros nb Hnb.
    rewrite lookup_drop in Hnb. replace (S i + 0) with (S i) in Hnb by lia.
    rewrite Hnb in Hno. apply Nat.ltb_ge in Hno. exact Hno. }
  unfold Editor.toggle_fold. rewrite Hb.
  destruct (Editor.userState b =? 1)%Z; rewrite Hstop;
    now rewrite insert_take_drop by exact Hi.
Qed.

Lemma toggle_fold_without_children_witness :
  Editor.toggle_fold Editor.sample_document 3
  = <[3 := Editor.setUserState 1 (Editor.new_block (text_of "y = 2"))]>
      Editor.sample_document.
Proof.
  apply (toggle_fold_without_children Editor.sample_document 3
           (Editor.new_block (text_of "y = 2"))); reflexivity.
Defined.

(** Folding never reaches past the first following block that is not
    indented deeper than the toggled block, for instance an empty line:
    that block and all blocks after it are left exactly as they were. *)
Theorem toggle_fold_stops_at_shallow_block
    (doc : list Editor.block) (i j : nat) (b c : Editor.block) :
  doc !! i = Some b →
  i < j →
  doc !! j = Some c →
  Editor.get_indent_level c ≤ Editor.get_indent_level b →
  ∀ m, j ≤ m → Editor.toggle_fold doc i !! m = doc !! m.
Proof.
  intros Hb Hij Hc Hshallow m Hm.
  destruct (toggle_fold_effect doc i b Hb) as (k & [Hrun Hstop] & Hlen & Hlook).
  assert (Hk : i + k < j).
  { destruct (Nat.le_gt_cases j (i + k)) as [Hle | Hgt]; [| exact Hgt].
    destruct (Hrun j) as (c' & Hc' & Hdeep); [lia |].
    assert (c' = c) as -> by congruence. lia. }
  destruct (doc !! m) as [cm|] eqn:Hcm.
  - rewrite (Hlook _ _ Hcm).
    destruct (decide (m = i)); [lia |].
    destruct (decide (i < m ≤ i + k)); [lia |]. now destruct cm.
  - apply lookup_ge_None. rewrite Hlen. now apply lookup_ge_None.
Qed.

Lemma toggle_fold_stops_at_shallow_block_witness :
  Editor.toggle_fold Editor.sample_document 0 !! 3 = Editor.sample_document !! 3.
Proof.
  apply (toggle_fold_stops_at_shallow_block Editor.sample_document 0 3
           (Editor.new_block (text_of "def f():"))
           (Editor.new_block (text_of "y = 2"))); try reflexivity; lia.
Defined.

Lemma is_child_run_same_text (doc doc' : list Editor.block) (i level k : nat) :
  length doc' = length doc →
  (∀ j c, doc !! j = Some c →
     ∃ c', doc' !! j = Some c' ∧ Editor.block_text c' = Editor.block_text c) →
  Editor.is_child_run doc' i level k → Editor.is_child_run doc i level k.
Proof.
  intros Hlen Htext [Hrun Hstop]. split.
  - intros j Hj. destruct (Hrun j Hj) as (c' & Hc' & Hdeep).
    destruct (doc !! j) as [c|] eqn:Hc.
    + exists c. split; [reflexivity |].
      destruct (Htext _ _ Hc) as (c'' & Hc'' & Ht).
      assert (c'' = c') as -> by congruence.
      unfold Editor.get_indent_level in *. now rewrite <- Ht.
    + apply lookup_ge_None in Hc. apply lookup_lt_Some in Hc'. lia.
  - intros c Hc. destruct (Htext _ _ Hc) as (c' & Hc' & Ht).
    specialize (Hstop c' Hc'). unfold Editor.get_indent_level in *. now rewrite <- Ht.
Qed.

(** Folding and unfolding is a round trip on what is visible: when the
    deeper indented blocks after an expanded block are all visible, two
    toggles leave every block with its text and visibility, and only the
    state of the toggled block has changed, to 0. *)
Theorem fold_unfold_restores_visibility
    (doc : list Editor.block) (i : nat) (b : Editor.block) :
  doc !! i = Some b →
  Editor.userState b ≠ 1%Z →
  (∀ j c, i < j → doc !! j = Some c →
          Editor.get_indent_level b < Editor.get_indent_level c →
          Editor.visible c = true) →
  Editor.toggle_fold (Editor.toggle_fold doc i) i
  = <[i := Editor.setUserState 0 b]> doc.
Proof.
  intros Hb Hexp Hvis.
  destruct (toggle_fold_effect doc i b Hb) as (k & Hrun & Hlen1 & Hlook1).
  apply Z.eqb_neq in Hexp. rewrite Hexp in Hlook1.
  set (doc1 := Editor.toggle_fold doc i) in *.
  assert (Hb1 : doc1 !! i = Some (Editor.setUserState 1 b)).
  { rewrite (Hlook1 _ _ Hb). destruct (decide (i = i)); [| lia].
    destruct (decide (i < i ≤ i + k)); [lia |]. reflexivity. }
  destruct (toggle_fold_effect doc1 i _ Hb1) as (k2 & Hrun2 & Hlen2 & Hlook2).
  cbn [Editor.setUserState Editor.userState] in Hlook2.
  change ((1 =? 1)%Z) with true in Hlook2. cbn iota in Hlook2.
  assert (Hk : k2 = k).
  { apply (is_child_run_unique doc i (Editor.get_indent_level b)); [| exact Hrun].
    apply (is_child_run_same_text doc doc1); [exact Hlen1 | | exact Hrun2].
    intros j c Hc. eexists. split; [apply (Hlook1 _ _ Hc) | reflexivity]. }
  subst k2.
  apply list_eq. intros j.
  pose proof (lookup_lt_Some _ _ _ Hb) as Hi.
  destruct (doc !! j) as [c|] eqn:Hc.
  - rewrite (Hlook2 _ _ (Hlook1 _ _ Hc)). cbn [Editor.block_text Editor.userState Editor.visible].
    destruct (decide (j = i)) as [-> | Hji].
    + rewrite list_lookup_insert_eq by exact Hi.
      assert (c = b) as -> by congruence.
      destruct (decide (i < i ≤ i + k)); [lia |]. reflexivity.
    + rewrite list_lookup_insert_ne by congruence. rewrite Hc.
      destruct (decide (i < j ≤ i + k)) as [Hin | Hout]; [| now destruct c].
      destruct Hrun as [Hrun _]. destruct (Hrun j Hin) as (c' & Hc' & Hdeep).
      assert (c' = c) as -> by congruence.
      rewrite <- (Hvis j c) by (lia || assumption). now destruct c.
  - assert (length doc ≤ j) by now apply lookup_ge_None.
    rewrite (proj2 (lookup_ge_None _ _)) by (rewrite Hlen2, Hlen1; lia).
    symmetry. apply lookup_ge_None. rewrite length_insert. lia.
Qed.

Lemma fold_unfold_restores_visibility_witness :
  Editor.toggle_fold (Editor.toggle_fold Editor.sample_document 0) 0
  = <[0 := Editor.setUserState 0 (Editor.new_block (text_of "def f():"))]>
      Editor.sample_document.
Proof.
  apply (fold_unfold_restores_visibility Editor.sample_document 0
           (Editor.new_block (text_of "def f():"))).
  - reflexivity.
  - discriminate.
  - intros [|[|[|[|j]]]] c Hj Hc Hdeep; simpl in Hc; try lia;
      try (injection Hc as <-; reflexivity); discriminate.
Defined.

(** ** Snippets: the store *)

Lemma in_range_spec (index : Z) (n : nat) :
  ((0 <=? index) && (index <? Z.of_nat n))%Z = true ↔ (0 ≤ index < Z.of_nat n)%Z.
Proof. rewrite andb_true_iff, Z.leb_le, Z.ltb_lt. reflexivity. Qed.

(** An index outside the list, negative ones included, is ignored:
    [update_snippet] and [delete_snippet] then change neither the list nor
    the file. *)
Theorem snippet_index_out_of_range_ignored
    (writable : bool) (index : Z) (n p b : string) (m : Snippets.SnippetManager) :
  (index < 0 ∨ Z.of_nat (length (Snippets.snippets m)) ≤ index)%Z →
  Snippets.update_snippet writable index n p b m = m ∧
  Snippets.delete_snippet writable index m = m.
Proof.
  intros Hout. unfold Snippets.update_snippet, Snippets.delete_snippet.
  destruct ((0 <=? index) && (index <? Z.of_nat (length (Snippets.snippets m))))%Z eqn:Hin.
  - apply in_range_spec in Hin. lia.
  - now split.
Qed.

Lemma snippet_index_out_of_range_ignored_witness :
  Snippets.update_snippet true (-1) "n" "p" "b"
    (Snippets.MkManager Snippets.default_snippets None)
  = Snippets.MkManager Snippets.default_snippets None ∧
  Snippets.delete_snippet true (-1)
    (Snippets.MkManager Snippets.default_snippets None)
  = Snippets.MkManager Snippets.default_snippets None.
Proof.
  apply (snippet_index_out_of_range_ignored true (-1) "n" "p" "b"
           (Snippets.MkManager Snippets.default_snippets None)).
  left. lia.
Defined.




(** What each way of ending the write leaves behind, for [add_snippet] and
    for [update_snippet] and [delete_snippet] with an index inside the
    list. The list in memory changes whatever happens to the file, and no
    failure is reported. When the array is written, snippets.json holds the
    list in memory. When the file cannot be opened for writing, it stays as
    it was. When the write fails after the file was opened, the file holds
    no array any more. *)
Theorem snippet_file_follows_memory
    (index : Z) (n p b : string) (m : Snippets.SnippetManager) :
  ((∀ outcome,
      Snippets.snippets (Snippets.add_snippet outcome n p b m)
      = Snippets.snippets m ++ [Snippets.MkSnippet n p b]) ∧
   Snippets.snippets_json (Snippets.add_snippet Snippets.Written n p b m)
     = Some (Snippets.snippets m ++ [Snippets.MkSnippet n p b]) ∧
   Snippets.snippets_json (Snippets.add_snippet Snippets.OpenRaises n p b m)
     = Snippets.snippets_json m ∧
   Snippets.snippets_json (Snippets.add_snippet Snippets.DumpRaises n p b m) = None) ∧
  ((0 ≤ index < Z.of_nat (length (Snippets.snippets m)))%Z →
   (∀ outcome,
      Snippets.snippets (Snippets.update_snippet outcome index n p b m)
        = <[Z.to_nat index := Snippets.MkSnippet n p b]> (Snippets.snippets m) ∧
      Snippets.snippets (Snippets.delete_snippet outcome index m)
        = delete (Z.to_nat index) (Snippets.snippets m)) ∧
   (Snippets.snippets_json (Snippets.update_snippet Snippets.Written index n p b m)
      = Some (<[Z.to_nat index := Snippets.MkSnippet n p b]> (Snippets.snippets m)) ∧
    Snippets.snippets_json (Snippets.delete_snippet Snippets.Written index m)
      = Some (delete (Z.to_nat index) (Snippets.snippets m))) ∧
   (Snippets.snippets_json (Snippets.update_snippet Snippets.OpenRaises index n p b m)
      = Snippets.snippets_json m ∧
    Snippets.snippets_json (Snippets.delete_snippet Snippets.OpenRaises index m)
      = Snippets.snippets_json m) ∧
   (Snippets.snippets_json (Snippets.update_snippet Snippets.DumpRaises index n p b m)
      = None ∧
    Snippets.snippets_json (Snippets.delete_snippet Snippets.DumpRaises index m)
      = None)).
Proof.
  unfold Snippets.add_snippet, Snippets.update_snippet, Snippets.delete_snippet,
    Snippets.save_snippets.
  split.
  - split; [intros []; reflexivity | repeat split].
  - intros Hin. rewrite (proj2 (in_range_spec _ _) Hin).
    split; [intros []; split; reflexivity | repeat split].
Qed.

Lemma snippet_file_follows_memory_witness :
  Snippets.snippets_json
    (Snippets.update_snippet Snippets.Written 0 "Loop" "wh" "pass"
       (Snippets.MkManager [Snippets.MkSnippet "For Loop" "for" "pass"] None))
  = Some (<[Z.to_nat 0 := Snippets.MkSnippet "Loop" "wh" "pass"]>
            [Snippets.MkSnippet "For Loop" "for" "pass"]) ∧
  Snippets.snippets_json
    (Snippets.delete_snippet Snippets.DumpRaises 0
       (Snippets.MkManager [Snippets.MkSnippet "For Loop" "for" "pass"]
          (Some [Snippets.MkSnippet "For Loop" "for" "pass"])))
  = None.
Proof.
  split.
  - apply (proj2 (snippet_file_follows_memory 0 "Loop" "wh" "pass"
                    (Snippets.MkManager [Snippets.MkSnippet "For Loop" "for" "pass"] None))).
    simpl. lia.
  - apply (proj2 (snippet_file_follows_memory 0 "n" "p" "b"
                    (Snippets.MkManager [Snippets.MkSnippet "For Loop" "for" "pass"]
                       (Some [Snippets.MkSnippet "For Loop" "for" "pass"])))).
    simpl. lia.
Defined.

(** [get_snippet_by_prefix] gives the first snippet with the prefix: the
    result has the prefix and no earlier snippet has it; there is no result
    exactly when no snippet has the prefix. *)
Theorem get_snippet_by_prefix_first (p : string) (l : list Snippets.snippet) :
  match Snippets.get_snippet_by_prefix p l with
  | Some s =>
      ∃ i, l !! i = Some s ∧ Snippets.prefix s = p ∧
           ∀ j s', j < i → l !! j = Some s' → Snippets.prefix s' ≠ p
  | None => ∀ s, s ∈ l → Snippets.prefix s ≠ p
  end.
Proof.
  induction l as [|s l IH]; simpl.
  - intros s Hs. inversion Hs.
  - destruct (String.eqb_spec (Snippets.prefix s) p) as [Heq | Hne].
    + exists 0. repeat split; [exact Heq |]. intros j s' Hj. lia.
    + destruct (Snippets.get_snippet_by_prefix p l) as [found|].
      * destruct IH as (i & Hi & Hp & Hfirst). exists (S i).
        repeat split; [exact Hi | exact Hp |].
        intros [|j] s' Hj Hs'; simpl in Hs'; [congruence |].
        apply (Hfirst j); [lia | exact Hs'].
      * intros s' Hs'. apply elem_of_cons in Hs' as [-> | Hs']; [exact Hne | now apply IH].
Qed.



(** [insert_snippet] goes by name: for the name of any snippet of the list,
    the text inserted is the body of the first snippet with that name, so of
    two snippets with one name the second is never inserted; a snippet with
    an empty name is never inserted. *)
Theorem insert_snippet_first_of_name
    (l : list Snippets.snippet) (i : nat) (s : Snippets.snippet) :
  l !! i = Some s →
  (Snippets.name s ≠ EmptyString →
   ∃ j s', j ≤ i ∧ l !! j = Some s' ∧ Snippets.name s' = Snippets.name s ∧
           (∀ j' s'', j' < j → l !! j' = Some s'' → Snippets.name s'' ≠ Snippets.name s) ∧
           Snippets.insert_snippet (Snippets.name s) true l = (None, Some (Snippets.body s'))) ∧
  (Snippets.name s = EmptyString →
   Snippets.insert_snippet (Snippets.name s) true l = (None, None)).
Proof.
  intros Hs. split.
  - intros Hname.
    assert (Hfirst : ∃ j s', j ≤ i ∧ l !! j = Some s' ∧ Snippets.name s' = Snippets.name s ∧
              (∀ j' s'', j' < j → l !! j' = Some s'' → Snippets.name s'' ≠ Snippets.name s) ∧
              Snippets.body_by_name (Snippets.name s) l = Some (Snippets.body s')).
    { clear Hname. revert i Hs. induction l as [|x l IH]; intros i Hs; [discriminate |].
      simpl. destruct (String.eqb_spec (Snippets.name x) (Snippets.name s)) as [Heq | Hne].
      - exists 0, x. repeat split; [lia | exact Heq |]. intros j' s'' Hj. lia.
      - destruct i as [|i]; [simpl in Hs; congruence |].
        destruct (IH i Hs) as (j & s' & Hj & Hs' & Hn & Hbefore & Hbody).
        exists (S j), s'. repeat split; [lia | exact Hs' | exact Hn | | exact Hbody].
        intros [|j'] s'' Hlt Hs''; simpl in Hs''; [congruence |].
        apply (Hbefore j'); [lia | exact Hs'']. }
    destruct Hfirst as (j & s' & Hj & Hs' & Hn & Hbefore & Hbody).
    exists j, s'. repeat split; try assumption.
    unfold Snippets.insert_snippet. destruct l; [discriminate |].
    rewrite (proj2 (truthy_nonempty _) Hname). simpl andb. cbv iota. now rewrite Hbody.
  - intros Hempty. unfold Snippets.insert_snippet. destruct l; [discriminate |].
    rewrite Hempty. reflexivity.
Qed.

Lemma insert_snippet_first_of_name_witness :
  ∃ j s', j ≤ 1 ∧
    [Snippets.MkSnippet "Loop" "for" "first"; Snippets.MkSnippet "Loop" "while" "second"] !! j
      = Some s' ∧
    Snippets.insert_snippet "Loop" true
      [Snippets.MkSnippet "Loop" "for" "first"; Snippets.MkSnippet "Loop" "while" "second"]
    = (None, Some (Snippets.body s')).
Proof.
  destruct (proj1 (insert_snippet_first_of_name
              [Snippets.MkSnippet "Loop" "for" "first";
               Snippets.MkSnippet "Loop" "while" "second"]
              1 (Snippets.MkSnippet "Loop" "while" "second") eq_refl))
    as (j & s' & Hj & Hs' & _ & _ & Hins); [discriminate |].
  exists j, s'. split; [exact Hj | split; [exact Hs' | exact Hins]].
Defined.

(** ** Projects: memory and disk *)

Section ProjectFiles.

Variable os_path_join : string → string → string.
Variable json_dump : Project.json → string.
Variable json_load : string → pyexn + Project.json.
Variable py_str : Project.json → string.
Variable mkdir_error : Project.fs → string → option pyexn.
Variable write_error : Project.fs → string → option Project.write_failure.
Variable read_error : Project.fs → string → option pyexn.

Local Abbreviation create_project :=
  (Project.create_project os_path_join json_dump mkdir_error write_error).
Local Abbreviation open_project := (Project.open_project json_load read_error).
Local Abbreviation add_file_to_project :=
  (Project.add_file_to_project os_path_join json_dump py_str write_error).
Local Abbreviation remove_file_from_project :=
  (Project.remove_file_from_project os_path_join json_dump py_str write_error).
Local Abbreviation project_file_of := (Project.project_file_of os_path_join py_str).
Local Abbreviation after_calls :=
  (Project.after_calls os_path_join json_dump py_str write_error).

Lemma assoc_set_other (key k : string) (v : Project.json)
    (members : list (string * Project.json)) :
  k ≠ key →
  Project.assoc key (Project.assoc_set k v members) = Project.assoc key members.
Proof.
  intros Hne. induction members as [|[k' old] members IH]; simpl.
  - now rewrite (proj2 (String.eqb_neq k key) Hne).
  - destruct (String.eqb_spec k' k) as [-> | Hk]; simpl.
    + now rewrite (proj2 (String.eqb_neq k key) Hne).
    + destruct (String.eqb k' key); [reflexivity | exact IH].
Qed.

Lemma getitem_setitem_other (p : Project.json) (key k : string) (v : Project.json) :
  k ≠ key →
  Project.getitem (Project.setitem p k v) key = Project.getitem p key.
Proof.
  intros Hne. destruct p; try reflexivity. simpl. now rewrite assoc_set_other.
Qed.

(** Replacing the files list moves neither the project nor its file. *)
Lemma project_file_of_setitem (p : Project.json) (v : Project.json) :
  project_file_of (Project.setitem p "files" v) = project_file_of p.
Proof.
  unfold Project.project_file_of.
  now rewrite !getitem_setitem_other by discriminate.
Qed.

Lemma py_truthy_setitem (p : Project.json) (key : string) (v : Project.json) :
  Project.py_truthy p = true → Project.py_truthy (Project.setitem p key v) = true.
Proof.
  destruct p as [| | | | |members]; try (intros H; exact H).
  destruct members as [|[k old] members]; [discriminate |]. intros _. simpl.
  destruct (String.eqb k key); reflexivity.
Qed.

(** [add_file_to_project] with a path that is not listed, step by step. *)
Lemma add_unlisted_file
    (file_path : string) (w : Project.world) (p : Project.json)
    (file : string) (items : list Project.json) :
  Project.current_project w = Some p →
  Project.py_truthy p = true →
  project_file_of p = inr file →
  Project.getitem p "files" = inr (Project.JList items) →
  Project.JStr file_path ∉ items →
  add_file_to_project file_path w
  = match write_error (Project.disk w) file with
    | Some (Project.OpenFails e) =>
        (Project.MkWorld
           (Some (Project.setitem p "files"
                    (Project.JList (items ++ [Project.JStr file_path]))))
           (Project.disk w) (Project.messages w), inl e)
    | Some (Project.WriteFails e cut) =>
        (Project.MkWorld
           (Some (Project.setitem p "files"
                    (Project.JList (items ++ [Project.JStr file_path]))))
           (Project.MkFs (Project.fs_dirs (Project.disk w))
              (<[file := cut]> (Project.fs_files (Project.disk w))))
           (Project.messages w), inl e)
    | None =>
        (Project.MkWorld
           (Some (Project.setitem p "files"
                    (Project.JList (items ++ [Project.JStr file_path]))))
           (Project.MkFs (Project.fs_dirs (Project.disk w))
              (<[file := json_dump
                           (Project.setitem p "files"
                              (Project.JList (items ++ [Project.JStr file_path])))]>
                 (Project.fs_files (Project.disk w))))
           (Project.messages w), inr tt)
    end.
Proof.
  intros Hcur Ht Hpf Hfiles Hout.
  unfold Project.add_file_to_project, Project.bind, Project.get_current_project,
    Project.lift, Project.ret.
  destruct (Project.current_project w) as [p0|] eqn:Hc; [| discriminate].
  injection Hcur as ->.
  destruct (Project.py_truthy p); [| discriminate].
  destruct (project_file_of p) as [e | f]; [discriminate |]. injection Hpf as ->.
  destruct (Project.getitem p "files") as [e | listed]; [discriminate |].
  injection Hfiles as ->. cbn [Project.contains Project.append_item].
  destruct (existsb (Project.equals_str file_path) items) eqn:Hex;
    [apply existsb_equals_str in Hex; contradiction |].
  unfold Project.set_current_project, Project.dump_to.
  cbn [Project.disk Project.current_project Project.messages].
  destruct (write_error (Project.disk w) file) as [[? | ? ?] |]; reflexivity.
Qed.

(** [remove_file_from_project] with a listed path, step by step. *)
Lemma remove_listed_file
    (file_path : string) (w : Project.world) (p : Project.json)
    (file : string) (items items' : list Project.json) :
  Project.current_project w = Some p →
  Project.py_truthy p = true →
  project_file_of p = inr file →
  Project.getitem p "files" = inr (Project.JList items) →
  Project.remove_first file_path items = Some items' →
  Project.current_project (fst (remove_file_from_project file_path w))
  = Some (Project.setitem p "files" (Project.JList items')).
Proof.
  intros Hcur Ht Hpf Hfiles Hrf.
  assert (Hin : existsb (Project.equals_str file_path) items = true).
  { clear -Hrf. revert items' Hrf. induction items as [|x l IH]; intros items' H;
      simpl in *; [discriminate |].
    destruct (Project.equals_str file_path x); [reflexivity |]. simpl.
    destruct (Project.remove_first file_path l); [| discriminate]. now apply (IH l0). }
  unfold Project.remove_file_from_project, Project.bind, Project.get_current_project,
    Project.lift, Project.ret.
  destruct (Project.current_project w) as [p0|] eqn:Hc; [| discriminate].
  injection Hcur as ->.
  destruct (Project.py_truthy p); [| discriminate].
  destruct (project_file_of p) as [e | f]; [discriminate |]. injection Hpf as ->.
  destruct (Project.getitem p "files") as [e | listed]; [discriminate |].
  injection Hfiles as ->. cbn [Project.contains Project.remove_item].
  rewrite Hin, Hrf.
  unfold Project.set_current_project, Project.dump_to.
  cbn [Project.disk Project.current_project Project.messages].
  destruct (write_error (Project.disk w) file) as [[? | ? ?] |]; reflexivity.
Qed.

Lemma remove_unlisted_file (file_path : string) (w : Project.world) :
  Project.JStr file_path ∉ Project.listed_files w →
  fst (remove_file_from_project file_path w) = w.
Proof.
  intros Hout.
  unfold Project.remove_file_from_project, Project.bind, Project.get_current_project,
    Project.lift, Project.ret.
  unfold Project.listed_files in Hout.
  destruct (Project.current_project w) as [p|] eqn:Hcur; [| reflexivity].
  destruct (Project.py_truthy p); [| reflexivity].
  destruct (project_file_of p) as [e | file]; [reflexivity |].
  destruct (Project.getitem p "files") as [e | listed] eqn:Hfiles; [reflexivity |].
  destruct (Project.contains listed file_path) as [e | present] eqn:Hin; [reflexivity |].
  destruct present; [| reflexivity].
  destruct listed as [| | | | items |]; try reflexivity.
  injection Hin as Hin. apply existsb_equals_str in Hin. contradiction.
Qed.

(** Either [add_file_to_project] leaves the world alone, or the project is
    well formed and the path is new. *)
Lemma add_file_cases (file_path : string) (w : Project.world) :
  fst (add_file_to_project file_path w) = w ∨
  ∃ p file items,
    Project.current_project w = Some p ∧ Project.py_truthy p = true ∧
    project_file_of p = inr file ∧
    Project.getitem p "files" = inr (Project.JList items) ∧
    (Project.JStr file_path ∉ items).
Proof.
  unfold Project.add_file_to_project, Project.bind, Project.get_current_project,
    Project.lift, Project.ret.
  destruct (Project.current_project w) as [p|] eqn:Hcur; [| now left].
  destruct (Project.py_truthy p) eqn:Ht; [| now left].
  destruct (project_file_of p) as [e | file] eqn:Hpf; [now left |].
  destruct (Project.getitem p "files") as [e | listed] eqn:Hfiles; [now left |].
  destruct (Project.contains listed file_path) as [e | present] eqn:Hin; [now left |].
  destruct present; [now left |].
  destruct listed as [| | | | items |]; try (now left).
  right. exists p, file, items. repeat split; try assumption; try reflexivity.
  injection Hin as Hin. rewrite <- existsb_equals_str, Hin. discriminate.
Qed.

Lemma remove_first_snoc (file_path : string) (items : list Project.json) :
  Project.JStr file_path ∉ items →
  Project.remove_first file_path (items ++ [Project.JStr file_path]) = Some items.
Proof.
  induction items as [|x l IH]; intros Hout; simpl.
  - now rewrite String.eqb_refl.
  - apply not_elem_of_cons in Hout as [Hx Hl]. rewrite (IH Hl).
    destruct x; simpl; try reflexivity.
    now rewrite (proj2 (String.eqb_neq s file_path)) by congruence.
Qed.

(** [add_file_to_project] appends before it writes, so a failing write
    leaves it half way: the exception escapes and the new path is listed in
    memory all the same. When the project file cannot be opened for
    writing, the disk is as before. When the write fails after the file was
    opened, the project file holds what the failed write has left of it and
    not the dump of the project; every other file is as before. When the
    write succeeds the file holds the dump of the project in memory. *)
Theorem add_file_write_failure_keeps_path
    (file_path : string) (w : Project.world) (p : Project.json)
    (file : string) (items : list Project.json) :
  Project.current_project w = Some p →
  Project.py_truthy p = true →
  project_file_of p = inr file →
  Project.getitem p "files" = inr (Project.JList items) →
  Project.JStr file_path ∉ items →
  Project.listed_files (fst (add_file_to_project file_path w))
    = items ++ [Project.JStr file_path] ∧
  (∀ e, write_error (Project.disk w) file = Some (Project.OpenFails e) →
     snd (add_file_to_project file_path w) = inl e ∧
     Project.disk (fst (add_file_to_project file_path w)) = Project.disk w) ∧
  (∀ e cut, write_error (Project.disk w) file = Some (Project.WriteFails e cut) →
     snd (add_file_to_project file_path w) = inl e ∧
     Project.fs_dirs (Project.disk (fst (add_file_to_project file_path w)))
       = Project.fs_dirs (Project.disk w) ∧
     Project.fs_files (Project.disk (fst (add_file_to_project file_path w)))
       = <[file := cut]> (Project.fs_files (Project.disk w))) ∧
  (write_error (Project.disk w) file = None →
     snd (add_file_to_project file_path w) = inr tt ∧
     ∃ p', Project.current_project (fst (add_file_to_project file_path w)) = Some p' ∧
           Project.fs_files (Project.disk (fst (add_file_to_project file_path w))) !! file
             = Some (json_dump p')).
Proof.
  intros Hcur Ht Hpf Hfiles Hout.
  rewrite (add_unlisted_file _ _ _ _ _ Hcur Ht Hpf Hfiles Hout).
  assert (Hl : ∀ d m, Project.listed_files
              (Project.MkWorld
                 (Some (Project.setitem p "files"
                          (Project.JList (items ++ [Project.JStr file_path])))) d m)
            = items ++ [Project.JStr file_path]).
  { intros d m. unfold Project.listed_files. cbn [Project.current_project].
    now rewrite (getitem_setitem _ _ _ _ Hfiles). }
  split; [| split; [| split]].
  - destruct (write_error (Project.disk w) file) as [[e | e cut] |]; apply Hl.
  - intros e ->. split; reflexivity.
  - intros e cut ->. repeat split.
  - intros ->. split; [reflexivity |].
    eexists. split; [reflexivity |]. simpl. apply lookup_insert_eq.
Qed.

(** Removing a file undoes adding it: for a path that was not listed, the
    files list after [add_file_to_project] and [remove_file_from_project]
    is the list before, whether or not the writes succeed; and removing a
    path that is not listed changes nothing, in memory or on disk. *)
Theorem remove_file_undoes_add (file_path : string) (w : Project.world) :
  Project.JStr file_path ∉ Project.listed_files w →
  Project.listed_files
    (after_calls [Project.AddFile file_path; Project.RemoveFile file_path] w)
  = Project.listed_files w ∧
  fst (remove_file_from_project file_path w) = w.
Proof.
  intros Hout. split; [| now apply remove_unlisted_file].
  change (after_calls [Project.AddFile file_path; Project.RemoveFile file_path] w)
    with (fst (remove_file_from_project file_path (fst (add_file_to_project file_path w)))).
  destruct (add_file_cases file_path w)
    as [-> | (p & file & items & Hcur & Ht & Hpf & Hfiles & Hnew)].
  - now rewrite remove_unlisted_file.
  - assert (Hitems : Project.listed_files w = items).
    { unfold Project.listed_files. now rewrite Hcur, Hfiles. }
    rewrite Hitems.
    set (p' := Project.setitem p "files"
                 (Project.JList (items ++ [Project.JStr file_path]))).
    assert (Hcur1 : Project.current_project (fst (add_file_to_project file_path w))
                    = Some p').
    { rewrite (add_unlisted_file _ _ _ _ _ Hcur Ht Hpf Hfiles Hnew).
      destruct (write_error _ _) as [[? | ? ?] |]; reflexivity. }
    pose proof (remove_listed_file file_path _ p' file
                  (items ++ [Project.JStr file_path]) items Hcur1
                  (py_truthy_setitem _ _ _ Ht)
                  (eq_trans (project_file_of_setitem _ _) Hpf)
                  (getitem_setitem _ _ _ _ Hfiles)
                  (remove_first_snoc _ _ Hnew)) as Hcur2.
    unfold Project.listed_files. rewrite Hcur2. subst p'.
    now rewrite (getitem_setitem _ "files" (Project.JList (items ++ [Project.JStr file_path]))
                   (Project.JList items) (getitem_setitem _ _ _ _ Hfiles)).
Qed.

(** A call replaces the current project by itself with another files
    list, or not at all. *)
Lemma after_call_current (c : Project.file_call) (w : Project.world) :
  let w' := Project.after_call os_path_join json_dump py_str write_error c w in
  Project.current_project w' = Project.current_project w ∨
  ∃ p listed,
    Project.current_project w = Some p ∧
    Project.current_project w' = Some (Project.setitem p "files" listed).
Proof.
  destruct c as [file_path | file_path]; cbn zeta; unfold Project.after_call.
  - destruct (add_file_cases file_path w)
      as [-> | (p & file & items & Hcur & Ht & Hpf & Hfiles & Hnew)]; [now left |].
    right. exists p, (Project.JList (items ++ [Project.JStr file_path])).
    split; [exact Hcur |].
    rewrite (add_unlisted_file _ _ _ _ _ Hcur Ht Hpf Hfiles Hnew).
    destruct (write_error _ _) as [[? | ? ?] |]; reflexivity.
  - unfold Project.remove_file_from_project, Project.bind, Project.get_current_project,
      Project.lift, Project.ret.
    destruct (Project.current_project w) as [p|] eqn:Hcur; [| left; simpl; now rewrite Hcur].
    destruct (Project.py_truthy p); [| left; simpl; now rewrite Hcur].
    destruct (project_file_of p) as [e | file]; [left; simpl; now rewrite Hcur |].
    destruct (Project.getitem p "files") as [e | listed];
      [left; simpl; now rewrite Hcur |].
    destruct (Project.contains listed file_path) as [e | present];
      [left; simpl; now rewrite Hcur |].
    destruct present; [| left; simpl; now rewrite Hcur].
    destruct (Project.remove_item listed file_path) as [e | listed'];
      [left; simpl; now rewrite Hcur |].
    right. exists p, listed'. split; [reflexivity |].
    unfold Project.set_current_project, Project.dump_to.
    cbn [Project.disk Project.current_project Project.messages].
    destruct (write_error _ _) as [[? | ? ?] |]; reflexivity.
Qed.

(** The project file never moves: whatever files are added and removed,
    the name and the path of the current project, and with them the
    location of its file, stay what they were, and a project stays open. *)
Theorem project_file_never_moves (cs : list Project.file_call) (w : Project.world) :
  match Project.current_project w, Project.current_project (after_calls cs w) with
  | Some p, Some p' =>
      Project.getitem p' "name" = Project.getitem p "name" ∧
      Project.getitem p' "path" = Project.getitem p "path" ∧
      project_file_of p' = project_file_of p
  | None, None => True
  | _, _ => False
  end.
Proof.
  revert w. induction cs as [|c cs IH]; intros w.
  - simpl. destruct (Project.current_project w); [repeat split | exact I].
  - change (after_calls (c :: cs) w)
      with (after_calls cs (Project.after_call os_path_join json_dump py_str write_error c w)).
    specialize (IH (Project.after_call os_path_join json_dump py_str write_error c w)).
    destruct (after_call_current c w) as [Hsame | (p & listed & Hcur & Hcur')].
    + now rewrite Hsame in IH.
    + rewrite Hcur' in IH. rewrite Hcur.
      destruct (Project.current_project (after_calls cs _)) as [p'|]; [| exact IH].
      destruct IH as (Hn & Hp & Hf).
      rewrite Hn, Hp, Hf, project_file_of_setitem.
      now rewrite !getitem_setitem_other by discriminate.
Qed.

(** Where [create_project] has put the file is where the other methods
    look for it, and it holds the dump of the project. *)
Lemma create_project_on_disk (actions : list Project.dialog_action)
    (w w' : Project.world) (p : Project.json) :
  create_project actions w = (w', inr (Some p)) →
  ∃ file, project_file_of p = inr file ∧
          Project.fs_files (Project.disk w') !! file = Some (json_dump p) ∧
          Project.current_project w' = Some p.
Proof.
  unfold Project.create_project.
  destruct (Project.exec_ actions Project.new_dialog) as [[code dialog] warnings].
  destruct code; [| discriminate].
  unfold Project.bind, Project.os_path_exists, Project.ret, Project.os_makedirs,
    Project.dump_to, Project.set_current_project.
  cbn [Project.disk Project.current_project Project.messages].
  intros H. eexists. split; [| split].
  - destruct (Project.path_exists _ _); cbn [Project.disk] in H.
    + destruct (write_error _ _) as [[? | ? ?] |]; [discriminate | discriminate |]. injection H as _ <-. reflexivity.
    + destruct (mkdir_error _ _); [discriminate |]. cbn [Project.disk] in H.
      destruct (write_error _ _) as [[? | ? ?] |]; [discriminate | discriminate |]. injection H as _ <-. reflexivity.
  - destruct (Project.path_exists _ _); cbn [Project.disk] in H.
    + destruct (write_error _ _) as [[? | ? ?] |]; [discriminate | discriminate |]. injection H as <- <-.
      apply lookup_insert_eq.
    + destruct (mkdir_error _ _); [discriminate |]. cbn [Project.disk] in H.
      destruct (write_error _ _) as [[? | ? ?] |]; [discriminate | discriminate |]. injection H as <- <-.
      apply lookup_insert_eq.
  - destruct (Project.path_exists _ _); cbn [Project.disk] in H.
    + destruct (write_error _ _) as [[? | ? ?] |]; [discriminate | discriminate |]. now injection H as <- <-.
    + destruct (mkdir_error _ _); [discriminate |]. cbn [Project.disk] in H.
      destruct (write_error _ _) as [[? | ? ?] |]; [discriminate | discriminate |]. now injection H as <- <-.
Qed.

(** A created project can be opened again: when [json.load] reads back what
    [json.dump] wrote and the file can be read, [open_project] on the file
    that [create_project] has written returns the created project and
    leaves the world as it is. *)
Theorem created_project_reopens (actions : list Project.dialog_action)
    (w w' : Project.world) (p : Project.json) :
  create_project actions w = (w', inr (Some p)) →
  json_load (json_dump p) = inr p →
  ∃ file,
    project_file_of p = inr file ∧
    (truthy file = true → read_error (Project.disk w') file = None →
     open_project file w' = (w', inr (Some p))).
Proof.
  intros Hcreate Hround.
  destruct (create_project_on_disk _ _ _ _ Hcreate) as (file & Hpf & Hdisk & Hcur).
  exists file. split; [exact Hpf |]. intros Hfile Hread.
  unfold Project.open_project. rewrite Hfile.
  unfold Project.try_except, Project.bind, Project.load_from, Project.set_current_project,
    Project.ret.
  rewrite Hread, Hdisk, Hround. destruct w'. simpl in *. now rewrite Hcur.
Qed.

End ProjectFiles.

Lemma add_file_write_failure_keeps_path_witness :
  Project.listed_files
    (fst (Project.add_file_to_project Project.posix_join Project.render Project.render
            (fun _ _ => Some (Project.WriteFails
                                (PyExn "OSError" "[Errno 28] No space left on device")
                                "{"))
            "/p/b.py" Project.sample_world))
  = [Project.JStr "/p/a.py"] ++ [Project.JStr "/p/b.py"] ∧
  snd (Project.add_file_to_project Project.posix_join Project.render Project.render
         (fun _ _ => Some (Project.WriteFails
                             (PyExn "OSError" "[Errno 28] No space left on device")
                             "{"))
         "/p/b.py" Project.sample_world)
  = inl (PyExn "OSError" "[Errno 28] No space left on device") ∧
  Project.fs_files
    (Project.disk
       (fst (Project.add_file_to_project Project.posix_join Project.render Project.render
               (fun _ _ => Some (Project.WriteFails
                                   (PyExn "OSError" "[Errno 28] No space left on device")
                                   "{"))
               "/p/b.py" Project.sample_world)))
  = <["/p/demo.webe.json" := "{"]> (Project.fs_files (Project.disk Project.sample_world)).
Proof.
  destruct (add_file_write_failure_keeps_path Project.posix_join Project.render
              Project.render
              (fun _ _ => Some (Project.WriteFails
                                  (PyExn "OSError" "[Errno 28] No space left on device")
                                  "{"))
              "/p/b.py" Project.sample_world
              (Project.project_data "demo" "/p" [Project.JStr "/p/a.py"])
              "/p/demo.webe.json" [Project.JStr "/p/a.py"]
              eq_refl eq_refl eq_refl eq_refl
              ltac:(intros H; apply list_elem_of_singleton in H; discriminate))
    as (Hlisted & _ & Hcut & _).
  split; [exact Hlisted |].
  destruct (Hcut (PyExn "OSError" "[Errno 28] No space left on device") "{" eq_refl)
    as (Hraised & _ & Hfile).
  split; [exact Hraised | exact Hfile].
Defined.

Lemma remove_file_undoes_add_witness :
  Project.listed_files
    (Project.after_calls Project.posix_join Project.render Project.render Project.no_error
       [Project.AddFile "/p/b.py"; Project.RemoveFile "/p/b.py"] Project.sample_world)
  = Project.listed_files Project.sample_world ∧
  fst (Project.remove_file_from_project Project.posix_join Project.render Project.render
         Project.no_error "/p/b.py" Project.sample_world)
  = Project.sample_world.
Proof.
  apply (remove_file_undoes_add Project.posix_join Project.render Project.render
           Project.no_error "/p/b.py" Project.sample_world).
  intros H. apply list_elem_of_singleton in H. discriminate.
Defined.

Lemma created_project_reopens_witness :
  Project.open_project
    (fun content =>
       if String.eqb content (Project.render (Project.project_data "demo" "/p" []))
       then inr (Project.project_data "demo" "/p" [])
       else inl (PyExn "JSONDecodeError" "Expecting value"))
    Project.no_error "/p/demo.webe.json"
    (fst (Project.create_project Project.posix_join Project.render
            Project.no_error Project.no_error
            [Project.TypeName "demo"; Project.TypePath "/p"; Project.ClickCreate]
            Project.empty_world))
  = (fst (Project.create_project Project.posix_join Project.render
            Project.no_error Project.no_error
            [Project.TypeName "demo"; Project.TypePath "/p"; Project.ClickCreate]
            Project.empty_world),
     inr (Some (Project.project_data "demo" "/p" []))).
Proof.
  destruct (created_project_reopens Project.posix_join Project.render
              (fun content =>
                 if String.eqb content (Project.render (Project.project_data "demo" "/p" []))
                 then inr (Project.project_data "demo" "/p" [])
                 else inl (PyExn "JSONDecodeError" "Expecting value"))
              Project.render Project.no_error Project.no_error Project.no_error
              [Project.TypeName "demo"; Project.TypePath "/p"; Project.ClickCreate]
              Project.empty_world
              (fst (Project.create_project Project.posix_join Project.render
                      Project.no_error Project.no_error
                      [Project.TypeName "demo"; Project.TypePath "/p"; Project.ClickCreate]
                      Project.empty_world))
              (Project.project_data "demo" "/p" []) eq_refl eq_refl)
    as (file & Hfile & Hopen).
  injection Hfile as <-. apply Hopen; reflexivity.
Defined.

(** ** Git: opening a repository *)

(** [git_open_repo] on a chosen directory runs [git status] there, once,
    and selects the directory exactly when git exits with code 0: then the
    directory is the current repository; on any other exit code, or when
    the subprocess cannot be started, the current repository stays what it
    was and a warning shows the output or the exception text. *)
Theorem git_open_repo_selects_on_exit_zero
    (subprocess_run : string → string → pyexn + Git.CompletedProcess)
    (repo_path : string) (g : Git.GitManager) :
  truthy repo_path = true →
  Git.git_open_repo subprocess_run repo_path g
  = match subprocess_run "git status" repo_path with
    | inr result =>
        if (Git.returncode result =? 0)%Z then
          (Git.MkGit (Some repo_path),
           [MkMessage Information "Success" ("Repository opened at " +:+ repo_path)],
           [Git.MkSpawn "git status" repo_path])
        else
          (g, [MkMessage Warning "Error"
                 ("Not a Git repository: " +:+ Git.stdout result +:+ Git.stderr result)],
           [Git.MkSpawn "git status" repo_path])
    | inl e =>
        (g, [MkMessage Warning "Error" ("Not a Git repository: " +:+ exn_text e)],
         [Git.MkSpawn "git status" repo_path])
    end.
Proof.
  intros Hsel. unfold Git.git_open_repo, Git.git_status, Git.run_git_command.
  rewrite Hsel. unfold Git.falsy. rewrite Hsel. cbn [negb]. rewrite Hsel.
  destruct (subprocess_run "git status" repo_path) as [e | result]; [reflexivity |].
  unfold Git.exited_zero.
  destruct (Git.returncode result) as [|n|n]; reflexivity.
Qed.

Lemma git_open_repo_selects_on_exit_zero_witness :
  Git.git_open_repo Git.sample_shell "/gone" (Git.MkGit (Some "/repo"))
  = (Git.MkGit (Some "/repo"),
     [MkMessage Warning "Error"
        ("Not a Git repository: " +:+ "[Errno 2] No such file or directory")],
     [Git.MkSpawn "git status" "/gone"]).
Proof.
  rewrite (git_open_repo_selects_on_exit_zero Git.sample_shell "/gone"
             (Git.MkGit (Some "/repo")) eq_refl).
  reflexivity.
Defined.

(** [git_init] selects the new repository only when [git init] exits with
    code 0; an accepted dialog with an empty path does nothing at all, no
    subprocess and no message. *)
Theorem git_init_selects_on_exit_zero
    (subprocess_run : string → string → pyexn + Git.CompletedProcess)
    (repo_path : string) (g : Git.GitManager) :
  Git.git_init subprocess_run true EmptyString g = (g, [], []) ∧
  (truthy repo_path = true →
   let '(g', shown, spawned) := Git.git_init subprocess_run true repo_path g in
   spawned = [Git.MkSpawn "git init" repo_path] ∧
   (Git.current_repo g' = Some repo_path ∧
    (∃ result, subprocess_run "git init" repo_path = inr result ∧
               Git.returncode result = 0%Z)
    ∨ g' = g ∧
      (∀ result, subprocess_run "git init" repo_path = inr result →
                 Git.returncode result ≠ 0%Z) ∧
      ∃ text, shown = [MkMessage Warning "Error" text])).
Proof.
  split; [reflexivity |]. intros Hsel.
  unfold Git.git_init, Git.init_repo, Git.run_git_command.
  rewrite Hsel. unfold Git.falsy. rewrite Hsel. cbn [negb]. rewrite Hsel.
  destruct (subprocess_run "git init" repo_path) as [e | result] eqn:Hrun.
  - cbn. split; [reflexivity |]. right. split; [reflexivity |].
    split; [discriminate | eexists; reflexivity].
  - unfold Git.exited_zero. destruct (Git.returncode result) as [|n|n] eqn:Hcode.
    + split; [reflexivity |]. left. split; [reflexivity |]. now exists result.
    + split; [reflexivity |]. right. split; [reflexivity |].
      split; [| eexists; reflexivity]. intros r [= <-]. lia.
    + split; [reflexivity |]. right. split; [reflexivity |].
      split; [| eexists; reflexivity]. intros r [= <-]. lia.
Qed.

Lemma git_init_selects_on_exit_zero_witness :
  let '(g', shown, spawned) :=
    Git.git_init Git.sample_shell true "/repo" (Git.MkGit None) in
  spawned = [Git.MkSpawn "git init" "/repo"] ∧
  (Git.current_repo g' = Some "/repo" ∧
   (∃ result, Git.sample_shell "git init" "/repo" = inr result ∧
              Git.returncode result = 0%Z)
   ∨ g' = Git.MkGit None ∧
     (∀ result, Git.sample_shell "git init" "/repo" = inr result →
                Git.returncode result ≠ 0%Z) ∧
     ∃ text, shown = [MkMessage Warning "Error" text]).
Proof.
  apply (proj2 (git_init_selects_on_exit_zero Git.sample_shell "/repo" (Git.MkGit None))).
  reflexivity.
Defined.

Lemma join_space_cons (p : string) (rest : list string) :
  rest ≠ [] → Git.join_space (p :: rest) = p +:+ " " +:+ Git.join_space rest.
Proof. destruct rest; [congruence | reflexivity]. Qed.

(** File names are put on the command line as they are, separated by
    spaces and unquoted: a file whose name contains a space gives the very
    command line of two files, so [git add] cannot tell them apart. *)
Theorem git_add_does_not_quote
    (subprocess_run : string → string → pyexn + Git.CompletedProcess)
    (a b : string) (rest : list string) (repo_path : option string) (g : Git.GitManager) :
  Git.git_add subprocess_run ((a +:+ " " +:+ b) :: rest) repo_path g
  = Git.git_add subprocess_run (a :: b :: rest) repo_path g.
Proof.
  unfold Git.git_add. f_equal. f_equal.
  destruct rest as [|c rest]; [reflexivity |].
  rewrite (join_space_cons (a +:+ " " +:+ b)) by discriminate.
  rewrite (join_space_cons a) by discriminate.
  rewrite (join_space_cons b) by discriminate.
  now rewrite !append_assoc.
Qed.

(** ** Statistics: more on the counts *)

Lemma split_on_snoc (sep : N) (s : list N) :
  split_on sep (s ++ [sep]) = split_on sep s ++ [[]].
Proof.
  induction s as [|c s IH]; simpl.
  - now rewrite N.eqb_refl.
  - rewrite IH. destruct (c =? sep)%N; [reflexivity |].
    pose proof (split_on_length sep s) as Hlen.
    destruct (split_on sep s); [discriminate | reflexivity].
Qed.

Lemma count_lines_app (cond : list N → bool) (l k : list (list N)) :
  Statistics.count_lines cond (l ++ k)
  = Statistics.count_lines cond l + Statistics.count_lines cond k.
Proof. unfold Statistics.count_lines. now rewrite filter_app, length_app. Qed.

(** The counts at the edges: there is always at least one line, so an
    empty file is reported as one empty line; and a newline at the end of
    the text adds exactly one line, an empty one, and one character, and
    leaves the code and comment counts alone. *)
Theorem trailing_newline_adds_empty_line (content : list N) :
  1 ≤ Statistics.total_lines (Statistics.analyze content) ∧
  Statistics.analyze (content ++ [Statistics.LF])
  = Statistics.MkStats
      (S (Statistics.total_lines (Statistics.analyze content)))
      (S (Statistics.empty_lines (Statistics.analyze content)))
      (Statistics.code_lines (Statistics.analyze content))
      (Statistics.comment_lines (Statistics.analyze content))
      (S (Statistics.total_characters (Statistics.analyze content))).
Proof.
  unfold Statistics.analyze. cbn [Statistics.total_lines Statistics.empty_lines
    Statistics.code_lines Statistics.comment_lines Statistics.total_characters].
  split; [rewrite split_on_length; lia |].
  rewrite split_on_snoc, !count_lines_app, !length_app. cbn [length].
  change (Statistics.count_lines Statistics.is_empty_line [[]]) with 1.
  change (Statistics.count_lines Statistics.is_code_line [[]]) with 0.
  change (Statistics.count_lines Statistics.is_comment_line [[]]) with 0.
  f_equal; lia.
Qed.

Lemma join_with_length (sep : N) (segs : list (list N)) :
  segs ≠ [] →
  length (join_with sep segs) + 1 = sum_list_with length segs + length segs.
Proof.
  induction segs as [|seg segs IH]; [congruence |]. intros _.
  destruct segs as [|seg' segs].
  - simpl. lia.
  - change (join_with sep (seg :: seg' :: segs))
      with (seg ++ sep :: join_with sep (seg' :: segs)).
    rewrite length_app. cbn [length sum_list_with] in *.
    specialize (IH ltac:(discriminate)). lia.
Qed.

(** The character count and the line count fit together: the characters of
    the file are those of its lines plus one newline between each two
    lines. *)
Theorem characters_are_lines_plus_newlines (content : list N) :
  Statistics.total_characters (Statistics.analyze content) + 1
  = sum_list_with length (split_on Statistics.LF content)
    + Statistics.total_lines (Statistics.analyze content).
Proof.
  unfold Statistics.analyze. cbn [Statistics.total_characters Statistics.total_lines].
  rewrite <- (proj1 (split_on_join Statistics.LF content)) at 1.
  apply join_with_length.
  intros Hnil. pose proof (split_on_length Statistics.LF content) as Hlen.
  rewrite Hnil in Hlen. discriminate.
Qed.

Lemma add_file_fold (files : list (string * (pyexn + list N)))
    (acc : Statistics.project_stats) :
  let st := foldl (fun a file => Statistics.add_file a (snd file)) acc files in
  Statistics.python_files st = Statistics.python_files acc ∧
  Statistics.project_total_lines st
  = Statistics.project_total_lines acc
    + sum_list_with (fun c => Statistics.total_lines (Statistics.analyze c))
        (Statistics.readable files) ∧
  Statistics.project_empty_lines st
  = Statistics.project_empty_lines acc
    + sum_list_with (fun c => Statistics.empty_lines (Statistics.analyze c))
        (Statistics.readable files) ∧
  Statistics.project_code_lines st
  = Statistics.project_code_lines acc
    + sum_list_with (fun c => Statistics.code_lines (Statistics.analyze c))
        (Statistics.readable files) ∧
  Statistics.project_comment_lines st
  = Statistics.project_comment_lines acc
    + sum_list_with (fun c => Statistics.comment_lines (Statistics.analyze c))
        (Statistics.readable files) ∧
  Statistics.project_total_characters st
  = Statistics.project_total_characters acc
    + sum_list_with (fun c => Statistics.total_characters (Statistics.analyze c))
        (Statistics.readable files).
Proof.
  revert acc. induction files as [|[path read] files IH]; intros acc; cbn zeta.
  - simpl. repeat split; lia.
  - change (foldl (fun a file => Statistics.add_file a (snd file)) acc
              ((path, read) :: files))
      with (foldl (fun a file => Statistics.add_file a (snd file))
              (Statistics.add_file acc read) files).
    destruct (IH (Statistics.add_file acc read)) as (H0 & H1 & H2 & H3 & H4 & H5).
    destruct read as [e | content].
    + change (Statistics.readable ((path, inl e) :: files))
        with (Statistics.readable files).
      simpl in *. repeat split; assumption.
    + change (Statistics.readable ((path, inr content) :: files))
        with (content :: Statistics.readable files).
      rewrite H0, H1, H2, H3, H4, H5. simpl. repeat split; lia.
Qed.

(** [analyze_project]: with no Python file there is a warning and no
    statistics. Otherwise every collected file counts as a Python file,
    readable or not, while the line and character totals are the sums over
    the files that could be read, a file that cannot be read adding
    nothing; and the totals partition like those of a single file:
    empty + comment + code = total lines. *)
Theorem analyze_project_sums_readable_files
    (files : list (string * (pyexn + list N))) :
  match Statistics.analyze_project files with
  | inl warning =>
      files = [] ∧ warning = MkMessage Warning "Error" "No Python files found in project"
  | inr st =>
      files ≠ [] ∧
      Statistics.python_files st = length files ∧
      Statistics.project_total_lines st
      = sum_list_with (fun c => Statistics.total_lines (Statistics.analyze c))
          (Statistics.readable files) ∧
      Statistics.project_total_characters st
      = sum_list_with (fun c => Statistics.total_characters (Statistics.analyze c))
          (Statistics.readable files) ∧
      Statistics.project_empty_lines st + Statistics.project_comment_lines st
        + Statistics.project_code_lines st
      = Statistics.project_total_lines st ∧
      length (Statistics.readable files) ≤ Statistics.project_total_lines st
  end.
Proof.
  destruct files as [|file files]; [now split |].
  unfold Statistics.analyze_project.
  destruct (add_file_fold (file :: files)
              (Statistics.MkProjectStats (length (file :: files)) 0 0 0 0 0))
    as (H0 & H1 & H2 & H3 & H4 & H5).
  cbn zeta in *. cbn [Statistics.python_files Statistics.project_total_lines
    Statistics.project_empty_lines Statistics.project_code_lines
    Statistics.project_comment_lines Statistics.project_total_characters] in *.
  split; [discriminate |]. split; [exact H0 |]. split; [exact H1 |].
  split; [exact H5 |]. rewrite H1, H2, H3, H4.
  generalize (Statistics.readable (file :: files)) as contents.
  intros contents. split.
  - induction contents as [|c contents IH]; [reflexivity |].
    cbn [sum_list_with].
    pose proof (count_lines_partition (split_on Statistics.LF c)) as Hc.
    unfold Statistics.analyze.
    cbn [Statistics.total_lines Statistics.empty_lines Statistics.code_lines
         Statistics.comment_lines] in *.
    unfold Statistics.analyze in IH.
    cbn [Statistics.total_lines Statistics.empty_lines Statistics.code_lines
         Statistics.comment_lines] in IH.
    lia.
  - induction contents as [|c contents IH]; [simpl; lia |].
    cbn [sum_list_with length].
    assert (1 ≤ Statistics.total_lines (Statistics.analyze c)).
    { unfold Statistics.analyze. cbn [Statistics.total_lines].
      rewrite split_on_length. lia. }
    lia.
Qed.

(** ** Projects: the files dialog *)

Lemma existsb_equals_str_fmap (file_path : string) (files : list string) :
  existsb (Project.equals_str file_path) (Project.JStr <$> files)
  = bool_decide (file_path ∈ files).
Proof.
  induction files as [|f files IH]; [reflexivity |].
  cbn [fmap list_fmap existsb Project.equals_str]. rewrite IH.
  destruct (String.eqb_spec f file_path) as [-> | Hne].
  - simpl. symmetry. apply bool_decide_eq_true_2, list_elem_of_here.
  - simpl. apply bool_decide_ext. rewrite elem_of_cons.
    split; [now right | intros [-> | H]; [congruence | exact H]].
Qed.

Lemma with_chosen_NoDup (file_paths files : list string) :
  NoDup files →
  NoDup (Project.with_chosen files file_paths) ∧
  (∀ f, f ∈ Project.with_chosen files file_paths ↔ f ∈ files ∨ f ∈ file_paths) ∧
  ∃ new, Project.with_chosen files file_paths = files ++ new.
Proof.
  revert files. induction file_paths as [|fp rest IH]; intros files Hnd.
  - split; [exact Hnd |]. split; [| exists []; now rewrite app_nil_r].
    intros f. split; [now left | intros [H | H]; [exact H | inversion H]].
  - change (Project.with_chosen files (fp :: rest))
      with (Project.with_chosen
              (if bool_decide (fp ∈ files) then files else files ++ [fp]) rest).
    case_bool_decide as Hin.
    + destruct (IH files Hnd) as (Hnd' & Hmem & new & Hnew).
      split; [exact Hnd' |]. split; [| now exists new].
      intros f. rewrite Hmem, elem_of_cons.
      split; [intros [H | H]; auto | intros [H | [-> | H]]; auto].
    + assert (Hnd1 : NoDup (files ++ [fp])).
      { apply NoDup_app. split; [exact Hnd |]. split; [| apply NoDup_singleton].
        intros x Hx Hx'. apply list_elem_of_singleton in Hx'. now subst. }
      destruct (IH _ Hnd1) as (Hnd' & Hmem & new & Hnew).
      split; [exact Hnd' |]. split.
      * intros f. rewrite Hmem, elem_of_app, list_elem_of_singleton, elem_of_cons.
        split; [intros [[H | H] | H]; auto | intros [H | [H | H]]; auto].
      * exists (fp :: new). now rewrite Hnew, <- app_assoc.
Qed.

Lemma add_chosen_well_formed (file_paths : list string) (name path : string)
    (files : list string) :
  Project.add_chosen file_paths
    (Project.project_data name path (Project.JStr <$> files)) files
  = ((Project.project_data name path
        (Project.JStr <$> Project.with_chosen files file_paths),
      Project.with_chosen files file_paths), inr tt).
Proof.
  revert files. induction file_paths as [|fp rest IH]; intros files; [reflexivity |].
  cbn [Project.add_chosen].
  change (Project.getitem (Project.project_data name path (Project.JStr <$> files)) "files")
    with (inr (Project.JList (Project.JStr <$> files)) : pyexn + Project.json).
  cbn [Project.contains Project.append_item]. rewrite existsb_equals_str_fmap.
  change (Project.with_chosen files (fp :: rest))
    with (Project.with_chosen
            (if bool_decide (fp ∈ files) then files else files ++ [fp]) rest).
  case_bool_decide as Hin; [apply IH |].
  change (Project.setitem (Project.project_data name path (Project.JStr <$> files)) "files"
            (Project.JList ((Project.JStr <$> files) ++ [Project.JStr fp])))
    with (Project.project_data name path ((Project.JStr <$> files) ++ [Project.JStr fp])).
  replace ((Project.JStr <$> files) ++ [Project.JStr fp])
    with (Project.JStr <$> (files ++ [fp])) by now rewrite fmap_app.
  apply IH.
Qed.

(** [ProjectFilesDialog.add_file] on a project whose files are listed
    without repetition and shown as they are listed: afterwards the list
    widget still shows the files list, which still has no repetition, keeps
    the old files in front and holds every chosen path; and the project
    file is written on every call, also when no file was chosen, so that it
    holds the dump of the project in memory. *)
Theorem dialog_add_file_keeps_list_in_step
    (os_path_join : string → string → string) (json_dump : Project.json → string)
    (py_str : Project.json → string)
    (write_error : Project.fs → string → option Project.write_failure)
    (file_paths : list string) (name path : string) (files : list string)
    (w : Project.world) :
  Project.current_project w
    = Some (Project.project_data name path (Project.JStr <$> files)) →
  NoDup files →
  write_error (Project.disk w) (os_path_join path (name +:+ ".webe.json")) = None →
  ∃ files',
    Project.dialog_add_file os_path_join json_dump py_str write_error file_paths files w
    = ((Project.MkWorld
          (Some (Project.project_data name path (Project.JStr <$> files')))
          (Project.MkFs (Project.fs_dirs (Project.disk w))
             (<[os_path_join path (name +:+ ".webe.json")
                := json_dump (Project.project_data name path (Project.JStr <$> files'))]>
                (Project.fs_files (Project.disk w))))
          (Project.messages w),
        files'), inr tt) ∧
    NoDup files' ∧
    (∀ f, f ∈ files' ↔ f ∈ files ∨ f ∈ file_paths) ∧
    (∃ new, files' = files ++ new) ∧
    (file_paths = [] → files' = files).
Proof.
  intros Hcur Hnd Hwr.
  exists (Project.with_chosen files file_paths).
  destruct (with_chosen_NoDup file_paths files Hnd) as (Hnd' & Hmem & Hnew).
  split; [| split; [exact Hnd' | split; [exact Hmem | split; [exact Hnew |]]]].
  - unfold Project.dialog_add_file. rewrite Hcur.
    change (Project.getitem (Project.project_data name path (Project.JStr <$> files)) "path")
      with (inr (Project.JStr path) : pyexn + Project.json).
    cbv iota. rewrite add_chosen_well_formed.
    unfold Project.save_project, Project.bind, Project.get_current_project,
      Project.lift, Project.dump_to.
    cbn [Project.current_project Project.disk Project.messages].
    change (Project.project_file_of os_path_join py_str
              (Project.project_data name path
                 (Project.JStr <$> Project.with_chosen files file_paths)))
      with (inr (os_path_join path (name +:+ ".webe.json")) : pyexn + string).
    cbv iota. cbn [Project.disk]. now rewrite Hwr.
  - now intros ->.
Qed.

Lemma dialog_add_file_keeps_list_in_step_witness :
  ∃ files',
    Project.dialog_add_file Project.posix_join Project.render Project.render
      Project.no_error ["/p/b.py"; "/p/a.py"; "/p/b.py"] ["/p/a.py"] Project.sample_world
    = ((Project.MkWorld
          (Some (Project.project_data "demo" "/p" (Project.JStr <$> files')))
          (Project.MkFs (Project.fs_dirs (Project.disk Project.sample_world))
             (<[Project.posix_join "/p" ("demo" +:+ ".webe.json")
                := Project.render
                     (Project.project_data "demo" "/p" (Project.JStr <$> files'))]>
                (Project.fs_files (Project.disk Project.sample_world))))
          (Project.messages Project.sample_world),
        files'), inr tt) ∧
    NoDup files' ∧
    (∀ f, f ∈ files' ↔ f ∈ ["/p/a.py"] ∨ f ∈ ["/p/b.py"; "/p/a.py"; "/p/b.py"]) ∧
    (∃ new, files' = ["/p/a.py"] ++ new) ∧
    (["/p/b.py"; "/p/a.py"; "/p/b.py"] = [] → files' = ["/p/a.py"]).
Proof.
  apply (dialog_add_file_keeps_list_in_step Project.posix_join Project.render
           Project.render Project.no_error ["/p/b.py"; "/p/a.py"; "/p/b.py"]
           "demo" "/p" ["/p/a.py"] Project.sample_world).
  - reflexivity.
  - apply NoDup_singleton.
  - reflexivity.
Defined.
